(** * Expense tracker front end: session gate, list controllers and report renderer

    A shallow embedding of the client logic of the expense-tracker front end
    (React + TypeScript) and the properties its specification states about it.

    Conventions of the embedding.
    - A React component's state is a record; an event handler is a function
      from the state to the next state together with the backend calls it
      issued.  The reply of an awaited call is an argument of the handler.
    - [null] / [undefined] are [None]; JavaScript truthiness of a string is
      "present and not empty".
    - JavaScript numbers that hold page indexes are [Z]; amounts, percentages
      and angles are exact rationals [Q], extended with the three non-finite
      values where the source can produce them.  Where the program branches
      on a comparison of computed numbers that rounding can decide (the two
      tests of the pie chart), the comparison is made on the binary64 values
      themselves.
    - Text that the program only stores, compares and passes on is a
      [string]; text that it inspects character by character (the fields of
      the forms) is the list of its UTF-16 code units.  The case mapping of
      the engine is taken as given. *)

From stdpp Require Import gmap strings list.
From Stdlib Require Import Ascii ZArith QArith Lia Lqa.
From Stdlib Require SpecFloat.

Local Open Scope string_scope.
Local Open Scope Z_scope.

(** ** JavaScript values used by the views *)

(** Truthiness of a [string | null]: [null] and the empty string are falsy. *)
Definition truthy (v : option string) : bool :=
  match v with
  | Some s => negb (String.eqb s "")
  | None => false
  end.

(** [a || b] on [string | null] operands. *)
Definition js_or (a b : option string) : option string :=
  if truthy a then a else b.

(** [a || "literal"]: the right operand is a string literal. *)
Definition or_default (a : option string) (d : string) : string :=
  match a with
  | Some s => if String.eqb s "" then d else s
  | None => d
  end.

(** [n] rounds of a counting loop that is at index [i]: each round pushes
    [body(i)] and increments [i]. *)
Fixpoint for_loop {A} (n : nat) (i : Z) (body : Z -> A) : list A :=
  match n with
  | O => []
  | S n' => body i :: for_loop n' (i + 1) body
  end.

(** The counting loop [for (let i = lo; i < hi; i++) out.push(body(i))]: it
    makes [hi - lo] rounds, none when [hi <= lo]. *)
Definition for_range {A} (lo hi : Z) (body : Z -> A) : list A :=
  for_loop (Z.to_nat (hi - lo)) lo body.

(** The loop with an inclusive bound,
    [for (let i = lo; i <= hi; i++) out.push(body(i))]. *)
Definition for_range_incl {A} (lo hi : Z) (body : Z -> A) : list A :=
  for_range lo (hi + 1) body.

(** ** Pagination window (UserExpenseManagement.renderPageNumbers) *)

(** The elements pushed to [pageNumbers]: a button with its React key, the
    page its click handler passes to [handlePageChange], the number it
    displays and whether it carries the active style; or an ellipsis span
    with its key. *)
Inductive PageItem :=
| PageButton (key target label : Z) (active : bool)
| EllipsisSpan (key : string).

Definition maxVisiblePages : Z := 5.

(** A button of one of the loops: highlighted when it is the current page. *)
Definition loopButton (currentPage i : Z) : PageItem :=
  PageButton i i (i + 1) (currentPage =? i).

(** The first-page and last-page buttons outside the loops never carry the
    active style. *)
Definition firstButton : PageItem := PageButton 0 0 1 false.

Definition lastButton (totalPages : Z) : PageItem :=
  PageButton (totalPages - 1) (totalPages - 1) totalPages false.

Definition renderPageNumbers (totalPages currentPage : Z) : list PageItem :=
  if totalPages <=? maxVisiblePages then
    for_range 0 totalPages (loopButton currentPage)
  else if currentPage <? 3 then
    for_range 0 4 (loopButton currentPage)
      ++ [EllipsisSpan "ellipsis"]
      ++ [lastButton totalPages]
  else if totalPages - 3 <=? currentPage then
    [firstButton]
      ++ [EllipsisSpan "ellipsis"]
      ++ for_range (totalPages - 4) totalPages (loopButton currentPage)
  else
    [firstButton]
      ++ [EllipsisSpan "ellipsis1"]
      ++ for_range_incl (currentPage - 1) (currentPage + 1) (loopButton currentPage)
      ++ [EllipsisSpan "ellipsis2"]
      ++ [lastButton totalPages].

(** What the window shows at a position: a page index or an ellipsis. *)
Inductive Shown := Page (i : Z) | Dots.

Definition shown (it : PageItem) : Shown :=
  match it with
  | PageButton _ target _ _ => Page target
  | EllipsisSpan _ => Dots
  end.

Definition isButton (it : PageItem) : bool :=
  match it with PageButton _ _ _ _ => true | EllipsisSpan _ => false end.

(** ** Browser storage and the session gate *)

(** The two key/value stores of the browser. *)
Record Storage := {
  localStorage : gmap string string;
  sessionStorage : gmap string string
}.

(** [store.getItem(key)]: [null] when the key is absent. *)
Definition getItem (store : gmap string string) (key : string) : option string :=
  store !! key.

(** [localStorage.getItem(k) || sessionStorage.getItem(k)]. *)
Definition readItem (st : Storage) (key : string) : option string :=
  js_or (getItem (localStorage st) key) (getItem (sessionStorage st) key).

(** The values [JSON.parse] can return. *)
#[local] Set Warnings "-register-all".
Inductive JsValue :=
| JNull
| JBool (b : bool)
| JNum (q : Q)
| JStr (s : string)
| JArr (items : list JsValue)
| JObj (fields : list (string * JsValue)).

Inductive JsException := SyntaxError | TypeError.

(** Completion of an expression: a value, or an exception. *)
Inductive Completion (A : Type) :=
| Normal (a : A)
| Throw (e : JsException).
Arguments Normal {A} a.
Arguments Throw {A} e.

(** Own data property of an object literal, first binding of the key. *)
Fixpoint lookupField (fields : list (string * JsValue)) (key : string) : option JsValue :=
  match fields with
  | [] => None
  | (k, v) :: rest => if String.eqb k key then Some v else lookupField rest key
  end.

(** [v.key] for a key that is not a built-in property ([role], [id],
    [firstName], ...): reading from [null] throws, a primitive or an array
    has no such property ([undefined]). *)
Definition getProp (v : JsValue) (key : string) : Completion (option JsValue) :=
  match v with
  | JNull => Throw TypeError
  | JObj fields => Normal (lookupField fields key)
  | _ => Normal None
  end.

(** The ASCII letters [a]-[z] in upper case, every other byte as it is: a
    sample of an upper-casing, used where a concrete one is needed. *)
Definition upperAscii (c : ascii) : ascii :=
  let n := nat_of_ascii c in
  if (Nat.leb 97 n && Nat.leb n 122)%bool then ascii_of_nat (n - 32) else c.

Fixpoint toUpperCaseAscii (s : string) : string :=
  match s with
  | EmptyString => EmptyString
  | String c rest => String (upperAscii c) (toUpperCaseAscii rest)
  end.

(** [x !== "ADMIN"] for [x : string | undefined]. *)
Definition notAdmin (x : option string) : bool :=
  match x with
  | Some s => negb (String.eqb s "ADMIN")
  | None => true
  end.

Section RoleCheck.
(** [String.prototype.toUpperCase], the case mapping of the engine, is taken
    as given. *)
Variable toUpperCase : string -> string.

(** [role?.toUpperCase()]: [undefined] for a missing or [null] role, the
    upper-cased text for a string, a [TypeError] for any other value (it has
    no [toUpperCase] method). *)
Definition optToUpperCase (role : option JsValue) : Completion (option string) :=
  match role with
  | None => Normal None
  | Some JNull => Normal None
  | Some (JStr s) => Normal (Some (toUpperCase s))
  | Some _ => Throw TypeError
  end.

(** [userData.role?.toUpperCase() !== "ADMIN"]. *)
Definition roleIsNotAdmin (userData : JsValue) : Completion bool :=
  match getProp userData "role" with
  | Throw e => Throw e
  | Normal role =>
      match optToUpperCase role with
      | Throw e => Throw e
      | Normal up => Normal (notAdmin up)
      end
  end.

End RoleCheck.

(** Data a view loads from the backend. *)
Inductive Resource :=
| Users | Categories | Expenses | Summary | RequestLogEntries | Profile.

(** What an effect of a view does, in order. *)
Inductive Action :=
| Navigate (to : string)
| SetUser (userData : JsValue)
| SetEditForm (firstName lastName email : option JsValue)
| Fetch (what : Resource).

(** Run of an effect: it returns, or an uncaught exception ends it; either
    way with the actions performed so far. *)
Inductive Outcome :=
| Returned (acts : list Action)
| Threw (acts : list Action) (e : JsException).

Definition actions (o : Outcome) : list Action :=
  match o with
  | Returned acts => acts
  | Threw acts _ => acts
  end.

Definition isNavigate (a : Action) : bool :=
  match a with Navigate _ => true | _ => false end.

Definition isFetch (a : Action) : bool :=
  match a with Fetch _ => true | _ => false end.

(** The text of a truthy [string | null], [None] for a falsy one: the test
    [if (userStr)] followed by a use of [userStr]. *)
Definition whenTruthy (v : option string) : option string :=
  if truthy v then v else None.

(** Backend calls of the domain services. *)
Inductive ServiceCall :=
| ExpenseService_getAllExpenses (page size : Z)
| ExpenseService_deleteExpense (expenseId : string)
| CategoryService_getAllCategories
| CategoryService_deleteCategory (categoryId : string)
| UserService_getAllUsers (page size : Z)
| UserService_deleteUser (userId : string).

(** The value caught by [catch (err: any)], as far as the handlers read it:
    [err?.response?.data?.message] and [err?.message]. *)
Record JsError := {
  responseDataMessage : option string;
  message : option string
}.

(** Settlement of an awaited promise. *)
Inductive Reply (A : Type) :=
| Resolved (a : A)
| Rejected (err : JsError).
Arguments Resolved {A} a.
Arguments Rejected {A} err.

(** [err?.response?.data?.message || err?.message || fallback]. *)
Definition errorMessage (err : JsError) (fallback : string) : string :=
  or_default (js_or (responseDataMessage err) (message err)) fallback.

(** [x || dflt] for an optional field of a response. *)
Definition orElse {A} (x : option A) (dflt : A) : A :=
  match x with Some a => a | None => dflt end.

(** ** Models *)

Module Expense.
Record t := mk {
  id : string;
  title : string;
  amount : Q;
  description : string;
  expenseDate : string;
  categoryId : string;
  categoryName : option string;
  userId : string
}.
End Expense.

Module Category.
Record t := mk {
  id : string;
  name : string;
  description : option string;
  isActive : bool;
  createdAt : option string
}.
End Category.

Module User.
Record t := mk {
  id : string;
  firstName : string;
  lastName : string;
  email : string;
  role : string;
  createdAt : option string
}.
End User.

(** A page of a paginated collection, with the fields the views read; each
    may be missing from the payload. *)
Record PageResponse (A : Type) := {
  content : option (list A);
  totalPagesOf : option Z;
  totalElementsOf : option Z
}.
Arguments content {A} _.
Arguments totalPagesOf {A} _.
Arguments totalElementsOf {A} _.

(** ** AdminDashboard *)

Module AdminDashboard.
Section Gate.
Variable JSON_parse : string -> Completion JsValue.
Variable toUpperCase : string -> string.

Definition authEffect (st : Storage) : Outcome :=
  let token := readItem st "authToken" in
  let userStr := readItem st "user" in
  if negb (truthy token) then Returned [Navigate "/login"]
  else
    match whenTruthy userStr with
    | Some text =>
        match JSON_parse text with
        | Throw e => Threw [] e
        | Normal userData =>
            match roleIsNotAdmin toUpperCase userData with
            | Throw e => Threw [] e
            | Normal true => Returned [Navigate "/user/dashboard"]
            | Normal false => Returned [SetUser userData]
            end
        end
    | None => Returned []
    end.

End Gate.
End AdminDashboard.

(** ** UserExpenseManagement *)

Module UserExpenseManagement.

Record State := {
  expenses : list Expense.t;
  categories : list Category.t;
  loading : bool;
  error : option string;
  showAddExpenseDialog : bool;
  showEditExpenseDialog : bool;
  showDeleteDialog : bool;
  selectedExpense : option Expense.t;
  expenseToDelete : option Expense.t;
  validationErrors : gmap string string;
  currentPage : Z;
  pageSize : Z;
  totalPages : Z;
  totalElements : Z
}.

Definition setExpenses (v : list Expense.t) (s : State) : State :=
  {| expenses := v; categories := categories s; loading := loading s;
     error := error s; showAddExpenseDialog := showAddExpenseDialog s;
     showEditExpenseDialog := showEditExpenseDialog s;
     showDeleteDialog := showDeleteDialog s;
     selectedExpense := selectedExpense s; expenseToDelete := expenseToDelete s;
     validationErrors := validationErrors s; currentPage := currentPage s;
     pageSize := pageSize s; totalPages := totalPages s;
     totalElements := totalElements s |}.

Definition setLoading (v : bool) (s : State) : State :=
  {| expenses := expenses s; categories := categories s; loading := v;
     error := error s; showAddExpenseDialog := showAddExpenseDialog s;
     showEditExpenseDialog := showEditExpenseDialog s;
     showDeleteDialog := showDeleteDialog s;
     selectedExpense := selectedExpense s; expenseToDelete := expenseToDelete s;
     validationErrors := validationErrors s; currentPage := currentPage s;
     pageSize := pageSize s; totalPages := totalPages s;
     totalElements := totalElements s |}.

Definition setError (v : option string) (s : State) : State :=
  {| expenses := expenses s; categories := categories s; loading := loading s;
     error := v; showAddExpenseDialog := showAddExpenseDialog s;
     showEditExpenseDialog := showEditExpenseDialog s;
     showDeleteDialog := showDeleteDialog s;
     selectedExpense := selectedExpense s; expenseToDelete := expenseToDelete s;
     validationErrors := validationErrors s; currentPage := currentPage s;
     pageSize := pageSize s; totalPages := totalPages s;
     totalElements := totalElements s |}.

Definition setShowDeleteDialog (v : bool) (s : State) : State :=
  {| expenses := expenses s; categories := categories s; loading := loading s;
     error := error s; showAddExpenseDialog := showAddExpenseDialog s;
     showEditExpenseDialog := showEditExpenseDialog s;
     showDeleteDialog := v;
     selectedExpense := selectedExpense s; expenseToDelete := expenseToDelete s;
     validationErrors := validationErrors s; currentPage := currentPage s;
     pageSize := pageSize s; totalPages := totalPages s;
     totalElements := totalElements s |}.

Definition setExpenseToDelete (v : option Expense.t) (s : State) : State :=
  {| expenses := expenses s; categories := categories s; loading := loading s;
     error := error s; showAddExpenseDialog := showAddExpenseDialog s;
     showEditExpenseDialog := showEditExpenseDialog s;
     showDeleteDialog := showDeleteDialog s;
     selectedExpense := selectedExpense s; expenseToDelete := v;
     validationErrors := validationErrors s; currentPage := currentPage s;
     pageSize := pageSize s; totalPages := totalPages s;
     totalElements := totalElements s |}.

Definition setTotalPages (v : Z) (s : State) : State :=
  {| expenses := expenses s; categories := categories s; loading := loading s;
     error := error s; showAddExpenseDialog := showAddExpenseDialog s;
     showEditExpenseDialog := showEditExpenseDialog s;
     showDeleteDialog := showDeleteDialog s;
     selectedExpense := selectedExpense s; expenseToDelete := expenseToDelete s;
     validationErrors := validationErrors s; currentPage := currentPage s;
     pageSize := pageSize s; totalPages := v;
     totalElements := totalElements s |}.

Definition setTotalElements (v : Z) (s : State) : State :=
  {| expenses := expenses s; categories := categories s; loading := loading s;
     error := error s; showAddExpenseDialog := showAddExpenseDialog s;
     showEditExpenseDialog := showEditExpenseDialog s;
     showDeleteDialog := showDeleteDialog s;
     selectedExpense := selectedExpense s; expenseToDelete := expenseToDelete s;
     validationErrors := validationErrors s; currentPage := currentPage s;
     pageSize := pageSize s; totalPages := totalPages s;
     totalElements := v |}.

(** The gate effect, dependencies [navigate, currentPage, pageSize]. *)
Definition authEffect (st : Storage) : Outcome :=
  let token := readItem st "authToken" in
  if negb (truthy token) then Returned [Navigate "/login"]
  else Returned [Fetch Expenses; Fetch Categories].

(** [fetchExpenses], given the settlement of [getAllExpenses]. *)
Definition fetchExpenses (reply : Reply (PageResponse Expense.t)) (s : State)
  : State * list ServiceCall :=
  let s1 := setError None (setLoading true s) in
  let call := ExpenseService_getAllExpenses (currentPage s) (pageSize s) in
  let s2 :=
    match reply with
    | Resolved response =>
        setTotalElements (orElse (totalElementsOf response) 0)
          (setTotalPages (orElse (totalPagesOf response) 0)
            (setExpenses (orElse (content response) []) s1))
    | Rejected err =>
        setError (Some (errorMessage err "Failed to load expenses")) s1
    end in
  (setLoading false s2, [call]).

Definition openDeleteDialog (expense : Expense.t) (s : State) : State :=
  setShowDeleteDialog true (setExpenseToDelete (Some expense) s).

(** [handleDeleteExpense], given the settlements of the delete call and of
    the reload that follows a successful delete. *)
Definition handleDeleteExpense (deleted : Reply unit)
    (reload : Reply (PageResponse Expense.t)) (s : State)
  : State * list ServiceCall :=
  match expenseToDelete s with
  | None => (s, [])
  | Some target =>
      let call := ExpenseService_deleteExpense (Expense.id target) in
      match deleted with
      | Resolved _ =>
          let '(s1, calls) := fetchExpenses reload s in
          (setExpenseToDelete None (setShowDeleteDialog false s1), call :: calls)
      | Rejected err =>
          (setExpenseToDelete None
             (setShowDeleteDialog false
                (setError (Some (errorMessage err "Failed to delete expense")) s)),
           [call])
      end
  end.

Definition handlePageChange (newPage : Z) (s : State) : State :=
  {| expenses := expenses s; categories := categories s; loading := loading s;
     error := error s; showAddExpenseDialog := showAddExpenseDialog s;
     showEditExpenseDialog := showEditExpenseDialog s;
     showDeleteDialog := showDeleteDialog s;
     selectedExpense := selectedExpense s; expenseToDelete := expenseToDelete s;
     validationErrors := validationErrors s; currentPage := newPage;
     pageSize := pageSize s; totalPages := totalPages s;
     totalElements := totalElements s |}.

(** The page buttons of the current state. *)
Definition pageNumbers (s : State) : list PageItem :=
  renderPageNumbers (totalPages s) (currentPage s).

End UserExpenseManagement.

(** ** CategoryManagement *)

Module CategoryManagement.

Record State := {
  categories : list Category.t;
  loading : bool;
  error : option string;
  searchTerm : string;
  showAddCategoryDialog : bool;
  showEditCategoryDialog : bool;
  selectedCategory : option Category.t;
  validationErrors : gmap string string;
  totalElements : Z;
  showDeleteDialog : bool;
  categoryToDelete : option Category.t
}.

Definition setCategories (v : list Category.t) (s : State) : State :=
  {| categories := v; loading := loading s; error := error s;
     searchTerm := searchTerm s;
     showAddCategoryDialog := showAddCategoryDialog s;
     showEditCategoryDialog := showEditCategoryDialog s;
     selectedCategory := selectedCategory s;
     validationErrors := validationErrors s; totalElements := totalElements s;
     showDeleteDialog := showDeleteDialog s;
     categoryToDelete := categoryToDelete s |}.

Definition setLoading (v : bool) (s : State) : State :=
  {| categories := categories s; loading := v; error := error s;
     searchTerm := searchTerm s;
     showAddCategoryDialog := showAddCategoryDialog s;
     showEditCategoryDialog := showEditCategoryDialog s;
     selectedCategory := selectedCategory s;
     validationErrors := validationErrors s; totalElements := totalElements s;
     showDeleteDialog := showDeleteDialog s;
     categoryToDelete := categoryToDelete s |}.

Definition setError (v : option string) (s : State) : State :=
  {| categories := categories s; loading := loading s; error := v;
     searchTerm := searchTerm s;
     showAddCategoryDialog := showAddCategoryDialog s;
     showEditCategoryDialog := showEditCategoryDialog s;
     selectedCategory := selectedCategory s;
     validationErrors := validationErrors s; totalElements := totalElements s;
     showDeleteDialog := showDeleteDialog s;
     categoryToDelete := categoryToDelete s |}.

Definition setTotalElements (v : Z) (s : State) : State :=
  {| categories := categories s; loading := loading s; error := error s;
     searchTerm := searchTerm s;
     showAddCategoryDialog := showAddCategoryDialog s;
     showEditCategoryDialog := showEditCategoryDialog s;
     selectedCategory := selectedCategory s;
     validationErrors := validationErrors s; totalElements := v;
     showDeleteDialog := showDeleteDialog s;
     categoryToDelete := categoryToDelete s |}.

Definition setShowDeleteDialog (v : bool) (s : State) : State :=
  {| categories := categories s; loading := loading s; error := error s;
     searchTerm := searchTerm s;
     showAddCategoryDialog := showAddCategoryDialog s;
     showEditCategoryDialog := showEditCategoryDialog s;
     selectedCategory := selectedCategory s;
     validationErrors := validationErrors s; totalElements := totalElements s;
     showDeleteDialog := v;
     categoryToDelete := categoryToDelete s |}.

Definition setCategoryToDelete (v : option Category.t) (s : State) : State :=
  {| categories := categories s; loading := loading s; error := error s;
     searchTerm := searchTerm s;
     showAddCategoryDialog := showAddCategoryDialog s;
     showEditCategoryDialog := showEditCategoryDialog s;
     selectedCategory := selectedCategory s;
     validationErrors := validationErrors s; totalElements := totalElements s;
     showDeleteDialog := showDeleteDialog s;
     categoryToDelete := v |}.

Section Gate.
Variable JSON_parse : string -> Completion JsValue.
Variable toUpperCase : string -> string.

(** The gate effect, dependencies [navigate]. *)
Definition authEffect (st : Storage) : Outcome :=
  let token := readItem st "authToken" in
  let userStr := readItem st "user" in
  if negb (truthy token) then Returned [Navigate "/login"]
  else
    match whenTruthy userStr with
    | Some text =>
        match JSON_parse text with
        | Throw e => Threw [] e
        | Normal userData =>
            match roleIsNotAdmin toUpperCase userData with
            | Throw e => Threw [] e
            | Normal true => Returned [Navigate "/user/dashboard"]
            | Normal false => Returned [Fetch Categories]
            end
        end
    | None => Returned [Fetch Categories]
    end.

End Gate.

Definition fetchCategories (reply : Reply (PageResponse Category.t)) (s : State)
  : State * list ServiceCall :=
  let s1 := setError None (setLoading true s) in
  let s2 :=
    match reply with
    | Resolved response =>
        setTotalElements (orElse (totalElementsOf response) 0)
          (setCategories (orElse (content response) []) s1)
    | Rejected err =>
        setError (Some (errorMessage err "Failed to load categories")) s1
    end in
  (setLoading false s2, [CategoryService_getAllCategories]).

Definition openDeleteDialog (category : Category.t) (s : State) : State :=
  setShowDeleteDialog true (setCategoryToDelete (Some category) s).

(** [category.id !== categoryToDelete.id] *)
Definition otherThan (target : Category.t) (category : Category.t) : bool :=
  negb (String.eqb (Category.id category) (Category.id target)).

Definition handleDeleteCategory (deleted : Reply unit) (s : State)
  : State * list ServiceCall :=
  match categoryToDelete s with
  | None => (s, [])
  | Some target =>
      let call := CategoryService_deleteCategory (Category.id target) in
      match deleted with
      | Resolved _ =>
          let s1 := setCategories (List.filter (otherThan target) (categories s)) s in
          let s2 := setTotalElements (totalElements s1 - 1) s1 in
          (setCategoryToDelete None (setShowDeleteDialog false s2), [call])
      | Rejected err =>
          (setCategoryToDelete None
             (setShowDeleteDialog false
                (setError (Some (errorMessage err "Failed to delete category")) s)),
           [call])
      end
  end.

End CategoryManagement.

(** ** UserManagement *)

Module UserManagement.

Record State := {
  users : list User.t;
  loading : bool;
  error : option string;
  searchTerm : string;
  filterRole : string;
  showAddUserDialog : bool;
  showEditUserDialog : bool;
  selectedUser : option User.t;
  validationErrors : gmap string string;
  currentPage : Z;
  pageSize : Z;
  totalPages : Z;
  totalElements : Z;
  showDeleteDialog : bool;
  userToDelete : option User.t
}.

Definition setUsers (v : list User.t) (s : State) : State :=
  {| users := v; loading := loading s; error := error s;
     searchTerm := searchTerm s; filterRole := filterRole s;
     showAddUserDialog := showAddUserDialog s;
     showEditUserDialog := showEditUserDialog s;
     selectedUser := selectedUser s; validationErrors := validationErrors s;
     currentPage := currentPage s; pageSize := pageSize s;
     totalPages := totalPages s; totalElements := totalElements s;
     showDeleteDialog := showDeleteDialog s; userToDelete := userToDelete s |}.

Definition setLoading (v : bool) (s : State) : State :=
  {| users := users s; loading := v; error := error s;
     searchTerm := searchTerm s; filterRole := filterRole s;
     showAddUserDialog := showAddUserDialog s;
     showEditUserDialog := showEditUserDialog s;
     selectedUser := selectedUser s; validationErrors := validationErrors s;
     currentPage := currentPage s; pageSize := pageSize s;
     totalPages := totalPages s; totalElements := totalElements s;
     showDeleteDialog := showDeleteDialog s; userToDelete := userToDelete s |}.

Definition setError (v : option string) (s : State) : State :=
  {| users := users s; loading := loading s; error := v;
     searchTerm := searchTerm s; filterRole := filterRole s;
     showAddUserDialog := showAddUserDialog s;
     showEditUserDialog := showEditUserDialog s;
     selectedUser := selectedUser s; validationErrors := validationErrors s;
     currentPage := currentPage s; pageSize := pageSize s;
     totalPages := totalPages s; totalElements := totalElements s;
     showDeleteDialog := showDeleteDialog s; userToDelete := userToDelete s |}.

Definition setTotalPages (v : Z) (s : State) : State :=
  {| users := users s; loading := loading s; error := error s;
     searchTerm := searchTerm s; filterRole := filterRole s;
     showAddUserDialog := showAddUserDialog s;
     showEditUserDialog := showEditUserDialog s;
     selectedUser := selectedUser s; validationErrors := validationErrors s;
     currentPage := currentPage s; pageSize := pageSize s;
     totalPages := v; totalElements := totalElements s;
     showDeleteDialog := showDeleteDialog s; userToDelete := userToDelete s |}.

Definition setTotalElements (v : Z) (s : State) : State :=
  {| users := users s; loading := loading s; error := error s;
     searchTerm := searchTerm s; filterRole := filterRole s;
     showAddUserDialog := showAddUserDialog s;
     showEditUserDialog := showEditUserDialog s;
     selectedUser := selectedUser s; validationErrors := validationErrors s;
     currentPage := currentPage s; pageSize := pageSize s;
     totalPages := totalPages s; totalElements := v;
     showDeleteDialog := showDeleteDialog s; userToDelete := userToDelete s |}.

Definition setShowDeleteDialog (v : bool) (s : State) : State :=
  {| users := users s; loading := loading s; error := error s;
     searchTerm := searchTerm s; filterRole := filterRole s;
     showAddUserDialog := showAddUserDialog s;
     showEditUserDialog := showEditUserDialog s;
     selectedUser := selectedUser s; validationErrors := validationErrors s;
     currentPage := currentPage s; pageSize := pageSize s;
     totalPages := totalPages s; totalElements := totalElements s;
     showDeleteDialog := v; userToDelete := userToDelete s |}.

Definition setUserToDelete (v : option User.t) (s : State) : State :=
  {| users := users s; loading := loading s; error := error s;
     searchTerm := searchTerm s; filterRole := filterRole s;
     showAddUserDialog := showAddUserDialog s;
     showEditUserDialog := showEditUserDialog s;
     selectedUser := selectedUser s; validationErrors := validationErrors s;
     currentPage := currentPage s; pageSize := pageSize s;
     totalPages := totalPages s; totalElements := totalElements s;
     showDeleteDialog := showDeleteDialog s; userToDelete := v |}.

Section Gate.
Variable JSON_parse : string -> Completion JsValue.
Variable toUpperCase : string -> string.

(** The gate effect, dependencies [navigate]. *)
Definition authEffect (st : Storage) : Outcome :=
  let token := readItem st "authToken" in
  let userStr := readItem st "user" in
  if negb (truthy token) then Returned [Navigate "/login"]
  else
    match whenTruthy userStr with
    | Some text =>
        match JSON_parse text with
        | Throw e => Threw [] e
        | Normal userData =>
            match roleIsNotAdmin toUpperCase userData with
            | Throw e => Threw [] e
            | Normal true => Returned [Navigate "/user/dashboard"]
            | Normal false => Returned [Fetch Users]
            end
        end
    | None => Returned [Fetch Users]
    end.

(** The second effect, dependencies [currentPage, pageSize]: it reads no
    storage. *)
Definition pageEffect : Outcome := Returned [Fetch Users].

(** The effects React runs when the view is mounted, in declaration order. *)
Definition mountEffects (st : Storage) : list Outcome :=
  [authEffect st; pageEffect].

End Gate.

Definition fetchUsers (reply : Reply (PageResponse User.t)) (s : State)
  : State * list ServiceCall :=
  let s1 := setError None (setLoading true s) in
  let call := UserService_getAllUsers (currentPage s) (pageSize s) in
  let s2 :=
    match reply with
    | Resolved response =>
        setTotalElements (orElse (totalElementsOf response) 0)
          (setTotalPages (orElse (totalPagesOf response) 0)
            (setUsers (orElse (content response) []) s1))
    | Rejected err =>
        setError (Some (errorMessage err "Failed to load users")) s1
    end in
  (setLoading false s2, [call]).

Definition openDeleteDialog (user : User.t) (s : State) : State :=
  setShowDeleteDialog true (setUserToDelete (Some user) s).

Definition handleDeleteUser (deleted : Reply unit)
    (reload : Reply (PageResponse User.t)) (s : State)
  : State * list ServiceCall :=
  match userToDelete s with
  | None => (s, [])
  | Some target =>
      let call := UserService_deleteUser (User.id target) in
      match deleted with
      | Resolved _ =>
          let '(s1, calls) := fetchUsers reload s in
          (setUserToDelete None (setShowDeleteDialog false s1), call :: calls)
      | Rejected err =>
          (setUserToDelete None
             (setShowDeleteDialog false
                (setError (Some (errorMessage err "Failed to delete user")) s)),
           [call])
      end
  end.

End UserManagement.

(** ** RequestLogs, UserDashboard, UserProfile: the gate effects *)

Module RequestLogs.
Section Gate.
Variable JSON_parse : string -> Completion JsValue.
Variable toUpperCase : string -> string.

Definition authEffect (st : Storage) : Outcome :=
  let token := readItem st "authToken" in
  let userStr := readItem st "user" in
  if negb (truthy token) then Returned [Navigate "/login"]
  else
    match whenTruthy userStr with
    | Some text =>
        match JSON_parse text with
        | Throw e => Threw [] e
        | Normal userData =>
            match roleIsNotAdmin toUpperCase userData with
            | Throw e => Threw [] e
            | Normal true => Returned [Navigate "/user/dashboard"]
            | Normal false => Returned [Fetch RequestLogEntries]
            end
        end
    | None => Returned [Fetch RequestLogEntries]
    end.

End Gate.
End RequestLogs.

Module UserDashboard.
Section Gate.
Variable JSON_parse : string -> Completion JsValue.

Definition authEffect (st : Storage) : Outcome :=
  let token := readItem st "authToken" in
  let userStr := readItem st "user" in
  if negb (truthy token) then Returned [Navigate "/login"]
  else
    match whenTruthy userStr with
    | Some text =>
        match JSON_parse text with
        | Throw e => Threw [] e
        | Normal userData => Returned [SetUser userData]
        end
    | None => Returned []
    end.

End Gate.
End UserDashboard.

Module UserProfile.
Section Gate.
Variable JSON_parse : string -> Completion JsValue.

(** [{firstName: userData.firstName, lastName: ..., email: ...}] *)
Definition editFormOf (userData : JsValue) : Completion Action :=
  match getProp userData "firstName" with
  | Throw e => Throw e
  | Normal firstName =>
      match getProp userData "lastName" with
      | Throw e => Throw e
      | Normal lastName =>
          match getProp userData "email" with
          | Throw e => Throw e
          | Normal email => Normal (SetEditForm firstName lastName email)
          end
      end
  end.

Definition authEffect (st : Storage) : Outcome :=
  let token := readItem st "authToken" in
  let userStr := readItem st "user" in
  if negb (truthy token) then Returned [Navigate "/login"]
  else
    match whenTruthy userStr with
    | Some text =>
        match JSON_parse text with
        | Throw e => Threw [] e
        | Normal userData =>
            match editFormOf userData with
            | Throw e => Threw [SetUser userData] e
            | Normal form => Returned [SetUser userData; form; Fetch Profile]
            end
        end
    | None => Returned [Fetch Profile]
    end.

End Gate.
End UserProfile.

(** ** ReportService *)

Module ReportService.

Record SummaryFilters := {
  categoryId : option string;
  month : option string
}.

(** The empty object [{}]. *)
Definition noFilters : SummaryFilters :=
  {| categoryId := None; month := None |}.

(** A request handed to the HTTP wrapper: [api.get(url, params)]. *)
Record ApiGet := {
  url : string;
  params : gmap string string
}.

(** [filters?.field]: [undefined] when [filters] itself is. *)
Definition field (filters : option SummaryFilters)
    (proj : SummaryFilters -> option string) : option string :=
  match filters with
  | Some f => proj f
  | None => None
  end.

(** [if (value) params[key] = value] *)
Definition addParam (key : string) (value : option string)
    (params : gmap string string) : gmap string string :=
  match whenTruthy value with
  | Some v => <[key := v]> params
  | None => params
  end.

Definition getSummary (filters : option SummaryFilters) : ApiGet :=
  let params0 : gmap string string := ∅ in
  let params1 := addParam "categoryId" (field filters categoryId) params0 in
  let params2 := addParam "month" (field filters month) params1 in
  {| url := "/expenses/summary"; params := params2 |}.

End ReportService.

(** ** Numbers of the chart arithmetic *)

(** A JavaScript number: an exact rational or one of the non-finite values.
    The sign of zero is not modelled. *)
Inductive JsNumber :=
| Finite (q : Q)
| PosInfinity
| NegInfinity
| NaN.

Definition isZero (q : Q) : bool := Qeq_bool q 0.

Definition isNegative (q : Q) : bool := negb (Qle_bool 0 q).

(** [a / b] *)
Definition jsDiv (a b : JsNumber) : JsNumber :=
  match a, b with
  | NaN, _ => NaN
  | _, NaN => NaN
  | Finite x, Finite y =>
      if isZero y then
        if isZero x then NaN
        else if isNegative x then NegInfinity else PosInfinity
      else Finite (x / y)
  | Finite _, _ => Finite 0
  | PosInfinity, Finite y => if isNegative y then NegInfinity else PosInfinity
  | NegInfinity, Finite y => if isNegative y then PosInfinity else NegInfinity
  | _, _ => NaN
  end.

(** [a * b] *)
Definition jsMul (a b : JsNumber) : JsNumber :=
  match a, b with
  | NaN, _ => NaN
  | _, NaN => NaN
  | Finite x, Finite y => Finite (x * y)
  | Finite x, PosInfinity | PosInfinity, Finite x =>
      if isZero x then NaN
      else if isNegative x then NegInfinity else PosInfinity
  | Finite x, NegInfinity | NegInfinity, Finite x =>
      if isZero x then NaN
      else if isNegative x then PosInfinity else NegInfinity
  | PosInfinity, PosInfinity | NegInfinity, NegInfinity => PosInfinity
  | _, _ => NegInfinity
  end.

(** [a - b] *)
Definition jsSub (a b : JsNumber) : JsNumber :=
  match a, b with
  | NaN, _ => NaN
  | _, NaN => NaN
  | Finite x, Finite y => Finite (x - y)
  | Finite _, PosInfinity => NegInfinity
  | Finite _, NegInfinity => PosInfinity
  | PosInfinity, NegInfinity | PosInfinity, Finite _ => PosInfinity
  | NegInfinity, PosInfinity | NegInfinity, Finite _ => NegInfinity
  | _, _ => NaN
  end.

(** The larger of two numbers, as [Math.max] folds its arguments. *)
Definition jsMax (a b : JsNumber) : JsNumber :=
  match a, b with
  | NaN, _ => NaN
  | _, NaN => NaN
  | PosInfinity, _ => PosInfinity
  | _, PosInfinity => PosInfinity
  | NegInfinity, y => y
  | x, NegInfinity => x
  | Finite x, Finite y => if Qle_bool x y then Finite y else Finite x
  end.

(** [Math.max(...values)]: [-Infinity] for no argument. *)
Definition Math_max (values : list Q) : JsNumber :=
  fold_left (fun acc v => jsMax acc (Finite v)) values NegInfinity.

(** ** UserExpenseReport *)

Module CategoryBreakdown.
Record t := mk {
  categoryName : string;
  totalAmount : Q;
  count : Z;
  percentage : Q
}.
End CategoryBreakdown.

Module MonthlyBreakdown.
Record t := mk {
  month : string;
  totalAmount : Q;
  count : Z
}.
End MonthlyBreakdown.

Module UserExpenseReport.

Record SummaryData := {
  totalAmount : Q;
  totalCount : Z;
  averageAmount : Q;
  maxAmount : Q;
  minAmount : Q;
  categoryBreakdown : list CategoryBreakdown.t;
  monthlyBreakdown : list MonthlyBreakdown.t
}.

Record State := {
  summary : option SummaryData;
  loading : bool;
  error : option string;
  categories : list Category.t;
  selectedCategoryId : string;
  selectedMonth : string
}.

Definition setSummary (v : option SummaryData) (s : State) : State :=
  {| summary := v; loading := loading s; error := error s;
     categories := categories s; selectedCategoryId := selectedCategoryId s;
     selectedMonth := selectedMonth s |}.

Definition setLoading (v : bool) (s : State) : State :=
  {| summary := summary s; loading := v; error := error s;
     categories := categories s; selectedCategoryId := selectedCategoryId s;
     selectedMonth := selectedMonth s |}.

Definition setError (v : option string) (s : State) : State :=
  {| summary := summary s; loading := loading s; error := v;
     categories := categories s; selectedCategoryId := selectedCategoryId s;
     selectedMonth := selectedMonth s |}.

Definition setSelectedCategoryId (v : string) (s : State) : State :=
  {| summary := summary s; loading := loading s; error := error s;
     categories := categories s; selectedCategoryId := v;
     selectedMonth := selectedMonth s |}.

Definition setSelectedMonth (v : string) (s : State) : State :=
  {| summary := summary s; loading := loading s; error := error s;
     categories := categories s; selectedCategoryId := selectedCategoryId s;
     selectedMonth := v |}.

(** The gate effect, dependencies [navigate]. *)
Definition authEffect (st : Storage) : Outcome :=
  let token := readItem st "authToken" in
  if negb (truthy token) then Returned [Navigate "/login"]
  else Returned [Fetch Categories; Fetch Summary].

(** The [filters] object [fetchSummary] builds from the two selections. *)
Definition filtersOf (s : State) : ReportService.SummaryFilters :=
  {| ReportService.categoryId := whenTruthy (Some (selectedCategoryId s));
     ReportService.month := whenTruthy (Some (selectedMonth s)) |}.

(** [fetchSummary] up to its [await]: the flags are set and the request is
    issued with the filters of the render the call was made from. *)
Definition fetchSummary (s : State) : State * list ReportService.SummaryFilters :=
  (setError None (setLoading true s), [filtersOf s]).

(** [fetchSummary] from the settlement of the request on. *)
Definition fetchSummarySettled (reply : Reply SummaryData) (s : State) : State :=
  let s1 :=
    match reply with
    | Resolved response => setSummary (Some response) s
    | Rejected err => setError (Some (errorMessage err "Failed to load summary")) s
    end in
  setLoading false s1.

Definition handleFilterChange (s : State) : State * list ReportService.SummaryFilters :=
  fetchSummary s.

Definition handleClearFilters (s : State) : State :=
  setSelectedMonth "" (setSelectedCategoryId "" s).

(** The effect with dependencies [selectedCategoryId, selectedMonth]. *)
Definition filterEffect (s : State) : State * list ReportService.SummaryFilters :=
  if (negb (truthy (Some (selectedCategoryId s)))
      && negb (truthy (Some (selectedMonth s)))
      && bool_decide (is_Some (summary s)))%bool
  then fetchSummary s
  else (s, []).

(** React compares the dependency array of the new render with the one of
    the previous render and runs the effect when an entry differs. *)
Definition depsChanged (prev next : State) : bool :=
  (negb (String.eqb (selectedCategoryId prev) (selectedCategoryId next))
   || negb (String.eqb (selectedMonth prev) (selectedMonth next)))%bool.

(** What the user and the network do to a mounted report view. *)
Inductive Event :=
| ChangeCategory (value : string)
| ChangeMonth (value : string)
| ClickApply
| ClickClear
| SummarySettled (reply : Reply SummaryData).

(** The handler of an event. *)
Definition handle (ev : Event) (s : State) : State * list ReportService.SummaryFilters :=
  match ev with
  | ChangeCategory value => (setSelectedCategoryId value s, [])
  | ChangeMonth value => (setSelectedMonth value s, [])
  | ClickApply => handleFilterChange s
  | ClickClear => (handleClearFilters s, [])
  | SummarySettled reply => (fetchSummarySettled reply s, [])
  end.

(** One event: the handler runs, the state updates of the handler are
    committed in one render, and the filter effect runs if its dependencies
    changed.  The result is the new state and the calls of
    [ReportService.getSummary] that were issued, in order. *)
Definition step (s : State) (ev : Event) : State * list ReportService.SummaryFilters :=
  let '(s1, calls1) := handle ev s in
  if depsChanged s s1 then
    let '(s2, calls2) := filterEffect s1 in (s2, (calls1 ++ calls2)%list)
  else (s1, calls1).

(** The state of a freshly mounted view and its mount effects. *)
Definition initialState : State :=
  {| summary := None; loading := true; error := None; categories := [];
     selectedCategoryId := ""; selectedMonth := "" |}.

Definition bothEmpty (s : State) : bool :=
  (String.eqb (selectedCategoryId s) "" && String.eqb (selectedMonth s) "")%bool.

(** *** Pie chart *)

Definition colors : list string :=
  ["#3b82f6"; "#10b981"; "#f59e0b"; "#ef4444";
   "#8b5cf6"; "#ec4899"; "#06b6d4"; "#f97316"].

(** [colors[index % colors.length]] *)
Definition colorOf (index : nat) : string :=
  nth (index mod length colors) colors "".

(** The element drawn for a category: a [<circle>] at the centre with the
    radius of the chart, or a [<path>] from the centre along the arc between
    two angles (in degrees) with its large-arc flag.  The end points of the
    arc are the cosine and sine of the two angles and are not computed
    here. *)
Inductive Slice :=
| CircleSlice (key : nat) (fill : string)
| ArcSlice (key : nat) (startAngle endAngle : Q) (largeArc : Z) (fill : string).

(** The numbers of the program are binary64 values.  [binary64 q] is the one
    nearest to the rational [q], ties to even: the value of a number written
    [q] in the payload or in the program.  It is computed as the correctly
    rounded quotient of the numerator by the denominator. *)
Definition binary64 (q : Q) : SpecFloat.spec_float :=
  match Qnum q with
  | Z0 => SpecFloat.S754_zero false
  | Zpos n =>
      SpecFloat.SFdiv 53 1024 (SpecFloat.S754_finite false n 0)
        (SpecFloat.S754_finite false (Qden q) 0)
  | Zneg n =>
      SpecFloat.SFdiv 53 1024 (SpecFloat.S754_finite true n 0)
        (SpecFloat.S754_finite false (Qden q) 0)
  end.

(** [(category.percentage / 100) * 360] as it is computed: the quotient is
    rounded, then the product. *)
Definition angle64 (category : CategoryBreakdown.t) : SpecFloat.spec_float :=
  SpecFloat.SFmul 53 1024
    (SpecFloat.SFdiv 53 1024 (binary64 (CategoryBreakdown.percentage category))
       (binary64 100))
    (binary64 360).

(** The same angle without the rounding.  The start and end angles of the
    arcs are kept as such rationals, which stand for the rounded sums of the
    program; the two comparisons of the callback are made on [angle64], as
    the program makes them. *)
Definition angleOf (category : CategoryBreakdown.t) : Q :=
  ((CategoryBreakdown.percentage category / 100) * 360)%Q.

(** [categories.length === 1 || angle >= 359.9] *)
Definition drawnAsCircle (len : nat) (angle : SpecFloat.spec_float) : bool :=
  (Nat.eqb len 1 || SpecFloat.SFleb (binary64 (3599 # 10)) angle)%bool.

(** [angle > 180] *)
Definition isLargeArc (angle : SpecFloat.spec_float) : bool :=
  SpecFloat.SFltb (binary64 180) angle.

(** The callback of [categories.map], run over the categories from [index]
    on with the value [currentAngle] has when it reaches them. *)
Fixpoint mapSlices (len : nat) (index : nat) (currentAngle : Q)
    (categories : list CategoryBreakdown.t) : list Slice :=
  match categories with
  | [] => []
  | category :: rest =>
      if drawnAsCircle len (angle64 category) then
        CircleSlice index (colorOf index) :: mapSlices len (S index) currentAngle rest
      else
        let startAngle := currentAngle in
        let endAngle := (currentAngle + angleOf category)%Q in
        let largeArc := if isLargeArc (angle64 category) then 1 else 0 in
        ArcSlice index startAngle endAngle largeArc (colorOf index)
          :: mapSlices len (S index) endAngle rest
  end.

(** The slices of the chart, [None] for the [null] returned when there is no
    category.  The legend is not part of the model. *)
Definition generatePieChart (categories : list CategoryBreakdown.t)
  : option (list Slice) :=
  if Nat.eqb (length categories) 0 then None
  else Some (mapSlices (length categories) 0 0%Q categories).

(** *** Bar chart *)

Definition barWidth : Q := 40%Q.
Definition barSpacing : Q := 20%Q.
Definition chartHeight : Q := 250%Q.
Definition chartTopPadding : Q := 20%Q.
Definition chartLeftPadding : Q := 60%Q.
Definition barChartHeight : Q := (chartHeight - chartTopPadding)%Q.

(** The [<rect>] of a month. *)
Record Bar := {
  barKey : nat;
  barX : Q;
  barY : JsNumber;
  barHeight : JsNumber
}.

(** [Math.max(...monthlyData.map(m => m.totalAmount))] *)
Definition seriesMax (monthlyData : list MonthlyBreakdown.t) : JsNumber :=
  Math_max (map MonthlyBreakdown.totalAmount monthlyData).

(** The callback of [monthlyData.map] for the bars. *)
Definition barOf (maxAmount : JsNumber) (index : nat) (month : MonthlyBreakdown.t) : Bar :=
  let height :=
    jsMul (jsDiv (Finite (MonthlyBreakdown.totalAmount month)) maxAmount)
          (Finite barChartHeight) in
  let x := (chartLeftPadding + (inject_Z (Z.of_nat index) * (barWidth + barSpacing))
            + barSpacing)%Q in
  let y := jsSub (Finite chartHeight) height in
  {| barKey := index; barX := x; barY := y; barHeight := height |}.

(** The bars of the chart, [None] for the [null] returned when there is no
    month.  Axes and labels are not part of the model. *)
Definition generateBarChart (monthlyData : list MonthlyBreakdown.t)
  : option (list Bar) :=
  if Nat.eqb (length monthlyData) 0 then None
  else
    let maxAmount := seriesMax monthlyData in
    Some (imap (barOf maxAmount) monthlyData).

End UserExpenseReport.

(** ** The protected views and their gates *)

Inductive View :=
| AdminDashboardView
| UserManagementView
| CategoryManagementView
| RequestLogsView
| UserDashboardView
| UserExpenseManagementView
| UserExpenseReportView
| UserProfileView.

Section Gates.
Variable JSON_parse : string -> Completion JsValue.
Variable toUpperCase : string -> string.

(** The gate effect a view runs when it is activated. *)
Definition gate (v : View) (st : Storage) : Outcome :=
  match v with
  | AdminDashboardView => AdminDashboard.authEffect JSON_parse toUpperCase st
  | UserManagementView => UserManagement.authEffect JSON_parse toUpperCase st
  | CategoryManagementView => CategoryManagement.authEffect JSON_parse toUpperCase st
  | RequestLogsView => RequestLogs.authEffect JSON_parse toUpperCase st
  | UserDashboardView => UserDashboard.authEffect JSON_parse st
  | UserExpenseManagementView => UserExpenseManagement.authEffect st
  | UserExpenseReportView => UserExpenseReport.authEffect st
  | UserProfileView => UserProfile.authEffect JSON_parse st
  end.

End Gates.

(** The views whose gate compares the cached role with ["ADMIN"]. *)
Definition adminOnly (v : View) : bool :=
  match v with
  | AdminDashboardView | UserManagementView
  | CategoryManagementView | RequestLogsView => true
  | _ => false
  end.

(** The admin-only views that load a list from the backend, with the list
    they load. *)
Definition managedResource (v : View) : option Resource :=
  match v with
  | UserManagementView => Some Users
  | CategoryManagementView => Some Categories
  | RequestLogsView => Some RequestLogEntries
  | _ => None
  end.

(** * Specification vocabulary

    The notions the properties below are stated with, and the sample data
    they are tried on. *)

(** The windows of the specification's examples, as the numbers the buttons
    display. *)
Definition displayed (it : PageItem) : option Z :=
  match it with
  | PageButton _ _ label _ => Some label
  | EllipsisSpan _ => None
  end.

(** A token is present: a non-empty value under [authToken] in the durable
    or in the tab-scoped store. *)
Definition tokenPresent (st : Storage) : Prop :=
  exists token, token <> "" /\
    (getItem (localStorage st) "authToken" = Some token
     \/ getItem (sessionStorage st) "authToken" = Some token).

(** No value is stored under the key in either store. *)
Definition absent (st : Storage) (key : string) : Prop :=
  getItem (localStorage st) key = None /\ getItem (sessionStorage st) key = None.

(** The effect performs no navigation. *)
Definition noRedirect (o : Outcome) : Prop :=
  forallb (fun a => negb (isNavigate a)) (actions o) = true.

(** The effect starts no load of backend data. *)
Definition noFetch (o : Outcome) : Prop :=
  forallb (fun a => negb (isFetch a)) (actions o) = true.

(** The double-quote character, as a one-character text. *)
Definition quote : string := String (ascii_of_nat 34) EmptyString.

(** The JSON text of an object with the single member [role]. *)
Definition profileText (role : string) : string :=
  "{" +:+ quote +:+ "role" +:+ quote +:+ ":" +:+ quote +:+ role +:+ quote +:+ "}".

(** A parser that knows two profile texts and rejects every other text. *)
Definition sampleParse (text : string) : Completion JsValue :=
  if String.eqb text (profileText "admin") then
    Normal (JObj [("role", JStr "admin")])
  else if String.eqb text (profileText "USER") then
    Normal (JObj [("role", JStr "USER")])
  else Throw SyntaxError.

(** A tab-scoped session of a user with the given role. *)
Definition sessionOf (role : string) : Storage :=
  {| localStorage := ∅;
     sessionStorage := <["authToken" := "t0k3n"]> (<["user" := profileText role]> ∅) |}.

(** A profile left behind in the durable store, without a token. *)
Definition staleProfile : Storage :=
  {| localStorage := <["user" := profileText "admin"]> ∅; sessionStorage := ∅ |}.

(** A token without a profile. *)
Definition tokenOnly : Storage :=
  {| localStorage := <["authToken" := "t0k3n"]> ∅; sessionStorage := ∅ |}.

(** The first candidate that is present and not empty, the fallback when
    there is none. *)
Fixpoint firstAvailable (candidates : list (option string)) (fallback : string) : string :=
  match candidates with
  | [] => fallback
  | Some text :: rest =>
      if String.eqb text "" then firstAvailable rest fallback else text
  | None :: rest => firstAvailable rest fallback
  end.

(** A filter is unset: it is [undefined] (also when the filter object itself
    is) or the empty string. *)
Definition unset (value : option string) : Prop :=
  value = None \/ value = Some "".

(** The event takes the two filters from a state where one of them is set to
    the state where both are empty. *)
Definition clearsFilters (s : UserExpenseReport.State) (ev : UserExpenseReport.Event) : Prop :=
  UserExpenseReport.bothEmpty s = false
  /\ UserExpenseReport.bothEmpty (fst (UserExpenseReport.step s ev)) = true.

(** A summary over no expense. *)
Definition sampleSummary : UserExpenseReport.SummaryData :=
  {| UserExpenseReport.totalAmount := 0%Q;
     UserExpenseReport.totalCount := 0;
     UserExpenseReport.averageAmount := 0%Q;
     UserExpenseReport.maxAmount := 0%Q;
     UserExpenseReport.minAmount := 0%Q;
     UserExpenseReport.categoryBreakdown := [];
     UserExpenseReport.monthlyBreakdown := [] |}.

(** A loaded report with both filters set. *)
Definition filteredReport : UserExpenseReport.State :=
  {| UserExpenseReport.summary := Some sampleSummary;
     UserExpenseReport.loading := false;
     UserExpenseReport.error := None;
     UserExpenseReport.categories := [];
     UserExpenseReport.selectedCategoryId := "7";
     UserExpenseReport.selectedMonth := "2024-05" |}.

(** The first clause of the claim on the report view, read alone: a change
    of a filter value issues no request. *)
Definition changeAloneNeverFetches : Prop :=
  forall (s : UserExpenseReport.State) (value : string),
    snd (UserExpenseReport.step s (UserExpenseReport.ChangeCategory value)) = []
    /\ snd (UserExpenseReport.step s (UserExpenseReport.ChangeMonth value)) = [].

(** The sum of a list of angles, added from 0 in list order. *)
Definition sumAngles (angles : list Q) : Q := fold_left Qplus angles 0%Q.

(** The sum of the central angles of the slices before position [i]. *)
Definition cumulativeAngle (categories : list CategoryBreakdown.t) (i : nat) : Q :=
  sumAngles (map UserExpenseReport.angleOf (firstn i categories)).

(** The condition of the full circle as the claim words it: a single
    category, or a central angle [percentage / 100 * 360] of at least 359.9
    degrees. *)
Definition fullCircle (categories : list CategoryBreakdown.t)
    (category : CategoryBreakdown.t) : Prop :=
  length categories = 1%nat
  \/ (3599 # 10 <= UserExpenseReport.angleOf category)%Q.

(** The category is drawn as an arc in a breakdown of [len] categories. *)
Definition isArc (len : nat) (category : CategoryBreakdown.t) : bool :=
  negb (UserExpenseReport.drawnAsCircle len (UserExpenseReport.angle64 category)).

(** The layout read with the cumulative angle of all preceding slices: the
    slice at every position is a circle exactly under the full-circle
    condition, and otherwise an arc from the cumulative angle of the slices
    before it to that angle plus its own. *)
Definition laidOutFromAllPreceding (categories : list CategoryBreakdown.t) : Prop :=
  forall slices, UserExpenseReport.generatePieChart categories = Some slices ->
  forall i category, categories !! i = Some category ->
    match slices !! i with
    | Some (UserExpenseReport.CircleSlice _ _) => fullCircle categories category
    | Some (UserExpenseReport.ArcSlice _ startAngle endAngle _ _) =>
        ~ fullCircle categories category
        /\ (startAngle == cumulativeAngle categories i)%Q
        /\ (endAngle == startAngle + UserExpenseReport.angleOf category)%Q
    | None => False
    end.

(** A breakdown whose first category takes 99.98 percent. *)
Definition nearlyAll : list CategoryBreakdown.t :=
  [CategoryBreakdown.mk "Rent" (4999 # 1) 49 (9998 # 100);
   CategoryBreakdown.mk "Misc" (1 # 1) 1 (2 # 100)].

(** Two months, the second half of the first. *)
Definition twoMonths : list MonthlyBreakdown.t :=
  [MonthlyBreakdown.mk "2024-01" (10 # 1) 4; MonthlyBreakdown.mk "2024-02" (5 # 1) 1].

(** * Further parts of the views

    The handlers and helpers around the code above: the pagination bar, the
    remaining outcomes of the list controllers, the session life cycle, the
    form validations and the chart geometry. *)

(** ** UserExpenseManagement: the pagination bar *)

Module PaginationBar.

(** The controls of the bar: the four navigation buttons with the page
    their click handler passes to [handlePageChange] and their [disabled]
    attribute, and the elements of [renderPageNumbers] between them. *)
Inductive Control :=
| NavButton (label : string) (target : Z) (disabled : bool)
| Numbered (item : PageItem).

Definition paginationButtons (s : UserExpenseManagement.State) : list Control :=
  let currentPage := UserExpenseManagement.currentPage s in
  let totalPages := UserExpenseManagement.totalPages s in
  [NavButton "First" 0 (currentPage =? 0);
   NavButton "Previous" (currentPage - 1) (currentPage =? 0)]
  ++ map Numbered (UserExpenseManagement.pageNumbers s)
  ++ [NavButton "Next" (currentPage + 1) (totalPages - 1 <=? currentPage);
      NavButton "Last" (totalPages - 1) (totalPages - 1 <=? currentPage)].

(** [totalPages > 0 && (<div> ... </div>)]: the bar is rendered only when
    there is a page. *)
Definition paginationContainer (s : UserExpenseManagement.State)
  : option (list Control) :=
  if 0 <? UserExpenseManagement.totalPages s then Some (paginationButtons s)
  else None.

(** The page a click on a control asks for: a disabled button receives no
    click and an ellipsis has no handler. *)
Definition clicked (c : Control) : option Z :=
  match c with
  | NavButton _ target disabled => if disabled then None else Some target
  | Numbered (PageButton _ target _ _) => Some target
  | Numbered (EllipsisSpan _) => None
  end.

(** The state after a click on a control. *)
Definition click (c : Control) (s : UserExpenseManagement.State)
  : UserExpenseManagement.State :=
  match clicked c with
  | Some page => UserExpenseManagement.handlePageChange page s
  | None => s
  end.

End PaginationBar.

(** The element carries the active style. *)
Definition isActive (it : PageItem) : bool :=
  match it with
  | PageButton _ _ _ active => active
  | EllipsisSpan _ => false
  end.

(** A button is the button of page [target]: its key and the page it asks
    for are [target] and it displays [target + 1]. *)
Definition buttonOf (it : PageItem) (target : Z) : Prop :=
  exists active, it = PageButton target target (target + 1) active.

(** A window reads coherently: it shows pages only in increasing order, two
    neighbouring buttons are consecutive pages, and an ellipsis stands
    between two buttons that are at least one page apart. *)
Fixpoint coherent (window : list Shown) : bool :=
  match window with
  | [] => true
  | Dots :: _ => false
  | Page a :: rest =>
      match rest with
      | [] => true
      | Page b :: _ => (b =? a + 1) && coherent rest
      | Dots :: rest' =>
          match rest' with
          | Page b :: _ => (a + 2 <=? b) && coherent rest'
          | _ => false
          end
      end
  end.

(** An expense view without expenses on page [currentPage] of
    [totalPages]. *)
Definition expenseViewAt (currentPage totalPages : Z) : UserExpenseManagement.State :=
  {| UserExpenseManagement.expenses := [];
     UserExpenseManagement.categories := [];
     UserExpenseManagement.loading := false;
     UserExpenseManagement.error := None;
     UserExpenseManagement.showAddExpenseDialog := false;
     UserExpenseManagement.showEditExpenseDialog := false;
     UserExpenseManagement.showDeleteDialog := false;
     UserExpenseManagement.selectedExpense := None;
     UserExpenseManagement.expenseToDelete := None;
     UserExpenseManagement.validationErrors := ∅;
     UserExpenseManagement.currentPage := currentPage;
     UserExpenseManagement.pageSize := 10;
     UserExpenseManagement.totalPages := totalPages;
     UserExpenseManagement.totalElements := totalPages * 10 |}.

(** ** Text of the form fields *)

(** A JavaScript string is a sequence of UTF-16 code units; [length], [trim]
    and the character classes of a pattern without the [u] flag work on
    these units.  The text of a form field is held as that sequence. *)
Definition JsText : Type := list N.

(** The code units of a text of ASCII characters: one unit per character. *)
Definition asciiText (s : string) : JsText :=
  map N_of_ascii (String.list_ascii_of_string s).

(** [!text] for a string: only the empty text is falsy. *)
Definition isEmpty (text : JsText) : bool :=
  match text with
  | [] => true
  | _ :: _ => false
  end.

(** White space and line terminators, the units that [\s] matches and [trim]
    removes: tab, line feed, vertical tab, form feed, carriage return, space,
    no-break space (U+00A0), U+1680, U+2000 to U+200A, the line and the
    paragraph separator (U+2028, U+2029), U+202F, U+205F, U+3000 and the
    byte order mark (U+FEFF). *)
Definition isWhiteSpace (c : N) : bool :=
  ((c =? 9) || (c =? 10) || (c =? 11) || (c =? 12) || (c =? 13) || (c =? 32)
   || (c =? 160) || (c =? 5760) || ((8192 <=? c) && (c <=? 8202))
   || (c =? 8232) || (c =? 8233) || (c =? 8239) || (c =? 8287)
   || (c =? 12288) || (c =? 65279))%N%bool.

Fixpoint dropWhile {A} (p : A -> bool) (l : list A) : list A :=
  match l with
  | [] => []
  | x :: rest => if p x then dropWhile p rest else l
  end.

(** [String.prototype.trim]: the white space at both ends is removed. *)
Definition trim (text : JsText) : JsText :=
  rev (dropWhile isWhiteSpace (rev (dropWhile isWhiteSpace text))).

(** [!text?.trim()] for [text : string | undefined]. *)
Definition isBlank (text : option JsText) : bool :=
  match text with
  | Some s => isEmpty (trim s)
  | None => true
  end.

(** [Object.keys(errors).length === 0] *)
Definition noErrors (errors : gmap string string) : bool :=
  Nat.eqb (length (map_to_list errors)) 0.

(** ** CategoryManagement: the add and edit dialogs *)

Module CategoryDialogs.

(** [CreateCategoryRequest], the draft of the add dialog. *)
Record CreateCategoryRequest := {
  name : JsText;
  description : JsText;
  isActive : bool
}.

(** [Partial<Category>] as the edit dialog fills it. *)
Record EditCategoryForm := {
  editName : option JsText;
  editDescription : option JsText;
  editIsActive : option bool
}.

(** The state of the view together with its two drafts. *)
Record State := {
  view : CategoryManagement.State;
  newCategoryForm : CreateCategoryRequest;
  editCategoryForm : EditCategoryForm
}.

(** Backend calls of the two dialogs. *)
Inductive Call :=
| CategoryService_createCategory (request : CreateCategoryRequest)
| CategoryService_updateCategory (categoryId : string) (form : EditCategoryForm).

Definition emptyNewForm : CreateCategoryRequest :=
  {| name := []; description := []; isActive := true |}.

(** The empty object [{}]. *)
Definition emptyEditForm : EditCategoryForm :=
  {| editName := None; editDescription := None; editIsActive := None |}.

Definition setValidationErrors (v : gmap string string)
    (s : CategoryManagement.State) : CategoryManagement.State :=
  {| CategoryManagement.categories := CategoryManagement.categories s;
     CategoryManagement.loading := CategoryManagement.loading s;
     CategoryManagement.error := CategoryManagement.error s;
     CategoryManagement.searchTerm := CategoryManagement.searchTerm s;
     CategoryManagement.showAddCategoryDialog := CategoryManagement.showAddCategoryDialog s;
     CategoryManagement.showEditCategoryDialog := CategoryManagement.showEditCategoryDialog s;
     CategoryManagement.selectedCategory := CategoryManagement.selectedCategory s;
     CategoryManagement.validationErrors := v;
     CategoryManagement.totalElements := CategoryManagement.totalElements s;
     CategoryManagement.showDeleteDialog := CategoryManagement.showDeleteDialog s;
     CategoryManagement.categoryToDelete := CategoryManagement.categoryToDelete s |}.

Definition setShowAddCategoryDialog (v : bool)
    (s : CategoryManagement.State) : CategoryManagement.State :=
  {| CategoryManagement.categories := CategoryManagement.categories s;
     CategoryManagement.loading := CategoryManagement.loading s;
     CategoryManagement.error := CategoryManagement.error s;
     CategoryManagement.searchTerm := CategoryManagement.searchTerm s;
     CategoryManagement.showAddCategoryDialog := v;
     CategoryManagement.showEditCategoryDialog := CategoryManagement.showEditCategoryDialog s;
     CategoryManagement.selectedCategory := CategoryManagement.selectedCategory s;
     CategoryManagement.validationErrors := CategoryManagement.validationErrors s;
     CategoryManagement.totalElements := CategoryManagement.totalElements s;
     CategoryManagement.showDeleteDialog := CategoryManagement.showDeleteDialog s;
     CategoryManagement.categoryToDelete := CategoryManagement.categoryToDelete s |}.

Definition setShowEditCategoryDialog (v : bool)
    (s : CategoryManagement.State) : CategoryManagement.State :=
  {| CategoryManagement.categories := CategoryManagement.categories s;
     CategoryManagement.loading := CategoryManagement.loading s;
     CategoryManagement.error := CategoryManagement.error s;
     CategoryManagement.searchTerm := CategoryManagement.searchTerm s;
     CategoryManagement.showAddCategoryDialog := CategoryManagement.showAddCategoryDialog s;
     CategoryManagement.showEditCategoryDialog := v;
     CategoryManagement.selectedCategory := CategoryManagement.selectedCategory s;
     CategoryManagement.validationErrors := CategoryManagement.validationErrors s;
     CategoryManagement.totalElements := CategoryManagement.totalElements s;
     CategoryManagement.showDeleteDialog := CategoryManagement.showDeleteDialog s;
     CategoryManagement.categoryToDelete := CategoryManagement.categoryToDelete s |}.

Definition setSelectedCategory (v : option Category.t)
    (s : CategoryManagement.State) : CategoryManagement.State :=
  {| CategoryManagement.categories := CategoryManagement.categories s;
     CategoryManagement.loading := CategoryManagement.loading s;
     CategoryManagement.error := CategoryManagement.error s;
     CategoryManagement.searchTerm := CategoryManagement.searchTerm s;
     CategoryManagement.showAddCategoryDialog := CategoryManagement.showAddCategoryDialog s;
     CategoryManagement.showEditCategoryDialog := CategoryManagement.showEditCategoryDialog s;
     CategoryManagement.selectedCategory := v;
     CategoryManagement.validationErrors := CategoryManagement.validationErrors s;
     CategoryManagement.totalElements := CategoryManagement.totalElements s;
     CategoryManagement.showDeleteDialog := CategoryManagement.showDeleteDialog s;
     CategoryManagement.categoryToDelete := CategoryManagement.categoryToDelete s |}.

(** A state update of the view inside the state with the drafts. *)
Definition onView (f : CategoryManagement.State -> CategoryManagement.State)
    (s : State) : State :=
  {| view := f (view s); newCategoryForm := newCategoryForm s;
     editCategoryForm := editCategoryForm s |}.

Definition setNewCategoryForm (v : CreateCategoryRequest) (s : State) : State :=
  {| view := view s; newCategoryForm := v; editCategoryForm := editCategoryForm s |}.

Definition setEditCategoryForm (v : EditCategoryForm) (s : State) : State :=
  {| view := view s; newCategoryForm := newCategoryForm s; editCategoryForm := v |}.

(** The [errors] object both validations build from the name of a draft. *)
Definition nameErrors (name : option JsText) : gmap string string :=
  if isBlank name then {["name" := "Category name is required"]} else ∅.

(** [validateAddCategory]: the errors are stored and the result tells
    whether there is none. *)
Definition validateAddCategory (s : State) : State * bool :=
  let errors := nameErrors (Some (name (newCategoryForm s))) in
  (onView (setValidationErrors errors) s, noErrors errors).

Definition validateEditCategory (s : State) : State * bool :=
  let errors := nameErrors (editName (editCategoryForm s)) in
  (onView (setValidationErrors errors) s, noErrors errors).

(** [handleAddCategory], given the settlement of [createCategory]. *)
Definition handleAddCategory (created : Reply Category.t) (s : State)
  : State * list Call :=
  let '(s1, valid) := validateAddCategory s in
  if negb valid then (s1, [])
  else
    let call := CategoryService_createCategory (newCategoryForm s) in
    match created with
    | Resolved response =>
        let s2 := onView (CategoryManagement.setCategories
                            (CategoryManagement.categories (view s) ++ [response])) s1 in
        let s3 := onView (setShowAddCategoryDialog false) s2 in
        let s4 := setNewCategoryForm emptyNewForm s3 in
        let s5 := onView (setValidationErrors ∅) s4 in
        (onView (fun v => CategoryManagement.setTotalElements
                            (CategoryManagement.totalElements v + 1) v) s5,
         [call])
    | Rejected err =>
        (onView (CategoryManagement.setError
                   (Some (errorMessage err "Failed to create category"))) s1,
         [call])
    end.

(** A member of an object of the backend: missing from the object, or
    present with its value, which for an optional member may be [null]. *)
Inductive Member (A : Type) :=
| Missing
| Present (value : A).
Arguments Missing {A}.
Arguments Present {A} value.

(** The answer of [updateCategory] as the object it is: any member of a
    category may be missing from it. *)
Record CategoryAnswer := {
  answerId : Member string;
  answerName : Member string;
  answerDescription : Member (option string);
  answerIsActive : Member bool;
  answerCreatedAt : Member (option string)
}.

(** The value of a member after the spread: the one of the answer when the
    answer has the member, whatever its value, the former one otherwise. *)
Definition over {A} (answer : Member A) (former : A) : A :=
  match answer with
  | Present value => value
  | Missing => former
  end.

(** [{ ...category, ...response }] *)
Definition spread (category : Category.t) (response : CategoryAnswer) : Category.t :=
  {| Category.id := over (answerId response) (Category.id category);
     Category.name := over (answerName response) (Category.name category);
     Category.description :=
       over (answerDescription response) (Category.description category);
     Category.isActive := over (answerIsActive response) (Category.isActive category);
     Category.createdAt :=
       over (answerCreatedAt response) (Category.createdAt category) |}.

(** The callback of [categories.map] in [handleUpdateCategory]. *)
Definition patch (selected : Category.t) (response : CategoryAnswer)
    (category : Category.t) : Category.t :=
  if String.eqb (Category.id category) (Category.id selected)
  then spread category response else category.

(** [handleUpdateCategory], given the settlement of [updateCategory]. *)
Definition handleUpdateCategory (updated : Reply CategoryAnswer) (s : State)
  : State * list Call :=
  match CategoryManagement.selectedCategory (view s) with
  | None => (s, [])
  | Some selected =>
      let '(s1, valid) := validateEditCategory s in
      if negb valid then (s1, [])
      else
        let call := CategoryService_updateCategory (Category.id selected)
                      (editCategoryForm s) in
        match updated with
        | Resolved response =>
            let s2 := onView (CategoryManagement.setCategories
                                (map (patch selected response)
                                     (CategoryManagement.categories (view s)))) s1 in
            let s3 := onView (setShowEditCategoryDialog false) s2 in
            let s4 := onView (setSelectedCategory None) s3 in
            let s5 := setEditCategoryForm emptyEditForm s4 in
            (onView (setValidationErrors ∅) s5, [call])
        | Rejected err =>
            (onView (CategoryManagement.setError
                       (Some (errorMessage err "Failed to update category"))) s1,
             [call])
        end
  end.

End CategoryDialogs.

(** The amount by which the counter of the view exceeds the number of
    categories it lists. *)
Definition surplus (s : CategoryManagement.State) : Z :=
  CategoryManagement.totalElements s - Z.of_nat (length (CategoryManagement.categories s)).

(** Two categories and a view that lists them. *)
Definition food : Category.t :=
  Category.mk "c1" "Food" (Some "Groceries") true None.

Definition rent : Category.t :=
  Category.mk "c2" "Rent" None true None.

Definition categoryViewOf (listed : list Category.t) : CategoryManagement.State :=
  {| CategoryManagement.categories := listed;
     CategoryManagement.loading := false;
     CategoryManagement.error := None;
     CategoryManagement.searchTerm := "";
     CategoryManagement.showAddCategoryDialog := false;
     CategoryManagement.showEditCategoryDialog := false;
     CategoryManagement.selectedCategory := None;
     CategoryManagement.validationErrors := ∅;
     CategoryManagement.totalElements := Z.of_nat (length listed);
     CategoryManagement.showDeleteDialog := false;
     CategoryManagement.categoryToDelete := None |}.

(** An error of the transport without a message of the backend. *)
Definition networkError : JsError :=
  {| responseDataMessage := None; message := Some "Network Error" |}.

(** The text consists of white space only (the empty text included). *)
Definition allWhiteSpace (text : JsText) : Prop :=
  forallb isWhiteSpace text = true.

(** An expense and an expense view that has it selected for deletion on the
    last of three pages. *)
Definition lunch : Expense.t :=
  Expense.mk "e21" "Lunch" (12 # 1) "Team lunch" "2024-05-02" "c1" (Some "Food") "u1".

Definition lastPageView : UserExpenseManagement.State :=
  UserExpenseManagement.openDeleteDialog lunch
    (UserExpenseManagement.setExpenses [lunch] (expenseViewAt 2 3)).

(** A category view with its dialogs' drafts. *)
Definition dialogsOf (listed : list Category.t) (draftName : JsText)
  : CategoryDialogs.State :=
  {| CategoryDialogs.view := categoryViewOf listed;
     CategoryDialogs.newCategoryForm :=
       {| CategoryDialogs.name := draftName;
          CategoryDialogs.description := [];
          CategoryDialogs.isActive := true |};
     CategoryDialogs.editCategoryForm := CategoryDialogs.emptyEditForm |}.

(** The same view with [selected] opened in the edit dialog under the name
    [draftName]. *)
Definition editing (listed : list Category.t) (selected : Category.t)
    (draftName : JsText) : CategoryDialogs.State :=
  {| CategoryDialogs.view :=
       CategoryDialogs.setShowEditCategoryDialog true
         (CategoryDialogs.setSelectedCategory (Some selected) (categoryViewOf listed));
     CategoryDialogs.newCategoryForm := CategoryDialogs.emptyNewForm;
     CategoryDialogs.editCategoryForm :=
       {| CategoryDialogs.editName := Some draftName;
          CategoryDialogs.editDescription := Some [];
          CategoryDialogs.editIsActive := Some true |} |}.

(** An answer that renames a category and carries a [null] description. *)
Definition renamed (newName : string) : CategoryDialogs.CategoryAnswer :=
  {| CategoryDialogs.answerId := CategoryDialogs.Missing;
     CategoryDialogs.answerName := CategoryDialogs.Present newName;
     CategoryDialogs.answerDescription := CategoryDialogs.Present None;
     CategoryDialogs.answerIsActive := CategoryDialogs.Present true;
     CategoryDialogs.answerCreatedAt := CategoryDialogs.Missing |}.

(** ** Session life cycle: storage writes, logout, bearer token *)

(** [store.setItem(key, value)] and [store.removeItem(key)]. *)
Definition setItem (store : gmap string string) (key value : string)
  : gmap string string :=
  <[key := value]> store.

Definition removeItem (store : gmap string string) (key : string)
  : gmap string string :=
  delete key store.

(** Truthiness of a parsed value. *)
Definition jsTruthy (v : JsValue) : bool :=
  match v with
  | JNull => false
  | JBool b => b
  | JNum q => negb (Qeq_bool q 0)
  | JStr s => negb (String.eqb s "")
  | JArr _ => true
  | JObj _ => true
  end.

(** The four [removeItem] calls and the navigation that the dashboards'
    [handleLogout] and the default of the toolbar share. *)
Definition clearSession (st : Storage) : Storage * list Action :=
  let local1 := removeItem (localStorage st) "authToken" in
  let local2 := removeItem local1 "user" in
  let session1 := removeItem (sessionStorage st) "authToken" in
  let session2 := removeItem session1 "user" in
  ({| localStorage := local2; sessionStorage := session2 |}, [Navigate "/login"]).

Module Toolbar.

(** [handleLogout] of the toolbar: the callback of the page when it passed
    one, the default otherwise. *)
Definition handleLogout (onLogout : option (Storage -> Storage * list Action))
    (st : Storage) : Storage * list Action :=
  match onLogout with
  | Some callback => callback st
  | None => clearSession st
  end.

End Toolbar.

(** [handleLogout] of AdminDashboard and of UserDashboard, which they pass
    to the toolbar. *)
Definition dashboardLogout (st : Storage) : Storage * list Action :=
  clearSession st.

Module AuthService.

(** The payload of the three authentication endpoints. *)
Record AuthResponse := {
  token : option string;
  user : option JsValue
}.

Section Persist.
Variable JSON_stringify : JsValue -> string.

(** [if (data.user) storage.setItem("user", JSON.stringify(data.user))] *)
Definition storeUser (user : option JsValue) (session : gmap string string)
  : gmap string string :=
  match user with
  | Some u => if jsTruthy u then setItem session "user" (JSON_stringify u) else session
  | None => session
  end.

(** What [login], [register] and [verifyOtp] do with a response: a truthy
    token is written to the tab-scoped store, and the user with it when
    there is one. *)
Definition persist (data : AuthResponse) (st : Storage) : Storage :=
  match whenTruthy (token data) with
  | Some t =>
      {| localStorage := localStorage st;
         sessionStorage :=
           storeUser (user data) (setItem (sessionStorage st) "authToken" t) |}
  | None => st
  end.

(** [verifyOtp], given the settlement of the request: the storage after it
    and what the caller awaits. *)
Definition verifyOtp (reply : Reply AuthResponse) (st : Storage)
  : Storage * Reply AuthResponse :=
  match reply with
  | Resolved data => (persist data st, Resolved data)
  | Rejected err => (st, Rejected err)
  end.

(** [login] differs from [verifyOtp] in the request it sends only. *)
Definition login (reply : Reply AuthResponse) (st : Storage)
  : Storage * Reply AuthResponse :=
  match reply with
  | Resolved data => (persist data st, Resolved data)
  | Rejected err => (st, Rejected err)
  end.

End Persist.

Definition logout (st : Storage) : Storage :=
  {| localStorage := localStorage st;
     sessionStorage :=
       removeItem (removeItem (sessionStorage st) "authToken") "user" |}.

Definition getToken (st : Storage) : option string :=
  getItem (sessionStorage st) "authToken".

End AuthService.

(** [data.user?.role?.toUpperCase()] followed by the choice of the landing
    route. *)
Definition userRole (toUpperCase : string -> string) (user : option JsValue)
    : Completion (option string) :=
  match user with
  | None => Normal None
  | Some JNull => Normal None
  | Some u =>
      match getProp u "role" with
      | Throw e => Throw e
      | Normal role => optToUpperCase toUpperCase role
      end
  end.

Definition landingRoute (role : option string) : string :=
  match role with
  | Some r =>
      if String.eqb r "ADMIN" then "/admin/dashboard"
      else if String.eqb r "USER" then "/user/dashboard"
      else "/"
  | None => "/"
  end.

Module RegisterVerification.

Record State := {
  otp : string;
  loading : bool;
  error : string;
  resendLoading : bool;
  resendSuccess : string
}.

Definition setError (v : string) (s : State) : State :=
  {| otp := otp s; loading := loading s; error := v;
     resendLoading := resendLoading s; resendSuccess := resendSuccess s |}.

Definition setLoading (v : bool) (s : State) : State :=
  {| otp := otp s; loading := v; error := error s;
     resendLoading := resendLoading s; resendSuccess := resendSuccess s |}.

Section Verify.
Variable JSON_stringify : JsValue -> string.
(** The message an exception of the engine carries. *)
Variable messageOf : JsException -> string.
Variable toUpperCase : string -> string.

(** [err instanceof Error ? err.message : 'Verification failed'] for a
    rejected request: an error with a message is an [Error]. *)
Definition rejectionText (err : JsError) : string :=
  match message err with
  | Some m => m
  | None => "Verification failed"
  end.

(** [handleVerify], given the settlement of the request of [verifyOtp]: the
    state, the storage and the navigation after it. *)
Definition handleVerify (reply : Reply AuthService.AuthResponse)
    (st : Storage) (s : State) : State * Storage * list Action :=
  let s1 := setLoading true (setError "" s) in
  let '(st1, response) := AuthService.verifyOtp JSON_stringify reply st in
  match response with
  | Rejected err => (setLoading false (setError (rejectionText err) s1), st1, [])
  | Resolved data =>
      match whenTruthy (AuthService.token data) with
      | None => (setLoading false (setError "Invalid OTP" s1), st1, [])
      | Some t =>
          let st2 :=
            {| localStorage := localStorage st1;
               sessionStorage :=
                 AuthService.storeUser JSON_stringify (AuthService.user data)
                   (setItem (sessionStorage st1) "authToken" t) |} in
          match userRole toUpperCase (AuthService.user data) with
          | Throw e => (setLoading false (setError (messageOf e) s1), st2, [])
          | Normal role => (setLoading false s1, st2, [Navigate (landingRoute role)])
          end
      end
  end.

End Verify.
End RegisterVerification.

(** ** The HTTP wrapper: the bearer token of a request *)

Module ApiService.

(** The instance with its in-memory token. *)
Record t := { authToken : option string }.

Definition setToken (token : string) (api : t) : t := {| authToken := Some token |}.

Definition clearToken (api : t) : t := {| authToken := None |}.

Definition getToken (api : t) : option string := authToken api.

(** [this.authToken || localStorage.getItem("authToken")
     || sessionStorage.getItem("authToken")] *)
Definition resolveToken (api : t) (st : Storage) : option string :=
  js_or (js_or (authToken api) (getItem (localStorage st) "authToken"))
        (getItem (sessionStorage st) "authToken").

(** The request interceptor on the headers of a request. *)
Definition attachToken (api : t) (st : Storage) (headers : gmap string string)
  : gmap string string :=
  match whenTruthy (resolveToken api st) with
  | Some token => <["Authorization" := "Bearer " +:+ token]> headers
  | None => headers
  end.

End ApiService.

(** A response of the backend for a signed-in user with the given role. *)
Definition signedIn (role : string) : AuthService.AuthResponse :=
  {| AuthService.token := Some "t0k3n";
     AuthService.user := Some (JObj [("role", JStr role)]) |}.

(** A serializer for the sample profiles. *)
Definition sampleStringify (v : JsValue) : string :=
  match v with
  | JObj [(_, JStr role)] => profileText role
  | _ => "null"
  end.

(** No entry in either store. *)
Definition emptyStorage : Storage :=
  {| localStorage := ∅; sessionStorage := ∅ |}.

(** The state of the verification page before the code is sent. *)
Definition enteringCode : RegisterVerification.State :=
  {| RegisterVerification.otp := "493021";
     RegisterVerification.loading := false;
     RegisterVerification.error := "";
     RegisterVerification.resendLoading := false;
     RegisterVerification.resendSuccess := "" |}.

(** ** Regular expressions of the validations *)

Module Regex.

(** The fragment of the pattern syntax the validations use: character
    classes, concatenation, alternation and repetition.  A pattern without
    the [u] flag reads the text one code unit at a time. *)
Inductive t :=
| Never
| Epsilon
| Class (member : N -> bool)
| Seq (r1 r2 : t)
| Alt (r1 r2 : t)
| Star (r : t).

(** [r+] *)
Definition Plus (r : t) : t := Seq r (Star r).

(** The pattern matches the empty text. *)
Fixpoint nullable (r : t) : bool :=
  match r with
  | Never => false
  | Epsilon => true
  | Class _ => false
  | Seq r1 r2 => nullable r1 && nullable r2
  | Alt r1 r2 => nullable r1 || nullable r2
  | Star _ => true
  end.

(** The pattern of what may follow the character [c]. *)
Fixpoint derive (c : N) (r : t) : t :=
  match r with
  | Never => Never
  | Epsilon => Never
  | Class member => if member c then Epsilon else Never
  | Seq r1 r2 =>
      if nullable r1 then Alt (Seq (derive c r1) r2) (derive c r2)
      else Seq (derive c r1) r2
  | Alt r1 r2 => Alt (derive c r1) (derive c r2)
  | Star r1 => Seq (derive c r1) (Star r1)
  end.

Fixpoint matchFrom (r : t) (text : JsText) : bool :=
  match text with
  | [] => nullable r
  | c :: rest => matchFrom (derive c r) rest
  end.

(** [/^r$/.test(text)] *)
Definition test (r : t) (text : JsText) : bool :=
  matchFrom r text.

(** The texts of a pattern. *)
Inductive Matches : t -> JsText -> Prop :=
| MatchEpsilon : Matches Epsilon []
| MatchClass member c : member c = true -> Matches (Class member) [c]
| MatchSeq r1 r2 a b :
    Matches r1 a -> Matches r2 b -> Matches (Seq r1 r2) (a ++ b)%list
| MatchAltL r1 r2 a : Matches r1 a -> Matches (Alt r1 r2) a
| MatchAltR r1 r2 a : Matches r2 a -> Matches (Alt r1 r2) a
| MatchStarNil r : Matches (Star r) []
| MatchStarApp r a b :
    Matches r a -> Matches (Star r) b -> Matches (Star r) (a ++ b)%list.

End Regex.

(** The code units of [@] and of the full stop. *)
Definition atSign : N := 64%N.
Definition fullStop : N := 46%N.

(** [[^\s@]]: a unit that is neither white space nor [@]. *)
Definition plainChar (c : N) : bool :=
  (negb (isWhiteSpace c) && negb (N.eqb c atSign))%bool.

Definition isChar (expected : N) (c : N) : bool := N.eqb c expected.

(** [/^[^\s@]+@[^\s@]+\.[^\s@]+$/] *)
Definition emailRe : Regex.t :=
  Regex.Seq (Regex.Plus (Regex.Class plainChar))
    (Regex.Seq (Regex.Class (isChar atSign))
       (Regex.Seq (Regex.Plus (Regex.Class plainChar))
          (Regex.Seq (Regex.Class (isChar fullStop))
             (Regex.Plus (Regex.Class plainChar))))).

(** A non-empty run of units that are neither white space nor [@]. *)
Definition plainRun (run : JsText) : Prop :=
  run <> [] /\ forallb plainChar run = true.

(** The shape [local@domain.tld] with three plain runs. *)
Definition emailShape (text : JsText) : Prop :=
  exists localPart domain tld,
    text = (localPart ++ atSign :: domain ++ fullStop :: tld)%list
    /\ plainRun localPart /\ plainRun domain /\ plainRun tld.

(** ** Login *)

Module Login.

Record LoginRequest := {
  email : JsText;
  password : JsText
}.

Record State := {
  form : LoginRequest;
  loading : bool;
  error : option string
}.

Definition setLoading (v : bool) (s : State) : State :=
  {| form := form s; loading := v; error := error s |}.

Definition setError (v : option string) (s : State) : State :=
  {| form := form s; loading := loading s; error := v |}.

(** [validate]: the message of the first rule the form breaks. *)
Definition validate (s : State) : option string :=
  if isEmpty (email (form s)) then Some "Email is required."
  else if negb (Regex.test emailRe (email (form s))) then Some "Enter a valid email."
  else if isEmpty (password (form s)) then Some "Password is required."
  else if (length (password (form s)) <? 6)%nat
       then Some "Password must be at least 6 characters."
  else None.

Section Submit.
Variable JSON_stringify : JsValue -> string.
Variable messageOf : JsException -> string.
Variable toUpperCase : string -> string.

(** [handleSubmit], given the settlement of the request of [login]: the
    state, the storage, the navigation and the credentials sent. *)
Definition handleSubmit (reply : Reply AuthService.AuthResponse)
    (st : Storage) (s : State)
  : State * Storage * list Action * list LoginRequest :=
  let s0 := setError None s in
  match validate s with
  | Some validationError => (setError (Some validationError) s0, st, [], [])
  | None =>
      let s1 := setLoading true s0 in
      let call := {| email := email (form s); password := password (form s) |} in
      let '(st1, res) := AuthService.login JSON_stringify reply st in
      match res with
      | Rejected err =>
          (setLoading false
             (setError (Some (or_default (message err) "An unexpected error occurred.")) s1),
           st1, [], [call])
      | Resolved data =>
          match whenTruthy (AuthService.token data) with
          | None =>
              (setLoading false (setError (Some "Login failed") s1), st1, [], [call])
          | Some t =>
              let st2 :=
                {| localStorage := localStorage st1;
                   sessionStorage :=
                     AuthService.storeUser JSON_stringify (AuthService.user data)
                       (setItem (sessionStorage st1) "authToken" t) |} in
              match userRole toUpperCase (AuthService.user data) with
              | Throw e =>
                  (setLoading false
                     (setError (Some (or_default (Some (messageOf e))
                                        "An unexpected error occurred.")) s1),
                   st2, [], [call])
              | Normal role =>
                  (setLoading false s1, st2, [Navigate (landingRoute role)], [call])
              end
          end
      end
  end.

End Submit.
End Login.

(** ** UserManagement: the form validations and the search *)

Module UserForms.

(** [NewUserForm], the draft of the add dialog. *)
Record NewUserForm := {
  firstName : JsText;
  lastName : JsText;
  email : JsText;
  password : JsText;
  role : string
}.

(** [errors[key] = message] when [broken]. *)
Definition flag (broken : bool) (key message : string)
    (errors : gmap string string) : gmap string string :=
  if broken then <[key := message]> errors else errors.

(** The [else] branch of the email check. *)
Definition emailErrors (email : JsText) (errors : gmap string string)
  : gmap string string :=
  if isBlank (Some email) then <["email" := "Email is required"]> errors
  else flag (negb (Regex.test emailRe email)) "email" "Enter a valid email" errors.

Definition passwordErrors (password : JsText) (errors : gmap string string)
  : gmap string string :=
  if isEmpty password then <["password" := "Password is required"]> errors
  else flag (length password <? 6)%nat "password"
         "Password must be at least 6 characters" errors.

(** [validateAddUser]: the errors it stores and whether there is none. *)
Definition validateAddUser (form : NewUserForm) : gmap string string * bool :=
  let errors0 : gmap string string := ∅ in
  let errors1 := flag (isBlank (Some (firstName form))) "firstName"
                   "First name is required" errors0 in
  let errors2 := flag (isBlank (Some (lastName form))) "lastName"
                   "Last name is required" errors1 in
  let errors3 := emailErrors (email form) errors2 in
  let errors4 := passwordErrors (password form) errors3 in
  let errors5 := flag (String.eqb (role form) "") "role" "Role is required" errors4 in
  (errors5, noErrors errors5).

(** [validateResetPassword] on the two password fields. *)
Definition validateResetPassword (newPassword confirmPassword : JsText)
  : gmap string string * bool :=
  let errors0 : gmap string string := ∅ in
  let errors1 :=
    if isEmpty newPassword then
      <["newPassword" := "New password is required"]> errors0
    else flag (length newPassword <? 6)%nat "newPassword"
           "Password must be at least 6 characters" errors0 in
  let errors2 :=
    if isEmpty confirmPassword then
      <["confirmPassword" := "Please confirm the password"]> errors1
    else flag (negb (bool_decide (newPassword = confirmPassword))) "confirmPassword"
           "Passwords do not match" errors1 in
  (errors2, noErrors errors2).

(** [String.prototype.toLowerCase] on the ASCII letters. *)
Definition lowerAscii (c : ascii) : ascii :=
  let n := nat_of_ascii c in
  if (Nat.leb 65 n && Nat.leb n 90)%bool then ascii_of_nat (n + 32) else c.

Fixpoint toLowerCase (s : string) : string :=
  match s with
  | EmptyString => EmptyString
  | String c rest => String (lowerAscii c) (toLowerCase rest)
  end.

(** [text.includes(part)]: [part] occurs in [text]. *)
Fixpoint includes (text part : string) : bool :=
  if String.prefix part text then true
  else
    match text with
    | EmptyString => false
    | String _ rest => includes rest part
    end.

(** The callback of [users.filter] behind [filteredUsers]. *)
Definition matchesFilters (searchTerm filterRole : string) (user : User.t) : bool :=
  let needle := toLowerCase searchTerm in
  let matchesSearch :=
    (includes (toLowerCase (User.firstName user)) needle
     || includes (toLowerCase (User.lastName user)) needle
     || includes (toLowerCase (User.email user)) needle)%bool in
  let matchesRole :=
    (String.eqb filterRole "ALL" || String.eqb (User.role user) filterRole)%bool in
  (matchesSearch && matchesRole)%bool.

Definition filteredUsers (s : UserManagement.State) : list User.t :=
  List.filter (matchesFilters (UserManagement.searchTerm s) (UserManagement.filterRole s))
    (UserManagement.users s).

End UserForms.

(** A login form and the state of the login page that holds it. *)
Definition loginPage (email password : JsText) : Login.State :=
  {| Login.form := {| Login.email := email; Login.password := password |};
     Login.loading := false;
     Login.error := None |}.

(** A user view with two users and the given search term and role filter. *)
Definition userViewOf (searchTerm filterRole : string) : UserManagement.State :=
  {| UserManagement.users :=
       [User.mk "u1" "Ada" "Lovelace" "ada@example.org" "ADMIN" None;
        User.mk "u2" "Alan" "Turing" "alan@example.org" "USER" None];
     UserManagement.loading := false;
     UserManagement.error := None;
     UserManagement.searchTerm := searchTerm;
     UserManagement.filterRole := filterRole;
     UserManagement.showAddUserDialog := false;
     UserManagement.showEditUserDialog := false;
     UserManagement.selectedUser := None;
     UserManagement.validationErrors := ∅;
     UserManagement.currentPage := 0;
     UserManagement.pageSize := 10;
     UserManagement.totalPages := 1;
     UserManagement.totalElements := 2;
     UserManagement.showDeleteDialog := false;
     UserManagement.userToDelete := None |}.

(** ** UserExpenseReport: the geometry around the charts *)

Module ReportLayout.

Definition chartRightPadding : Q := 20%Q.
Definition chartBottomPadding : Q := 80%Q.

(** [chartLeftPadding + (monthlyData.length * (barWidth + barSpacing))
     + chartRightPadding] *)
Definition totalWidth (months : nat) : Q :=
  (UserExpenseReport.chartLeftPadding
   + inject_Z (Z.of_nat months)
     * (UserExpenseReport.barWidth + UserExpenseReport.barSpacing)
   + chartRightPadding)%Q.

Definition totalHeight : Q :=
  (UserExpenseReport.chartHeight + UserExpenseReport.chartTopPadding
   + chartBottomPadding)%Q.

End ReportLayout.

(** The start and end angles of the arcs of a chart, in drawing order. *)
Fixpoint spans (slices : list UserExpenseReport.Slice) : list (Q * Q) :=
  match slices with
  | [] => []
  | UserExpenseReport.CircleSlice _ _ :: rest => spans rest
  | UserExpenseReport.ArcSlice _ startAngle endAngle _ _ :: rest =>
      (startAngle, endAngle) :: spans rest
  end.

(** The arcs continue one another from the angle [from]: each starts at the
    very angle the one before it ended at. *)
Fixpoint chained (from : Q) (arcs : list (Q * Q)) : Prop :=
  match arcs with
  | [] => True
  | (startAngle, endAngle) :: rest => startAngle = from /\ chained endAngle rest
  end.

(** The angle the last arc ends at, [from] when there is no arc. *)
Fixpoint chainEnd (from : Q) (arcs : list (Q * Q)) : Q :=
  match arcs with
  | [] => from
  | (_, endAngle) :: rest => chainEnd endAngle rest
  end.

(** The element is a [<circle>]. *)
Definition isCircle (slice : UserExpenseReport.Slice) : bool :=
  match slice with
  | UserExpenseReport.CircleSlice _ _ => true
  | UserExpenseReport.ArcSlice _ _ _ _ _ => false
  end.

(** The chart holds arcs only. *)
Definition arcsOnly (slices : list UserExpenseReport.Slice) : Prop :=
  forallb (fun slice => negb (isCircle slice)) slices = true.

(** The sum of the percentages of a breakdown. *)
Fixpoint totalPercentage (categories : list CategoryBreakdown.t) : Q :=
  match categories with
  | [] => 0%Q
  | category :: rest => (CategoryBreakdown.percentage category + totalPercentage rest)%Q
  end.

(** A breakdown of three categories that add up to 100 percent. *)
Definition threeWay : list CategoryBreakdown.t :=
  [CategoryBreakdown.mk "Rent" (600 # 1) 1 (60 # 1);
   CategoryBreakdown.mk "Food" (300 # 1) 9 (30 # 1);
   CategoryBreakdown.mk "Misc" (100 # 1) 4 (10 # 1)].

(** ** UserExpenseReport: what is on screen and which events it offers *)

Module ReportScreen.

(** The three alternatives of the returned markup:
    [loading ? ... : summary ? ... : ...]. *)
Inductive Screen :=
| LoadingScreen
| ReportBody
| NoDataScreen.

Definition render (s : UserExpenseReport.State) : Screen :=
  if UserExpenseReport.loading s then LoadingScreen
  else match UserExpenseReport.summary s with
       | Some _ => ReportBody
       | None => NoDataScreen
       end.

Definition showsReport (s : UserExpenseReport.State) : bool :=
  match render s with
  | ReportBody => true
  | _ => false
  end.

(** An event can happen: the filter inputs and the two buttons are part of
    the report body, and a settlement needs a request in flight. *)
Definition offered (s : UserExpenseReport.State) (pending : nat)
    (ev : UserExpenseReport.Event) : bool :=
  match ev with
  | UserExpenseReport.SummarySettled _ => Nat.ltb 0 pending
  | _ => showsReport s
  end.

(** The requests a settlement takes out of flight. *)
Definition settled (ev : UserExpenseReport.Event) : nat :=
  match ev with
  | UserExpenseReport.SummarySettled _ => 1
  | _ => 0
  end.

(** The view right after an authenticated activation: the gate has called
    [fetchCategories] and [fetchSummary], and the filter effect has found
    no summary. *)
Definition mounted : UserExpenseReport.State :=
  fst (UserExpenseReport.fetchSummary UserExpenseReport.initialState).

(** [setCategories(response.content)], when the categories arrive. *)
Definition setCategories (v : list Category.t) (s : UserExpenseReport.State)
    : UserExpenseReport.State :=
  {| UserExpenseReport.summary := UserExpenseReport.summary s;
     UserExpenseReport.loading := UserExpenseReport.loading s;
     UserExpenseReport.error := UserExpenseReport.error s;
     UserExpenseReport.categories := v;
     UserExpenseReport.selectedCategoryId := UserExpenseReport.selectedCategoryId s;
     UserExpenseReport.selectedMonth := UserExpenseReport.selectedMonth s |}.

(** One thing that happens to the view, with the number of summary requests
    in flight before and after: an event of the filters or a settlement, the
    close button of the error banner (in the report body, [error && ...]),
    or the arrival of the categories. *)
Inductive Step : UserExpenseReport.State -> nat -> UserExpenseReport.State -> nat -> Prop :=
| OnEvent s pending ev :
    offered s pending ev = true ->
    Step s pending (fst (UserExpenseReport.step s ev))
      (pending + length (snd (UserExpenseReport.step s ev)) - settled ev)
| OnCloseError s pending :
    showsReport s = true ->
    truthy (UserExpenseReport.error s) = true ->
    Step s pending (UserExpenseReport.setError None s) pending
| OnCategories s pending content :
    Step s pending (setCategories content s) pending.

Inductive Trace : UserExpenseReport.State -> nat -> UserExpenseReport.State -> nat -> Prop :=
| TraceEnd s pending : Trace s pending s pending
| TraceStep s pending s1 pending1 s2 pending2 :
    Trace s pending s1 pending1 ->
    Step s1 pending1 s2 pending2 ->
    Trace s pending s2 pending2.

(** The states an activated view can be in. *)
Definition Reachable (s : UserExpenseReport.State) (pending : nat) : Prop :=
  Trace mounted 1 s pending.

End ReportScreen.

(** The loading flag and the number of requests in flight agree. *)
Definition inStep (s : UserExpenseReport.State) (pending : nat) : Prop :=
  (UserExpenseReport.loading s = true /\ pending = 1%nat)
  \/ (UserExpenseReport.loading s = false /\ pending = 0%nat).


(** ** The dashboards: what is on screen after the gate *)

Module DashboardScreen.

(** The dashboards return a placeholder until a user is set,
    [if (!user) return <div>Loading...</div>]; an exception that escapes the
    effect takes the view off the screen. *)
Inductive Screen :=
| LoadingPlaceholder
| Dashboard (user : JsValue)
| Unmounted (e : JsException).

(** The [user] state after the actions of the gate. *)
Fixpoint userAfter (acts : list Action) (user : option JsValue) : option JsValue :=
  match acts with
  | [] => user
  | SetUser userData :: rest => userAfter rest (Some userData)
  | _ :: rest => userAfter rest user
  end.

Definition render (user : option JsValue) : Screen :=
  match user with
  | Some u => if jsTruthy u then Dashboard u else LoadingPlaceholder
  | None => LoadingPlaceholder
  end.

(** The screen of a dashboard once its gate has run, [user] starting as
    [null]. *)
Definition afterGate (o : Outcome) : Screen :=
  match o with
  | Returned acts => render (userAfter acts None)
  | Threw _ e => Unmounted e
  end.

Definition dashboardView (admin : bool) : View :=
  if admin then AdminDashboardView else UserDashboardView.

End DashboardScreen.

(** ** UserExpenseManagement: turning the page *)

Module PageTurn.

Definition setCategories (v : list Category.t) (s : UserExpenseManagement.State)
    : UserExpenseManagement.State :=
  {| UserExpenseManagement.expenses := UserExpenseManagement.expenses s;
     UserExpenseManagement.categories := v;
     UserExpenseManagement.loading := UserExpenseManagement.loading s;
     UserExpenseManagement.error := UserExpenseManagement.error s;
     UserExpenseManagement.showAddExpenseDialog := UserExpenseManagement.showAddExpenseDialog s;
     UserExpenseManagement.showEditExpenseDialog := UserExpenseManagement.showEditExpenseDialog s;
     UserExpenseManagement.showDeleteDialog := UserExpenseManagement.showDeleteDialog s;
     UserExpenseManagement.selectedExpense := UserExpenseManagement.selectedExpense s;
     UserExpenseManagement.expenseToDelete := UserExpenseManagement.expenseToDelete s;
     UserExpenseManagement.validationErrors := UserExpenseManagement.validationErrors s;
     UserExpenseManagement.currentPage := UserExpenseManagement.currentPage s;
     UserExpenseManagement.pageSize := UserExpenseManagement.pageSize s;
     UserExpenseManagement.totalPages := UserExpenseManagement.totalPages s;
     UserExpenseManagement.totalElements := UserExpenseManagement.totalElements s |}.

(** [fetchCategories], given the settlement of [getAllCategories]: a
    failure is logged to the console only. *)
Definition fetchCategories (reply : Reply (PageResponse Category.t))
    (s : UserExpenseManagement.State)
  : UserExpenseManagement.State * list ServiceCall :=
  (match reply with
   | Resolved response => setCategories (orElse (content response) []) s
   | Rejected _ => s
   end, [CategoryService_getAllCategories]).

(** The dependencies [currentPage, pageSize] of the gate effect differ
    between two renders ([navigate] is stable). *)
Definition depsChanged (prev next : UserExpenseManagement.State) : bool :=
  negb ((UserExpenseManagement.currentPage prev =? UserExpenseManagement.currentPage next)
        && (UserExpenseManagement.pageSize prev =? UserExpenseManagement.pageSize next)).

Definition fetches (r : Resource) (acts : list Action) : bool :=
  existsb (fun a => match a, r with
                    | Fetch Expenses, Expenses => true
                    | Fetch Categories, Categories => true
                    | _, _ => false
                    end) acts.

(** The gate effect run on the render of [s], with the settlements of the
    two loads it may start: the state after, what the gate did and the
    backend calls, in order. *)
Definition runEffect (st : Storage)
    (expensesReply : Reply (PageResponse Expense.t))
    (categoriesReply : Reply (PageResponse Category.t))
    (s : UserExpenseManagement.State)
  : UserExpenseManagement.State * list Action * list ServiceCall :=
  let acts := actions (UserExpenseManagement.authEffect st) in
  let '(s1, calls1) :=
    if fetches Expenses acts then UserExpenseManagement.fetchExpenses expensesReply s
    else (s, []) in
  let '(s2, calls2) :=
    if fetches Categories acts then fetchCategories categoriesReply s1
    else (s1, []) in
  (s2, acts, (calls1 ++ calls2)%list).

(** A click on a control of the pagination bar, and the effect when the
    render that follows has other dependencies. *)
Definition turnPage (c : PaginationBar.Control) (st : Storage)
    (expensesReply : Reply (PageResponse Expense.t))
    (categoriesReply : Reply (PageResponse Category.t))
    (s : UserExpenseManagement.State)
  : UserExpenseManagement.State * list Action * list ServiceCall :=
  let s1 := PaginationBar.click c s in
  if depsChanged s s1 then runEffect st expensesReply categoriesReply s1
  else (s1, [], []).

End PageTurn.

(** * Properties *)

(** ** Pagination window: properties *)

Lemma for_loop_seqZ {A} (body : Z -> A) (n : nat) (i : Z) :
  for_loop n i body = map body (seqZ i (Z.of_nat n)).
Proof.
  revert i. induction n as [|n IH]; intros i.
  - reflexivity.
  - rewrite seqZ_cons by lia. simpl for_loop. rewrite IH.
    replace (Z.pred (Z.of_nat (S n))) with (Z.of_nat n) by lia.
    reflexivity.
Qed.

Lemma for_range_seqZ {A} (body : Z -> A) (lo hi : Z) :
  lo <= hi -> for_range lo hi body = map body (seqZ lo (hi - lo)).
Proof.
  intros Hle. unfold for_range. rewrite for_loop_seqZ.
  rewrite Z2Nat.id by lia. reflexivity.
Qed.

Lemma for_range_width {A} (body : Z -> A) (lo hi : Z) (n : nat) :
  hi - lo = Z.of_nat n -> for_range lo hi body = for_loop n lo body.
Proof.
  intros Heq. unfold for_range. rewrite Heq, Nat2Z.id. reflexivity.
Qed.

Lemma shown_loopButton (currentPage i : Z) :
  shown (loopButton currentPage i) = Page i.
Proof. reflexivity. Qed.

Lemma renderPageNumbers_small (totalPages currentPage : Z) :
  0 <= totalPages -> totalPages <= 5 ->
  renderPageNumbers totalPages currentPage
  = map (loopButton currentPage) (seqZ 0 totalPages).
Proof.
  intros H0 H5. unfold renderPageNumbers, maxVisiblePages.
  destruct (Z.leb_spec totalPages 5); [|lia].
  rewrite for_range_seqZ by lia. rewrite Z.sub_0_r. reflexivity.
Qed.

Lemma renderPageNumbers_head (totalPages currentPage : Z) :
  5 < totalPages -> currentPage < 3 ->
  renderPageNumbers totalPages currentPage
  = [loopButton currentPage 0; loopButton currentPage 1;
     loopButton currentPage 2; loopButton currentPage 3;
     EllipsisSpan "ellipsis"; lastButton totalPages].
Proof.
  intros H5 H3. unfold renderPageNumbers, maxVisiblePages.
  destruct (Z.leb_spec totalPages 5); [lia|].
  destruct (Z.ltb_spec currentPage 3); [|lia].
  reflexivity.
Qed.

Lemma renderPageNumbers_tail (totalPages currentPage : Z) :
  5 < totalPages -> 3 <= currentPage -> totalPages - 3 <= currentPage ->
  renderPageNumbers totalPages currentPage
  = [firstButton; EllipsisSpan "ellipsis";
     loopButton currentPage (totalPages - 4);
     loopButton currentPage (totalPages - 4 + 1);
     loopButton currentPage (totalPages - 4 + 1 + 1);
     loopButton currentPage (totalPages - 4 + 1 + 1 + 1)].
Proof.
  intros H5 H3 Hlast. unfold renderPageNumbers, maxVisiblePages.
  destruct (Z.leb_spec totalPages 5); [lia|].
  destruct (Z.ltb_spec currentPage 3); [lia|].
  destruct (Z.leb_spec (totalPages - 3) currentPage); [|lia].
  rewrite (for_range_width _ _ _ 4) by lia. reflexivity.
Qed.

Lemma renderPageNumbers_middle (totalPages currentPage : Z) :
  5 < totalPages -> 3 <= currentPage -> currentPage < totalPages - 3 ->
  renderPageNumbers totalPages currentPage
  = [firstButton; EllipsisSpan "ellipsis1";
     loopButton currentPage (currentPage - 1);
     loopButton currentPage (currentPage - 1 + 1);
     loopButton currentPage (currentPage - 1 + 1 + 1);
     EllipsisSpan "ellipsis2"; lastButton totalPages].
Proof.
  intros H5 H3 Hmid. unfold renderPageNumbers, maxVisiblePages.
  destruct (Z.leb_spec totalPages 5); [lia|].
  destruct (Z.ltb_spec currentPage 3); [lia|].
  destruct (Z.leb_spec (totalPages - 3) currentPage); [lia|].
  unfold for_range_incl. rewrite (for_range_width _ _ _ 3) by lia. reflexivity.
Qed.

(** C1.  For every [totalPages >= 0]: when [totalPages <= 5] the window is
    the [totalPages] page buttons [0 .. totalPages-1] and holds no ellipsis;
    and for every [currentPage] in [[0, totalPages)] with [totalPages > 5],
    the window is pages 0..3, an ellipsis, the last page when
    [currentPage < 3]; the first page, an ellipsis, the last four pages when
    [currentPage >= totalPages - 3]; and otherwise the first page, an
    ellipsis, pages [currentPage-1 .. currentPage+1], an ellipsis, the last
    page. *)
Theorem renderPageNumbers_window (totalPages currentPage : Z) :
  0 <= totalPages ->
  (totalPages <= 5 ->
     map shown (renderPageNumbers totalPages currentPage)
       = map Page (seqZ 0 totalPages)
     /\ length (renderPageNumbers totalPages currentPage) = Z.to_nat totalPages
     /\ forallb isButton (renderPageNumbers totalPages currentPage) = true)
  /\ (0 <= currentPage < totalPages -> 5 < totalPages ->
      (currentPage < 3 ->
         map shown (renderPageNumbers totalPages currentPage)
         = [Page 0; Page 1; Page 2; Page 3; Dots; Page (totalPages - 1)])
      /\ (totalPages - 3 <= currentPage ->
         map shown (renderPageNumbers totalPages currentPage)
         = [Page 0; Dots; Page (totalPages - 4); Page (totalPages - 3);
            Page (totalPages - 2); Page (totalPages - 1)])
      /\ (3 <= currentPage < totalPages - 3 ->
         map shown (renderPageNumbers totalPages currentPage)
         = [Page 0; Dots; Page (currentPage - 1); Page currentPage;
            Page (currentPage + 1); Dots; Page (totalPages - 1)])).
Proof.
  intros H0. split.
  - intros H5. rewrite renderPageNumbers_small by lia.
    split; [|split].
    + rewrite map_map. apply map_ext. intros i. apply shown_loopButton.
    + rewrite length_map, length_seqZ. reflexivity.
    + apply forallb_forall. intros it Hin.
      apply in_map_iff in Hin. destruct Hin as (i & <- & _). reflexivity.
  - intros Hcur H5. split; [|split].
    + intros H3. rewrite renderPageNumbers_head by lia. reflexivity.
    + intros Hlast. rewrite renderPageNumbers_tail by lia. simpl.
      repeat (f_equal; try lia).
    + intros Hmid. rewrite renderPageNumbers_middle by lia. simpl.
      repeat (f_equal; try lia).
Qed.

Lemma renderPageNumbers_window_witness :
  map shown (renderPageNumbers 10 5)
  = [Page 0; Dots; Page 4; Page 5; Page 6; Dots; Page 9].
Proof.
  destruct (renderPageNumbers_window 10 5 ltac:(lia)) as [_ Hlarge].
  destruct (Hlarge ltac:(lia) ltac:(lia)) as (_ & _ & Hmiddle).
  apply Hmiddle. lia.
Defined.

Example window_first_page :
  map displayed (renderPageNumbers 10 0)
  = [Some 1; Some 2; Some 3; Some 4; None; Some 10].
Proof. reflexivity. Qed.

Example window_last_page :
  map displayed (renderPageNumbers 10 9)
  = [Some 1; None; Some 7; Some 8; Some 9; Some 10].
Proof. reflexivity. Qed.

Example window_middle_page :
  map displayed (renderPageNumbers 10 5)
  = [Some 1; None; Some 5; Some 6; Some 7; None; Some 10].
Proof. reflexivity. Qed.

(** ** Session gate: properties *)

Lemma eqb_empty_false (s : string) : s <> "" -> String.eqb s "" = false.
Proof. intros H. apply String.eqb_neq. exact H. Qed.

Lemma truthy_Some (s : string) : s <> "" -> truthy (Some s) = true.
Proof. intros H. simpl. rewrite eqb_empty_false by exact H. reflexivity. Qed.

Lemma truthy_inv (v : option string) :
  truthy v = true -> exists s, v = Some s /\ s <> "".
Proof.
  destruct v as [s|]; simpl; [|discriminate].
  destruct (String.eqb_spec s ""); [discriminate|]. eauto.
Qed.

Lemma readItem_absent (st : Storage) (key : string) :
  absent st key -> readItem st key = None.
Proof.
  intros [Hl Hs]. unfold readItem, js_or. rewrite Hl. simpl. exact Hs.
Qed.

Lemma readItem_present (st : Storage) :
  tokenPresent st -> truthy (readItem st "authToken") = true.
Proof.
  intros (token & Hne & Hstored). unfold readItem, js_or.
  destruct (truthy (getItem (localStorage st) "authToken")) eqn:Hlocal.
  - exact Hlocal.
  - destruct Hstored as [Hl | Hs].
    + rewrite Hl, truthy_Some in Hlocal by exact Hne. discriminate.
    + rewrite Hs. apply truthy_Some. exact Hne.
Qed.

Lemma whenTruthy_None : whenTruthy None = None.
Proof. reflexivity. Qed.

Lemma whenTruthy_Some (s : string) : s <> "" -> whenTruthy (Some s) = Some s.
Proof. intros H. unfold whenTruthy. rewrite truthy_Some by exact H. reflexivity. Qed.

(** Unfold the gate effect of whichever view is at hand. *)
Ltac unfold_gate :=
  simpl gate;
  unfold AdminDashboard.authEffect, UserManagement.authEffect,
    CategoryManagement.authEffect, RequestLogs.authEffect,
    UserDashboard.authEffect, UserExpenseManagement.authEffect,
    UserExpenseReport.authEffect, UserProfile.authEffect.

(** The sample upper-casing on the spellings of the two roles. *)
Example toUpperCaseAscii_admin :
  toUpperCaseAscii "admin" = "ADMIN" /\ toUpperCaseAscii "Admin" = "ADMIN"
  /\ toUpperCaseAscii "aDmIn" = "ADMIN" /\ toUpperCaseAscii "ADMIN" = "ADMIN"
  /\ toUpperCaseAscii "user" = "USER".
Proof. repeat split; reflexivity. Qed.

Section GateProperties.
Variable JSON_parse : string -> Completion JsValue.
Variable toUpperCase : string -> string.

Lemma gate_falsy_token (v : View) (st : Storage) :
  truthy (readItem st "authToken") = false ->
  gate JSON_parse toUpperCase v st = Returned [Navigate "/login"].
Proof.
  intros Hfalsy.
  destruct v; unfold_gate; rewrite Hfalsy; reflexivity.
Qed.

(** With no token in the durable and none in the tab-scoped store, the gate
    effect of every protected view navigates to [/login] and does nothing
    else; this holds for every content of the stores under any other key and
    for every behaviour of the profile parser. *)
Lemma gate_without_token (v : View) (st : Storage) :
  absent st "authToken" ->
  gate JSON_parse toUpperCase v st = Returned [Navigate "/login"]
  /\ noFetch (gate JSON_parse toUpperCase v st).
Proof.
  intros Habsent.
  assert (gate JSON_parse toUpperCase v st = Returned [Navigate "/login"]) as Hgate.
  { apply gate_falsy_token. rewrite readItem_absent by exact Habsent. reflexivity. }
  split; [exact Hgate|]. rewrite Hgate. reflexivity.
Qed.

Lemma admin_gate_parsed (v : View) (st : Storage) (text : string) (userData : JsValue) :
  adminOnly v = true ->
  truthy (readItem st "authToken") = true ->
  readItem st "user" = Some text -> text <> "" ->
  JSON_parse text = Normal userData ->
  forall isNot, roleIsNotAdmin toUpperCase userData = Normal isNot ->
  if isNot then gate JSON_parse toUpperCase v st = Returned [Navigate "/user/dashboard"]
  else noRedirect (gate JSON_parse toUpperCase v st)
       /\ exists acts, gate JSON_parse toUpperCase v st = Returned acts.
Proof.
  intros Hadmin Htoken Huser Hne Hparse isNot Hrole.
  destruct v; try discriminate Hadmin; unfold_gate;
    rewrite Htoken, Huser, whenTruthy_Some, Hparse, Hrole by exact Hne;
    simpl; destruct isNot; unfold noRedirect; simpl; eauto.
Qed.

Lemma roleIsNotAdmin_string (userData : JsValue) (role : string) :
  getProp userData "role" = Normal (Some (JStr role)) ->
  roleIsNotAdmin toUpperCase userData = Normal (negb (String.eqb (toUpperCase role) "ADMIN")).
Proof. intros Hrole. unfold roleIsNotAdmin. rewrite Hrole. reflexivity. Qed.

(** C3.  On the activation of an admin-only view with a token present and a
    cached profile whose [role] is a string: when the role upper-cases to
    ["ADMIN"] the gate performs no navigation; when it upper-cases to
    anything else the gate navigates to [/user/dashboard] and does nothing
    else. *)
Theorem admin_gate_role (v : View) (st : Storage)
    (text : string) (userData : JsValue) (role : string) :
  adminOnly v = true ->
  tokenPresent st ->
  readItem st "user" = Some text -> text <> "" ->
  JSON_parse text = Normal userData ->
  getProp userData "role" = Normal (Some (JStr role)) ->
  (toUpperCase role = "ADMIN" ->
     noRedirect (gate JSON_parse toUpperCase v st)
     /\ exists acts, gate JSON_parse toUpperCase v st = Returned acts)
  /\ (toUpperCase role <> "ADMIN" ->
     gate JSON_parse toUpperCase v st = Returned [Navigate "/user/dashboard"]).
Proof.
  intros Hadmin Htoken Huser Hne Hparse Hrole.
  pose proof (admin_gate_parsed v st text userData Hadmin
                (readItem_present st Htoken) Huser Hne Hparse _
                (roleIsNotAdmin_string userData role Hrole)) as Hgate.
  split; intros Hup.
  - rewrite Hup in Hgate. exact Hgate.
  - apply String.eqb_neq in Hup. rewrite Hup in Hgate. exact Hgate.
Qed.

(** C4.  On the activation of an admin-only management view with a token
    present and no cached profile in either store, the gate makes no role
    check: it performs no navigation and starts the load of the view's
    data. *)
Theorem admin_gate_without_profile (v : View) (st : Storage) (r : Resource) :
  managedResource v = Some r ->
  tokenPresent st ->
  absent st "user" ->
  gate JSON_parse toUpperCase v st = Returned [Fetch r]
  /\ noRedirect (gate JSON_parse toUpperCase v st).
Proof.
  intros Hres Htoken Habsent.
  assert (gate JSON_parse toUpperCase v st = Returned [Fetch r]) as Hgate.
  { destruct v; try discriminate Hres; injection Hres as <-; unfold_gate;
      rewrite (readItem_present st Htoken), (readItem_absent st "user" Habsent);
      reflexivity. }
  split; [exact Hgate|]. rewrite Hgate. reflexivity.
Qed.

(** C2.  The claim does not hold of UserManagement.  Besides the gate, the
    view registers an effect on the page index and size that calls
    [fetchUsers] with no look at the stores, and React runs both effects on
    the activation: with no token in either store the gate navigates to
    [/login] and the load of the users is started all the same.  The
    sibling UserExpenseManagement has one effect, which returns before its
    loads, and starts none. *)
Theorem UserManagement_fetches_without_token (st : Storage) :
  absent st "authToken" ->
  UserManagement.mountEffects JSON_parse toUpperCase st
  = [Returned [Navigate "/login"]; Returned [Fetch Users]]
  /\ ~ Forall noFetch (UserManagement.mountEffects JSON_parse toUpperCase st)
  /\ noFetch (UserExpenseManagement.authEffect st).
Proof.
  intros Habsent.
  assert (truthy (readItem st "authToken") = false) as Hfalsy.
  { rewrite readItem_absent by exact Habsent. reflexivity. }
  assert (UserManagement.mountEffects JSON_parse toUpperCase st
          = [Returned [Navigate "/login"]; Returned [Fetch Users]]) as Hmount.
  { unfold UserManagement.mountEffects, UserManagement.pageEffect.
    pose proof (gate_falsy_token UserManagementView st Hfalsy) as Hgate.
    simpl in Hgate. rewrite Hgate. reflexivity. }
  split; [exact Hmount|]. split.
  - rewrite Hmount. intros Hall.
    apply Forall_cons_1 in Hall as [_ Hrest].
    apply Forall_cons_1 in Hrest as [Hfetch _].
    discriminate Hfetch.
  - pose proof (gate_falsy_token UserExpenseManagementView st Hfalsy) as Hgate.
    simpl in Hgate. rewrite Hgate. reflexivity.
Qed.

End GateProperties.

Lemma gate_without_token_witness :
  gate sampleParse toUpperCaseAscii UserManagementView staleProfile = Returned [Navigate "/login"]
  /\ noFetch (gate sampleParse toUpperCaseAscii UserManagementView staleProfile).
Proof.
  apply (gate_without_token sampleParse toUpperCaseAscii UserManagementView staleProfile).
  split; vm_compute; reflexivity.
Defined.

Lemma UserManagement_fetches_without_token_witness :
  UserManagement.mountEffects sampleParse toUpperCaseAscii staleProfile
  = [Returned [Navigate "/login"]; Returned [Fetch Users]].
Proof.
  apply (UserManagement_fetches_without_token sampleParse toUpperCaseAscii staleProfile).
  split; vm_compute; reflexivity.
Defined.

Lemma sessionOf_tokenPresent (role : string) : tokenPresent (sessionOf role).
Proof.
  exists "t0k3n". split; [discriminate|]. right. reflexivity.
Defined.

Lemma admin_gate_role_witness :
  noRedirect (gate sampleParse toUpperCaseAscii CategoryManagementView (sessionOf "admin"))
  /\ gate sampleParse toUpperCaseAscii CategoryManagementView (sessionOf "USER")
     = Returned [Navigate "/user/dashboard"].
Proof.
  split.
  - refine (proj1 (proj1 (admin_gate_role sampleParse toUpperCaseAscii CategoryManagementView
             (sessionOf "admin") (profileText "admin")
             (JObj [("role", JStr "admin")]) "admin"
             eq_refl (sessionOf_tokenPresent _) _ _ eq_refl eq_refl) _)).
    + vm_compute; reflexivity.
    + vm_compute; discriminate.
    + vm_compute; reflexivity.
  - refine (proj2 (admin_gate_role sampleParse toUpperCaseAscii CategoryManagementView
             (sessionOf "USER") (profileText "USER")
             (JObj [("role", JStr "USER")]) "USER"
             eq_refl (sessionOf_tokenPresent _) _ _ eq_refl eq_refl) _).
    + vm_compute; reflexivity.
    + vm_compute; discriminate.
    + vm_compute; discriminate.
Defined.

Lemma admin_gate_without_profile_witness :
  gate sampleParse toUpperCaseAscii UserManagementView tokenOnly = Returned [Fetch Users]
  /\ noRedirect (gate sampleParse toUpperCaseAscii UserManagementView tokenOnly).
Proof.
  apply (admin_gate_without_profile sampleParse toUpperCaseAscii UserManagementView tokenOnly Users).
  - reflexivity.
  - exists "t0k3n". split; [discriminate|]. left. reflexivity.
  - split; vm_compute; reflexivity.
Defined.

(** ** List controllers: load failure and delete without a selection *)

Lemma errorMessage_firstAvailable (err : JsError) (fallback : string) :
  errorMessage err fallback
  = firstAvailable [responseDataMessage err; message err] fallback.
Proof.
  unfold errorMessage, js_or, or_default. simpl.
  destruct (responseDataMessage err) as [nested|]; simpl.
  - destruct (String.eqb nested "") eqn:Hnested; simpl.
    + destruct (message err) as [own|]; reflexivity.
    + rewrite Hnested. reflexivity.
  - destruct (message err) as [own|]; reflexivity.
Qed.

(** The three cases of the message of a failure. *)
Example errorMessage_cases :
  errorMessage {| responseDataMessage := Some "Quota exceeded";
                  message := Some "Request failed with status code 429" |}
    "Failed to load expenses" = "Quota exceeded"
  /\ errorMessage {| responseDataMessage := None; message := Some "Network Error" |}
    "Failed to load expenses" = "Network Error"
  /\ errorMessage {| responseDataMessage := Some ""; message := None |}
    "Failed to load expenses" = "Failed to load expenses".
Proof. repeat split; reflexivity. Qed.

(** C5.  A load that fails sets the error to the first available of the
    nested [response.data.message], the error's own message and the fallback
    of the operation, and leaves the items and the totals of the previous
    load as they were; and a load clears the loading flag whether it fails
    or succeeds.  This holds for the three list controllers. *)
Theorem failed_load_keeps_items (err : JsError) :
  (forall s : UserExpenseManagement.State,
     let s' := fst (UserExpenseManagement.fetchExpenses (Rejected err) s) in
     UserExpenseManagement.error s'
       = Some (firstAvailable [responseDataMessage err; message err]
                 "Failed to load expenses")
     /\ UserExpenseManagement.expenses s' = UserExpenseManagement.expenses s
     /\ UserExpenseManagement.totalPages s' = UserExpenseManagement.totalPages s
     /\ UserExpenseManagement.totalElements s' = UserExpenseManagement.totalElements s
     /\ forall reply,
          UserExpenseManagement.loading
            (fst (UserExpenseManagement.fetchExpenses reply s)) = false)
  /\ (forall s : UserManagement.State,
     let s' := fst (UserManagement.fetchUsers (Rejected err) s) in
     UserManagement.error s'
       = Some (firstAvailable [responseDataMessage err; message err]
                 "Failed to load users")
     /\ UserManagement.users s' = UserManagement.users s
     /\ UserManagement.totalPages s' = UserManagement.totalPages s
     /\ UserManagement.totalElements s' = UserManagement.totalElements s
     /\ forall reply,
          UserManagement.loading (fst (UserManagement.fetchUsers reply s)) = false)
  /\ (forall s : CategoryManagement.State,
     let s' := fst (CategoryManagement.fetchCategories (Rejected err) s) in
     CategoryManagement.error s'
       = Some (firstAvailable [responseDataMessage err; message err]
                 "Failed to load categories")
     /\ CategoryManagement.categories s' = CategoryManagement.categories s
     /\ CategoryManagement.totalElements s' = CategoryManagement.totalElements s
     /\ forall reply,
          CategoryManagement.loading
            (fst (CategoryManagement.fetchCategories reply s)) = false).
Proof.
  repeat split; simpl; try reflexivity;
    try (rewrite errorMessage_firstAvailable; reflexivity);
    intros reply; destruct reply; reflexivity.
Qed.

(** C10.  Confirming a delete dialog while nothing is selected for deletion
    returns at once: no backend call is issued and the state of the view is
    the state before, for the three list controllers and whatever the
    backend would have answered. *)
Theorem delete_without_selection :
  (forall (s : UserExpenseManagement.State) deleted reload,
     UserExpenseManagement.expenseToDelete s = None ->
     UserExpenseManagement.handleDeleteExpense deleted reload s = (s, []))
  /\ (forall (s : CategoryManagement.State) deleted,
     CategoryManagement.categoryToDelete s = None ->
     CategoryManagement.handleDeleteCategory deleted s = (s, []))
  /\ (forall (s : UserManagement.State) deleted reload,
     UserManagement.userToDelete s = None ->
     UserManagement.handleDeleteUser deleted reload s = (s, [])).
Proof.
  split; [|split].
  - intros s deleted reload Hnone.
    unfold UserExpenseManagement.handleDeleteExpense. rewrite Hnone. reflexivity.
  - intros s deleted Hnone.
    unfold CategoryManagement.handleDeleteCategory. rewrite Hnone. reflexivity.
  - intros s deleted reload Hnone.
    unfold UserManagement.handleDeleteUser. rewrite Hnone. reflexivity.
Qed.

(** ** ReportService.getSummary: omitted filters *)

Lemma whenTruthy_unset (value : option string) :
  unset value -> whenTruthy value = None.
Proof. intros [-> | ->]; reflexivity. Qed.

Lemma whenTruthy_inv (value : option string) (v : string) :
  whenTruthy value = Some v -> value = Some v /\ v <> "".
Proof.
  unfold whenTruthy. destruct (truthy value) eqn:Htruthy; [|discriminate].
  intros ->. apply truthy_inv in Htruthy as (s & [= <-] & Hne). auto.
Qed.

Lemma addParam_lookup_same (key : string) (value : option string)
    (params : gmap string string) :
  params !! key = None ->
  ReportService.addParam key value params !! key = whenTruthy value.
Proof.
  intros Hfresh. unfold ReportService.addParam.
  destruct (whenTruthy value) as [v|]; [apply lookup_insert_eq | exact Hfresh].
Qed.

Lemma addParam_lookup_other (key : string) (value : option string)
    (params : gmap string string) (k : string) :
  key <> k ->
  ReportService.addParam key value params !! k = params !! k.
Proof.
  intros Hne. unfold ReportService.addParam.
  destruct (whenTruthy value) as [v|]; [apply lookup_insert_ne; exact Hne | reflexivity].
Qed.

Lemma getSummary_params (filters : option ReportService.SummaryFilters) (k : string) :
  ReportService.params (ReportService.getSummary filters) !! k
  = if String.eqb k "month" then
      whenTruthy (ReportService.field filters ReportService.month)
    else if String.eqb k "categoryId" then
      whenTruthy (ReportService.field filters ReportService.categoryId)
    else None.
Proof.
  unfold ReportService.getSummary. simpl.
  destruct (String.eqb_spec k "month") as [-> | Hmonth].
  - apply addParam_lookup_same.
    rewrite addParam_lookup_other by discriminate. apply lookup_empty.
  - rewrite addParam_lookup_other by congruence.
    destruct (String.eqb_spec k "categoryId") as [-> | Hcategory].
    + apply addParam_lookup_same. apply lookup_empty.
    + rewrite addParam_lookup_other by congruence. apply lookup_empty.
Qed.

(** C8.  The request of [getSummary] goes to [/expenses/summary]; a
    [categoryId] or [month] filter that is unset or empty has no entry in
    the query parameters, a filter that is set is sent with its value, no
    other parameter is sent, and no parameter is ever the empty string. *)
Theorem getSummary_omits_unset (filters : option ReportService.SummaryFilters) :
  let request := ReportService.getSummary filters in
  ReportService.url request = "/expenses/summary"
  /\ (unset (ReportService.field filters ReportService.categoryId) ->
      ReportService.params request !! "categoryId" = None)
  /\ (unset (ReportService.field filters ReportService.month) ->
      ReportService.params request !! "month" = None)
  /\ (forall k v, ReportService.params request !! k = Some v ->
      v <> ""
      /\ (k = "categoryId" /\ ReportService.field filters ReportService.categoryId = Some v
          \/ k = "month" /\ ReportService.field filters ReportService.month = Some v))
  /\ (forall v, v <> "" ->
      (ReportService.field filters ReportService.categoryId = Some v ->
         ReportService.params request !! "categoryId" = Some v)
      /\ (ReportService.field filters ReportService.month = Some v ->
         ReportService.params request !! "month" = Some v)).
Proof.
  intros request. subst request. split; [reflexivity|].
  split; [|split; [|split]].
  - intros Hunset. rewrite getSummary_params. simpl.
    apply whenTruthy_unset. exact Hunset.
  - intros Hunset. rewrite getSummary_params. simpl.
    apply whenTruthy_unset. exact Hunset.
  - intros k v. rewrite getSummary_params.
    destruct (String.eqb_spec k "month") as [-> | Hmonth].
    + intros Hsent. apply whenTruthy_inv in Hsent as [Hfield Hne]. auto.
    + destruct (String.eqb_spec k "categoryId") as [-> | Hcategory];
        [|discriminate].
      intros Hsent. apply whenTruthy_inv in Hsent as [Hfield Hne]. auto.
  - intros v Hne. split; intros Hfield; rewrite getSummary_params; simpl;
      rewrite Hfield; apply whenTruthy_Some; exact Hne.
Qed.

Lemma getSummary_omits_unset_witness :
  let request :=
    ReportService.getSummary
      (Some {| ReportService.categoryId := Some ""; ReportService.month := None |}) in
  ReportService.params request !! "categoryId" = None
  /\ ReportService.params request !! "month" = None.
Proof.
  intros request.
  destruct (getSummary_omits_unset
              (Some {| ReportService.categoryId := Some "";
                       ReportService.month := None |}))
    as (_ & Hcategory & Hmonth & _).
  split; [apply Hcategory; right; reflexivity | apply Hmonth; left; reflexivity].
Defined.

Lemma delete_without_selection_witness :
  let s := {| CategoryManagement.categories := [];
              CategoryManagement.loading := false;
              CategoryManagement.error := None;
              CategoryManagement.searchTerm := "";
              CategoryManagement.showAddCategoryDialog := false;
              CategoryManagement.showEditCategoryDialog := false;
              CategoryManagement.selectedCategory := None;
              CategoryManagement.validationErrors := ∅;
              CategoryManagement.totalElements := 0;
              CategoryManagement.showDeleteDialog := true;
              CategoryManagement.categoryToDelete := None |} in
  CategoryManagement.handleDeleteCategory (Resolved tt) s = (s, []).
Proof.
  intros s.
  destruct delete_without_selection as (_ & Hcategory & _).
  apply Hcategory. reflexivity.
Defined.

(** ** Report view: when the summary is fetched again *)

Lemma filtersOf_bothEmpty (s : UserExpenseReport.State) :
  UserExpenseReport.bothEmpty s = true ->
  UserExpenseReport.filtersOf s = ReportService.noFilters.
Proof.
  unfold UserExpenseReport.bothEmpty, UserExpenseReport.filtersOf.
  intros Hboth. apply andb_true_iff in Hboth as [Hc Hm].
  apply String.eqb_eq in Hc, Hm. rewrite Hc, Hm. reflexivity.
Qed.

Lemma filterEffect_calls (s : UserExpenseReport.State) :
  snd (UserExpenseReport.filterEffect s)
  = if (UserExpenseReport.bothEmpty s && bool_decide (is_Some (UserExpenseReport.summary s)))%bool
    then [ReportService.noFilters] else [].
Proof.
  unfold UserExpenseReport.filterEffect.
  destruct (UserExpenseReport.bothEmpty s) eqn:Hboth.
  - pose proof (filtersOf_bothEmpty s Hboth) as Hfilters.
    unfold UserExpenseReport.bothEmpty in Hboth.
    apply andb_true_iff in Hboth as [Hc Hm]. simpl. rewrite Hc, Hm. simpl.
    destruct (bool_decide (is_Some (UserExpenseReport.summary s))); simpl;
      [rewrite Hfilters|]; reflexivity.
  - unfold UserExpenseReport.bothEmpty in Hboth. simpl.
    destruct (String.eqb (UserExpenseReport.selectedCategoryId s) "");
      destruct (String.eqb (UserExpenseReport.selectedMonth s) "");
      try discriminate; reflexivity.
Qed.

Lemma filterEffect_filters (s : UserExpenseReport.State) :
  UserExpenseReport.bothEmpty (fst (UserExpenseReport.filterEffect s))
  = UserExpenseReport.bothEmpty s
  /\ UserExpenseReport.summary (fst (UserExpenseReport.filterEffect s))
     = UserExpenseReport.summary s.
Proof.
  unfold UserExpenseReport.filterEffect.
  destruct (_ && _ && _)%bool; split; reflexivity.
Qed.

Lemma depsChanged_bothEmpty (s s1 : UserExpenseReport.State) :
  UserExpenseReport.depsChanged s s1 = false ->
  UserExpenseReport.bothEmpty s1 = UserExpenseReport.bothEmpty s.
Proof.
  unfold UserExpenseReport.depsChanged, UserExpenseReport.bothEmpty.
  intros Hsame. apply orb_false_iff in Hsame as [Hc Hm].
  apply negb_false_iff in Hc, Hm. apply String.eqb_eq in Hc, Hm.
  rewrite Hc, Hm. reflexivity.
Qed.

Lemma bothEmpty_depsChanged (s s1 : UserExpenseReport.State) :
  UserExpenseReport.bothEmpty s = false ->
  UserExpenseReport.bothEmpty s1 = true ->
  UserExpenseReport.depsChanged s s1 = true.
Proof.
  intros Hset Hempty.
  destruct (UserExpenseReport.depsChanged s s1) eqn:Hdeps; [reflexivity|].
  apply depsChanged_bothEmpty in Hdeps. congruence.
Qed.

Lemma depsChanged_from_set (s s1 : UserExpenseReport.State) :
  UserExpenseReport.depsChanged s s1 = true ->
  UserExpenseReport.bothEmpty s1 = true ->
  UserExpenseReport.bothEmpty s = false.
Proof.
  intros Hdeps Hempty.
  destruct (UserExpenseReport.bothEmpty s) eqn:Hbefore; [|reflexivity].
  unfold UserExpenseReport.depsChanged, UserExpenseReport.bothEmpty in *.
  apply andb_true_iff in Hempty as [Hc1 Hm1].
  apply andb_true_iff in Hbefore as [Hc Hm].
  apply String.eqb_eq in Hc1, Hm1, Hc, Hm.
  rewrite Hc1, Hm1, Hc, Hm in Hdeps. discriminate.
Qed.

(** The calls a step issues, by cases on the event. *)
Lemma step_calls (s : UserExpenseReport.State) (ev : UserExpenseReport.Event) :
  snd (UserExpenseReport.step s ev)
  = match ev with
    | UserExpenseReport.ClickApply => [UserExpenseReport.filtersOf s]
    | _ =>
        let s1 := fst (UserExpenseReport.handle ev s) in
        if (UserExpenseReport.depsChanged s s1
            && UserExpenseReport.bothEmpty s1
            && bool_decide (is_Some (UserExpenseReport.summary s)))%bool
        then [ReportService.noFilters] else []
    end.
Proof.
  unfold UserExpenseReport.step.
  destruct ev as [value | value | | | reply]; simpl.
  - destruct (UserExpenseReport.depsChanged _ _); [|reflexivity].
    destruct (UserExpenseReport.filterEffect _) as [s2 calls2] eqn:Heffect.
    simpl. replace calls2 with (snd (UserExpenseReport.filterEffect
      (UserExpenseReport.setSelectedCategoryId value s))) by (rewrite Heffect; reflexivity).
    rewrite filterEffect_calls. reflexivity.
  - destruct (UserExpenseReport.depsChanged _ _); [|reflexivity].
    destruct (UserExpenseReport.filterEffect _) as [s2 calls2] eqn:Heffect.
    simpl. replace calls2 with (snd (UserExpenseReport.filterEffect
      (UserExpenseReport.setSelectedMonth value s))) by (rewrite Heffect; reflexivity).
    rewrite filterEffect_calls. reflexivity.
  - unfold UserExpenseReport.depsChanged. simpl.
    rewrite !String.eqb_refl. reflexivity.
  - destruct (UserExpenseReport.depsChanged _ _); [|reflexivity].
    destruct (UserExpenseReport.filterEffect _) as [s2 calls2] eqn:Heffect.
    simpl. replace calls2 with (snd (UserExpenseReport.filterEffect
      (UserExpenseReport.handleClearFilters s))) by (rewrite Heffect; reflexivity).
    rewrite filterEffect_calls. reflexivity.
  - assert (UserExpenseReport.depsChanged s
              (UserExpenseReport.fetchSummarySettled reply s) = false) as ->.
    { unfold UserExpenseReport.depsChanged. destruct reply; simpl;
        rewrite !String.eqb_refl; reflexivity. }
    reflexivity.
Qed.

Lemma step_bothEmpty (s : UserExpenseReport.State) (ev : UserExpenseReport.Event) :
  UserExpenseReport.bothEmpty (fst (UserExpenseReport.step s ev))
  = UserExpenseReport.bothEmpty (fst (UserExpenseReport.handle ev s)).
Proof.
  unfold UserExpenseReport.step.
  destruct (UserExpenseReport.handle ev s) as [s1 calls1]. simpl.
  destruct (UserExpenseReport.depsChanged s s1); [|reflexivity].
  pose proof (filterEffect_filters s1) as [Hboth _].
  destruct (UserExpenseReport.filterEffect s1) as [s2 calls2]. exact Hboth.
Qed.

(** On activation no summary is loaded yet, so the filter effect issues no
    request: the only request of the activation is the one of the gate. *)
Example filterEffect_on_mount :
  UserExpenseReport.filterEffect UserExpenseReport.initialState
  = (UserExpenseReport.initialState, []).
Proof. reflexivity. Qed.

(** C6, as stated, fails: a change of a filter value alone does fetch the
    summary again when it leaves both filters empty with a summary loaded.
    With the month empty and a category selected, choosing "All Categories"
    issues a request. *)
Lemma filter_change_alone_counterexample :
  snd (UserExpenseReport.step
         (UserExpenseReport.setSelectedMonth "" filteredReport)
         (UserExpenseReport.ChangeCategory ""))
  = [ReportService.noFilters]
  /\ ~ changeAloneNeverFetches.
Proof.
  split; [reflexivity|].
  intros Hnever.
  destruct (Hnever (UserExpenseReport.setSelectedMonth "" filteredReport) "")
    as [Hcategory _].
  discriminate Hcategory.
Qed.

(** C6, amended.  In the report view:
    - a change of the category or of the month that does not leave both
      filters empty issues no request;
    - Apply issues exactly one request, with the filters as selected;
    - an event that takes the filters from a state where one is set to the
      state where both are empty, after a summary has been loaded (Clear, or
      a change that empties the last set filter), issues exactly one
      request, with the empty filter object, whose query has no parameter;
    - and a request is issued in no other case. *)
Theorem report_refetch_rule (s : UserExpenseReport.State) :
  (forall value,
     (UserExpenseReport.bothEmpty
        (fst (UserExpenseReport.step s (UserExpenseReport.ChangeCategory value))) = false ->
      snd (UserExpenseReport.step s (UserExpenseReport.ChangeCategory value)) = [])
     /\ (UserExpenseReport.bothEmpty
        (fst (UserExpenseReport.step s (UserExpenseReport.ChangeMonth value))) = false ->
      snd (UserExpenseReport.step s (UserExpenseReport.ChangeMonth value)) = []))
  /\ snd (UserExpenseReport.step s UserExpenseReport.ClickApply)
     = [UserExpenseReport.filtersOf s]
  /\ (forall ev,
     is_Some (UserExpenseReport.summary s) -> clearsFilters s ev ->
     snd (UserExpenseReport.step s ev) = [ReportService.noFilters]
     /\ ReportService.params (ReportService.getSummary (Some ReportService.noFilters)) = ∅)
  /\ (forall ev,
     snd (UserExpenseReport.step s ev) <> [] ->
     ev = UserExpenseReport.ClickApply
     \/ (is_Some (UserExpenseReport.summary s) /\ clearsFilters s ev)).
Proof.
  split; [|split; [|split]].
  - intros value. split; intros Hset; rewrite step_bothEmpty in Hset;
      rewrite step_calls; simpl in *; rewrite Hset;
      rewrite andb_false_r; reflexivity.
  - apply step_calls.
  - intros ev Hloaded [Hset Hempty]. split; [|reflexivity].
    rewrite step_bothEmpty in Hempty. rewrite step_calls.
    destruct ev; simpl in *;
      try (rewrite (bothEmpty_depsChanged _ _ Hset Hempty), Hempty,
             (bool_decide_eq_true_2 _ Hloaded); reflexivity).
    unfold UserExpenseReport.bothEmpty in *; simpl in *; congruence.
  - intros ev Hcalls. rewrite step_calls in Hcalls.
    destruct ev; auto; right; simpl in Hcalls;
      match type of Hcalls with
      | (if (?d && ?b && ?l)%bool then _ else _) <> _ =>
          destruct d eqn:Hdeps; destruct b eqn:Hboth; destruct l eqn:Hloaded;
          simpl in Hcalls; try congruence
      end;
      (split; [exact (bool_decide_eq_true_1 _ Hloaded)|]);
      (split; [|rewrite step_bothEmpty; exact Hboth]);
      exact (depsChanged_from_set _ _ Hdeps Hboth).
Qed.

Lemma report_refetch_rule_witness :
  snd (UserExpenseReport.step filteredReport UserExpenseReport.ClickClear)
    = [ReportService.noFilters]
  /\ snd (UserExpenseReport.step filteredReport (UserExpenseReport.ChangeMonth "2024-06"))
    = [].
Proof.
  destruct (report_refetch_rule filteredReport) as (Hchange & _ & Hclear & _).
  split.
  - apply Hclear.
    + exists sampleSummary. reflexivity.
    + split; reflexivity.
  - apply (Hchange "2024-06"). reflexivity.
Defined.

(** ** Pie chart: full circles and arcs *)

(** The binary64 values of 359.9, of 180 and of one tenth, as mantissa and
    exponent: 0x1.67e6666666666p+8, 0x1.68p+7 and 0x1.999999999999ap-4. *)
Example binary64_values :
  UserExpenseReport.binary64 (3599 # 10)
  = SpecFloat.S754_finite false 6331427757385318 (-44)
  /\ UserExpenseReport.binary64 180
     = SpecFloat.S754_finite false 6333186975989760 (-45)
  /\ UserExpenseReport.binary64 (1 # 10)
     = SpecFloat.S754_finite false 7205759403792794 (-56).
Proof. vm_compute. repeat split; reflexivity. Qed.

(** The angle of 99.98 percent is well above the threshold and the one of
    0.02 percent well below it, in binary64 as in the rationals. *)
Example nearlyAll_tests :
  map (fun category =>
         UserExpenseReport.drawnAsCircle 2 (UserExpenseReport.angle64 category))
      nearlyAll
  = [true; false].
Proof. vm_compute. reflexivity. Qed.

(** C7.  The claim is not met by the generator.  In a breakdown of 99.98 and
    0.02 percent the first slice is a full circle, of 359.928 degrees, and
    the second slice is an arc that starts at 0 degrees, not at the
    cumulative angle 359.928 of the slice before it: the branch that draws
    the circle returns before the running angle is advanced. *)
Theorem pie_circle_leaves_angle :
  UserExpenseReport.generatePieChart nearlyAll
    = Some [UserExpenseReport.CircleSlice 0 "#3b82f6";
            UserExpenseReport.ArcSlice 1 0 (0 + (2 # 100) / 100 * 360) 0 "#10b981"]
  /\ (cumulativeAngle nearlyAll 1 == 359928 # 1000)%Q
  /\ ~ laidOutFromAllPreceding nearlyAll.
Proof.
  assert (UserExpenseReport.generatePieChart nearlyAll
          = Some [UserExpenseReport.CircleSlice 0 "#3b82f6";
                  UserExpenseReport.ArcSlice 1 0 (0 + (2 # 100) / 100 * 360) 0 "#10b981"])
    as Hchart by (vm_compute; reflexivity).
  split; [exact Hchart|]. split; [reflexivity|].
  intros Hlayout.
  specialize (Hlayout _ Hchart 1%nat _ eq_refl). simpl in Hlayout.
  destruct Hlayout as (_ & Hstart & _).
  vm_compute in Hstart. discriminate Hstart.
Qed.

(** A single category of 100 percent is drawn as a circle. *)
Example single_category_is_circle :
  UserExpenseReport.generatePieChart [CategoryBreakdown.mk "Food" (50 # 1) 2 (100 # 1)]
  = Some [UserExpenseReport.CircleSlice 0 "#3b82f6"].
Proof. reflexivity. Qed.

(** The rounding of the product decides the test at the threshold: for
    99.97222222222221 percent the product is the binary64 value of 359.9
    itself, and the slice is drawn as a circle. *)
Example threshold_is_rounded :
  UserExpenseReport.angle64
    (CategoryBreakdown.mk "Rent" (1 # 1) 1 (9997222222222221 # 100000000000000))
  = UserExpenseReport.binary64 (3599 # 10)
  /\ UserExpenseReport.drawnAsCircle 2
       (UserExpenseReport.angle64
          (CategoryBreakdown.mk "Rent" (1 # 1) 1 (9997222222222221 # 100000000000000)))
     = true.
Proof. vm_compute. split; reflexivity. Qed.

(** ** Bar chart: heights *)

Lemma fold_max_finite (values : list Q) :
  forall start : Q,
  exists mx,
    fold_left (fun acc v => jsMax acc (Finite v)) values (Finite start) = Finite mx
    /\ (mx = start \/ In mx values)
    /\ (start <= mx)%Q
    /\ forall v, In v values -> (v <= mx)%Q.
Proof.
  induction values as [|v rest IH]; intros start.
  - exists start. simpl. repeat split; auto using Qle_refl. intros v [].
  - simpl. destruct (Qle_bool start v) eqn:Hle.
    + apply Qle_bool_iff in Hle.
      destruct (IH v) as (mx & Hfold & Hmem & Hlow & Hup).
      exists mx. split; [exact Hfold|]. split; [|split].
      * right. destruct Hmem as [-> | Hin]; [left; reflexivity | right; exact Hin].
      * apply Qle_trans with v; assumption.
      * intros w [<- | Hin]; [exact Hlow | apply Hup; exact Hin].
    + assert (v <= start)%Q as Hge.
      { apply Qlt_le_weak, Qnot_le_lt. intros Hle'.
        apply Qle_bool_iff in Hle'. congruence. }
      destruct (IH start) as (mx & Hfold & Hmem & Hlow & Hup).
      exists mx. split; [exact Hfold|]. split; [|split].
      * destruct Hmem as [-> | Hin]; [left; reflexivity | right; right; exact Hin].
      * exact Hlow.
      * intros w [<- | Hin]; [apply Qle_trans with start; assumption | apply Hup; exact Hin].
Qed.

(** [Math.max] of a non-empty list is one of its elements and bounds them
    all. *)
Lemma Math_max_finite (values : list Q) :
  values <> [] ->
  exists mx, Math_max values = Finite mx
    /\ In mx values
    /\ forall v, In v values -> (v <= mx)%Q.
Proof.
  destruct values as [|v rest]; [congruence|]. intros _.
  unfold Math_max. simpl.
  destruct (fold_max_finite rest v) as (mx & Hfold & Hmem & Hlow & Hup).
  exists mx. split; [exact Hfold|]. split.
  - destruct Hmem as [-> | Hin]; [left; reflexivity | right; exact Hin].
  - intros w [<- | Hin]; [exact Hlow | apply Hup; exact Hin].
Qed.

Lemma barChartHeight_230 : UserExpenseReport.barChartHeight = 230%Q.
Proof. reflexivity. Qed.

Lemma scaled_height_bounds (amount mx : Q) :
  (0 <= amount)%Q -> (amount <= mx)%Q -> (0 < mx)%Q ->
  (0 <= amount / mx * 230 /\ amount / mx * 230 <= 230)%Q.
Proof.
  intros Hlow Hup Hpos.
  assert (0 <= amount / mx)%Q as Hratio0.
  { apply Qle_shift_div_l; [exact Hpos|]. rewrite Qmult_0_l. exact Hlow. }
  assert (amount / mx <= 1)%Q as Hratio1.
  { apply Qle_shift_div_r; [exact Hpos|]. rewrite Qmult_1_l. exact Hup. }
  split; lra.
Qed.

(** C9.  For a non-empty monthly breakdown with nonnegative amounts the
    series maximum is the largest amount of the series and the generator
    draws one bar per month.  When that maximum is strictly positive, the
    height of each bar is its amount divided by the maximum times the
    available height 230, and lies between 0 and 230.  The division has no
    guard: when the maximum is not positive (every amount is zero) the
    height of every bar is [NaN]. *)
Theorem bar_heights (monthlyData : list MonthlyBreakdown.t) :
  monthlyData <> [] ->
  (forall m, In m monthlyData -> (0 <= MonthlyBreakdown.totalAmount m)%Q) ->
  exists mx bars,
    UserExpenseReport.seriesMax monthlyData = Finite mx
    /\ (exists m, In m monthlyData /\ MonthlyBreakdown.totalAmount m = mx)
    /\ (forall m, In m monthlyData -> (MonthlyBreakdown.totalAmount m <= mx)%Q)
    /\ UserExpenseReport.generateBarChart monthlyData = Some bars
    /\ length bars = length monthlyData
    /\ (forall i m, monthlyData !! i = Some m ->
        exists bar, bars !! i = Some bar
          /\ ((0 < mx)%Q ->
              UserExpenseReport.barHeight bar
                = Finite (MonthlyBreakdown.totalAmount m / mx * 230)
              /\ (0 <= MonthlyBreakdown.totalAmount m / mx * 230)%Q
              /\ (MonthlyBreakdown.totalAmount m / mx * 230 <= 230)%Q)
          /\ (~ (0 < mx)%Q -> UserExpenseReport.barHeight bar = NaN)).
Proof.
  intros Hnonempty Hnonneg.
  destruct (Math_max_finite (map MonthlyBreakdown.totalAmount monthlyData))
    as (mx & Hmax & Hmem & Hup).
  { destruct monthlyData; [congruence | discriminate]. }
  exists mx, (imap (UserExpenseReport.barOf (Finite mx)) monthlyData).
  split; [exact Hmax|]. split; [|split; [|split; [|split; [|]]]].
  - apply in_map_iff in Hmem as (m & Hm & Hin). exists m. auto.
  - intros m Hin. apply Hup. apply in_map. exact Hin.
  - unfold UserExpenseReport.generateBarChart.
    destruct monthlyData; [congruence|]. simpl Nat.eqb. cbv iota.
    fold (UserExpenseReport.seriesMax (t :: monthlyData)) in Hmax.
    rewrite Hmax. reflexivity.
  - apply length_imap.
  - intros i m Hat. exists (UserExpenseReport.barOf (Finite mx) i m).
    split; [rewrite list_lookup_imap, Hat; reflexivity|].
    assert (In m monthlyData) as Hin.
    { apply list_elem_of_In. eapply list_elem_of_lookup_2. exact Hat. }
    pose proof (Hnonneg m Hin) as Hlow.
    pose proof (Hup _ (in_map MonthlyBreakdown.totalAmount _ _ Hin)) as Hhigh.
    split.
    + intros Hpos. split; [|apply scaled_height_bounds; assumption].
      unfold UserExpenseReport.barOf. simpl. unfold isZero.
      destruct (Qeq_bool mx 0) eqn:Hzero.
      * apply Qeq_bool_iff in Hzero. rewrite Hzero in Hpos.
        exfalso. exact (Qlt_irrefl 0 Hpos).
      * reflexivity.
    + intros Hnotpos.
      assert (mx == 0)%Q as Hmx.
      { apply Qle_antisym; [apply Qnot_lt_le; exact Hnotpos|].
        apply Qle_trans with (MonthlyBreakdown.totalAmount m); assumption. }
      assert (MonthlyBreakdown.totalAmount m == 0)%Q as Ham.
      { apply Qle_antisym; [rewrite <- Hmx; exact Hhigh | exact Hlow]. }
      unfold UserExpenseReport.barOf. simpl. unfold isZero.
      apply Qeq_bool_iff in Hmx, Ham. rewrite Hmx, Ham. reflexivity.
Qed.

Lemma bar_heights_witness :
  exists mx bars,
    UserExpenseReport.seriesMax twoMonths = Finite mx
    /\ UserExpenseReport.generateBarChart twoMonths = Some bars
    /\ length bars = 2%nat.
Proof.
  destruct (bar_heights twoMonths) as (mx & bars & Hmax & _ & _ & Hbars & Hlen & _).
  - discriminate.
  - intros m [<- | [<- | []]]; vm_compute; discriminate.
  - exists mx, bars. auto.
Defined.

(** A series of zero amounts: the height is not a number. *)
Example zero_series_height :
  option_map (map UserExpenseReport.barHeight)
    (UserExpenseReport.generateBarChart [MonthlyBreakdown.mk "2024-01" (0 # 1) 1])
  = Some [NaN].
Proof. reflexivity. Qed.

(** * Properties of the further parts *)

(** ** The pagination bar *)

Lemma renderPageNumbers_cases (totalPages currentPage : Z) :
  0 <= currentPage < totalPages ->
  (totalPages <= 5
   /\ renderPageNumbers totalPages currentPage
      = map (loopButton currentPage) (seqZ 0 totalPages))
  \/ (5 < totalPages /\ currentPage < 3
     /\ renderPageNumbers totalPages currentPage
        = [loopButton currentPage 0; loopButton currentPage 1;
           loopButton currentPage 2; loopButton currentPage 3;
           EllipsisSpan "ellipsis"; lastButton totalPages])
  \/ (5 < totalPages /\ totalPages - 3 <= currentPage
     /\ renderPageNumbers totalPages currentPage
        = [firstButton; EllipsisSpan "ellipsis";
           loopButton currentPage (totalPages - 4);
           loopButton currentPage (totalPages - 4 + 1);
           loopButton currentPage (totalPages - 4 + 1 + 1);
           loopButton currentPage (totalPages - 4 + 1 + 1 + 1)])
  \/ (5 < totalPages /\ 3 <= currentPage < totalPages - 3
     /\ renderPageNumbers totalPages currentPage
        = [firstButton; EllipsisSpan "ellipsis1";
           loopButton currentPage (currentPage - 1);
           loopButton currentPage (currentPage - 1 + 1);
           loopButton currentPage (currentPage - 1 + 1 + 1);
           EllipsisSpan "ellipsis2"; lastButton totalPages]).
Proof.
  intros Hrange.
  destruct (Z_le_gt_dec totalPages 5) as [Hsmall | Hlarge].
  - left. split; [exact Hsmall|]. apply renderPageNumbers_small; lia.
  - right. destruct (Z_lt_le_dec currentPage 3) as [Hhead | Hrest].
    + left. split; [lia|]. split; [exact Hhead|].
      apply renderPageNumbers_head; lia.
    + right. destruct (Z_le_gt_dec (totalPages - 3) currentPage) as [Htail | Hmid].
      * left. split; [lia|]. split; [exact Htail|].
        apply renderPageNumbers_tail; lia.
      * right. split; [lia|]. split; [lia|].
        apply renderPageNumbers_middle; lia.
Qed.

(** The windows of at most five pages, one by one. *)
Ltac small_window totalPages currentPage :=
  assert (totalPages = 1 \/ totalPages = 2 \/ totalPages = 3
          \/ totalPages = 4 \/ totalPages = 5) as Hpages by lia;
  repeat (destruct Hpages as [-> | Hpages]); try subst totalPages;
  match goal with
  | H : 0 <= currentPage < ?n |- _ =>
      assert (currentPage = 0 \/ currentPage = 1 \/ currentPage = 2
              \/ currentPage = 3 \/ currentPage = 4) as Hcurrent by lia;
      repeat (destruct Hcurrent as [-> | Hcurrent]); try subst currentPage;
      try lia
  end.

(** Decide the comparisons of the current page with the pages of a loop. *)
Ltac decide_active :=
  unfold loopButton, firstButton, lastButton; simpl;
  repeat match goal with
  | |- context [Z.eqb ?a ?b] => destruct (Z.eqb_spec a b); try lia; simpl
  end.

(** Exactly one element of the window carries the active style, and it is
    the button of the current page. *)
Theorem one_active_button (totalPages currentPage : Z) :
  0 <= currentPage < totalPages ->
  List.filter isActive (renderPageNumbers totalPages currentPage)
  = [PageButton currentPage currentPage (currentPage + 1) true].
Proof.
  intros Hrange.
  destruct (renderPageNumbers_cases totalPages currentPage Hrange)
    as [[Hsmall ->] | [(Hlarge & Hhead & ->) | [(Hlarge & Htail & ->) | (Hlarge & Hmid & ->)]]].
  - small_window totalPages currentPage; reflexivity.
  - decide_active; repeat f_equal; lia.
  - decide_active; repeat f_equal; lia.
  - decide_active; repeat f_equal; lia.
Qed.

Lemma one_active_button_witness :
  List.filter isActive (renderPageNumbers 12 7) = [PageButton 7 7 8 true].
Proof. apply (one_active_button 12 7). lia. Defined.

(** Decide the integer comparisons left in a goal. *)
Ltac decide_comparisons :=
  repeat match goal with
  | |- context [Z.eqb ?a ?b] => destruct (Z.eqb_spec a b); try lia; simpl
  | |- context [Z.leb ?a ?b] => destruct (Z.leb_spec a b); try lia; simpl
  end.

(** A button of the window, wherever it stands, is the button of a page
    that exists. *)
Lemma window_buttons_in_range (totalPages currentPage : Z) :
  0 <= currentPage < totalPages ->
  Forall (fun it =>
            match it with
            | PageButton key target label _ =>
                key = target /\ label = target + 1 /\ 0 <= target < totalPages
            | EllipsisSpan _ => True
            end)
         (renderPageNumbers totalPages currentPage).
Proof.
  intros Hrange.
  destruct (renderPageNumbers_cases totalPages currentPage Hrange)
    as [[Hsmall ->] | [(Hlarge & Hhead & ->) | [(Hlarge & Htail & ->) | (Hlarge & Hmid & ->)]]].
  - small_window totalPages currentPage;
      repeat constructor; simpl; lia.
  - repeat constructor; simpl; lia.
  - repeat constructor; simpl; lia.
  - repeat constructor; simpl; lia.
Qed.

(** The window starts at the first page and ends at the last one, holds at
    most seven elements, shows pages in increasing order with neighbouring
    buttons on consecutive pages, and every ellipsis stands for at least one
    page that is not shown. *)
Theorem window_reads_coherently (totalPages currentPage : Z) :
  0 <= currentPage < totalPages ->
  let window := map shown (renderPageNumbers totalPages currentPage) in
  head window = Some (Page 0)
  /\ last window = Some (Page (totalPages - 1))
  /\ (length window <= 7)%nat
  /\ coherent window = true.
Proof.
  intros Hrange window. subst window.
  destruct (renderPageNumbers_cases totalPages currentPage Hrange)
    as [[Hsmall ->] | [(Hlarge & Hhead & ->) | [(Hlarge & Htail & ->) | (Hlarge & Hmid & ->)]]].
  - small_window totalPages currentPage;
      (split; [reflexivity | split; [reflexivity | split; [simpl; lia | reflexivity]]]).
  - simpl. split; [reflexivity | split; [reflexivity | split; [lia|]]].
    decide_comparisons; try reflexivity.
  - simpl. split; [reflexivity | split; [f_equal; f_equal; lia | split; [lia|]]].
    decide_comparisons; try reflexivity.
  - simpl. split; [reflexivity | split; [reflexivity | split; [lia|]]].
    decide_comparisons; try reflexivity.
Qed.

Lemma window_reads_coherently_witness :
  coherent (map shown (renderPageNumbers 12 7)) = true.
Proof. apply (window_reads_coherently 12 7). lia. Defined.

(** While the current page exists, no click on the pagination bar leaves the
    range of the pages: every enabled navigation button and every page
    button asks for a page in [[0, totalPages)], and the number of pages is
    not touched. *)
Theorem click_stays_in_range (s : UserExpenseManagement.State)
    (controls : list PaginationBar.Control) (c : PaginationBar.Control) :
  0 <= UserExpenseManagement.currentPage s < UserExpenseManagement.totalPages s ->
  PaginationBar.paginationContainer s = Some controls ->
  In c controls ->
  let s' := PaginationBar.click c s in
  0 <= UserExpenseManagement.currentPage s' < UserExpenseManagement.totalPages s'
  /\ UserExpenseManagement.totalPages s' = UserExpenseManagement.totalPages s
  /\ UserExpenseManagement.expenses s' = UserExpenseManagement.expenses s.
Proof.
  intros Hrange Hbar Hin s'. subst s'.
  unfold PaginationBar.paginationContainer in Hbar.
  destruct (0 <? UserExpenseManagement.totalPages s); [|discriminate].
  injection Hbar as <-.
  assert (forall page, PaginationBar.clicked c = Some page ->
            0 <= page < UserExpenseManagement.totalPages s) as Hpage.
  { intros page Hclick. unfold PaginationBar.paginationButtons in Hin.
    simpl in Hin. destruct Hin as [<- | [<- | Hin]].
    - simpl in Hclick.
      destruct (Z.eqb_spec (UserExpenseManagement.currentPage s) 0);
        [discriminate|]. injection Hclick as <-. lia.
    - simpl in Hclick.
      destruct (Z.eqb_spec (UserExpenseManagement.currentPage s) 0);
        [discriminate|]. injection Hclick as <-. lia.
    - apply in_app_or in Hin as [Hin | [<- | [<- | []]]].
      + apply in_map_iff in Hin as (it & <- & Hit).
        pose proof (window_buttons_in_range _ _ Hrange) as Hall.
        rewrite Forall_forall in Hall. unfold UserExpenseManagement.pageNumbers in Hit.
        apply list_elem_of_In in Hit. specialize (Hall it Hit).
        destruct it as [key target label active | key]; [|discriminate].
        injection Hclick as <-. lia.
      + simpl in Hclick.
        destruct (Z.leb_spec (UserExpenseManagement.totalPages s - 1)
                    (UserExpenseManagement.currentPage s));
          [discriminate|]. injection Hclick as <-. lia.
      + simpl in Hclick.
        destruct (Z.leb_spec (UserExpenseManagement.totalPages s - 1)
                    (UserExpenseManagement.currentPage s));
          [discriminate|]. injection Hclick as <-. lia. }
  unfold PaginationBar.click.
  destruct (PaginationBar.clicked c) as [page|] eqn:Hclick.
  - specialize (Hpage page eq_refl). simpl. auto.
  - auto.
Qed.

Lemma click_stays_in_range_witness :
  let s' := PaginationBar.click (PaginationBar.NavButton "Next" 8 false)
              (expenseViewAt 7 12) in
  0 <= UserExpenseManagement.currentPage s' < UserExpenseManagement.totalPages s'.
Proof.
  refine (proj1 (click_stays_in_range (expenseViewAt 7 12) _ _ _ eq_refl _)).
  - simpl. lia.
  - simpl. tauto.
Defined.

(** ** List controllers: the outcomes of a confirmed delete *)

Lemma filter_otherThan_In (target : Category.t) (l : list Category.t) (x : Category.t) :
  In x (List.filter (CategoryManagement.otherThan target) l)
  <-> In x l /\ Category.id x <> Category.id target.
Proof.
  rewrite filter_In. unfold CategoryManagement.otherThan.
  rewrite negb_true_iff, String.eqb_neq. reflexivity.
Qed.

Lemma filter_otherThan_absent (target : Category.t) (l : list Category.t) :
  (forall x, In x l -> Category.id x <> Category.id target) ->
  List.filter (CategoryManagement.otherThan target) l = l.
Proof.
  intros Hnone. apply forallb_filter_id. apply forallb_forall.
  intros x Hin. unfold CategoryManagement.otherThan.
  apply negb_true_iff, String.eqb_neq, Hnone, Hin.
Qed.

Lemma filter_otherThan_length (target : Category.t) (l : list Category.t) :
  List.NoDup (map Category.id l) -> In target l ->
  S (length (List.filter (CategoryManagement.otherThan target) l)) = length l.
Proof.
  induction l as [|x rest IH]; intros Hnodup Hin; [destruct Hin|].
  simpl in Hnodup. apply List.NoDup_cons_iff in Hnodup as [Hfresh Hnodup].
  simpl. unfold CategoryManagement.otherThan at 1.
  destruct (String.eqb_spec (Category.id x) (Category.id target)) as [Heq | Hne]; simpl.
  - f_equal. rewrite filter_otherThan_absent; [reflexivity|].
    intros y Hy Hsame. apply Hfresh. rewrite Heq, <- Hsame.
    apply in_map. exact Hy.
  - f_equal. apply IH; [exact Hnodup|].
    destruct Hin as [-> | Hin]; [congruence | exact Hin].
Qed.

(** Choosing a category for deletion and confirming, with the backend
    accepting the delete: one delete call carries the id of the category;
    the list keeps exactly the categories with another id, in their order;
    the counter drops by one; the dialog is closed and the selection
    cleared; no reload is made. *)
Theorem delete_category_removes (s : CategoryManagement.State) (c : Category.t) :
  let r := CategoryManagement.handleDeleteCategory (Resolved tt)
             (CategoryManagement.openDeleteDialog c s) in
  snd r = [CategoryService_deleteCategory (Category.id c)]
  /\ CategoryManagement.categories (fst r)
     = List.filter (CategoryManagement.otherThan c) (CategoryManagement.categories s)
  /\ (forall x, In x (CategoryManagement.categories (fst r))
              <-> In x (CategoryManagement.categories s)
                  /\ Category.id x <> Category.id c)
  /\ CategoryManagement.totalElements (fst r) = CategoryManagement.totalElements s - 1
  /\ CategoryManagement.showDeleteDialog (fst r) = false
  /\ CategoryManagement.categoryToDelete (fst r) = None
  /\ CategoryManagement.error (fst r) = CategoryManagement.error s.
Proof.
  simpl. split; [reflexivity|]. split; [reflexivity|].
  split; [intros x; apply filter_otherThan_In|].
  repeat split.
Qed.

(** The counter and the list stay in step when the deleted category is
    listed and the ids of the list are distinct: the list loses one entry as
    the counter drops by one.  When no listed category has the id, the list
    is unchanged and the counter drops all the same. *)
Theorem delete_category_counter (s : CategoryManagement.State) (c : Category.t) :
  let s' := fst (CategoryManagement.handleDeleteCategory (Resolved tt)
                   (CategoryManagement.openDeleteDialog c s)) in
  (List.NoDup (map Category.id (CategoryManagement.categories s)) ->
   In c (CategoryManagement.categories s) ->
   surplus s' = surplus s)
  /\ ((forall x, In x (CategoryManagement.categories s) ->
         Category.id x <> Category.id c) ->
      CategoryManagement.categories s' = CategoryManagement.categories s
      /\ surplus s' = surplus s - 1).
Proof.
  simpl. split.
  - intros Hnodup Hin. unfold surplus. simpl.
    pose proof (filter_otherThan_length c _ Hnodup Hin). lia.
  - intros Hnone. unfold surplus. simpl.
    rewrite filter_otherThan_absent by exact Hnone. split; [reflexivity | lia].
Qed.

Lemma delete_category_counter_witness :
  let s' := fst (CategoryManagement.handleDeleteCategory (Resolved tt)
                   (CategoryManagement.openDeleteDialog food
                      (categoryViewOf [food; rent]))) in
  surplus s' = surplus (categoryViewOf [food; rent]).
Proof.
  refine (proj1 (delete_category_counter (categoryViewOf [food; rent]) food) _ _).
  - simpl. repeat constructor; simpl; intuition discriminate.
  - simpl. left. reflexivity.
Defined.

(** Choosing an item for deletion and confirming, with the backend
    rejecting the delete: in the three list controllers one delete call is
    issued and no reload; the list, the totals and the page are as before,
    the dialog is closed and the selection cleared; the only trace is the
    error, set to the message of the failure.  From a state with the dialog
    closed and nothing selected, the state after is the state before with
    that error. *)
Theorem rejected_delete_only_sets_error (err : JsError) :
  (forall (s : UserExpenseManagement.State) (e : Expense.t) reload,
     UserExpenseManagement.showDeleteDialog s = false ->
     UserExpenseManagement.expenseToDelete s = None ->
     UserExpenseManagement.handleDeleteExpense (Rejected err) reload
       (UserExpenseManagement.openDeleteDialog e s)
     = (UserExpenseManagement.setError
          (Some (errorMessage err "Failed to delete expense")) s,
        [ExpenseService_deleteExpense (Expense.id e)]))
  /\ (forall (s : CategoryManagement.State) (c : Category.t),
     CategoryManagement.showDeleteDialog s = false ->
     CategoryManagement.categoryToDelete s = None ->
     CategoryManagement.handleDeleteCategory (Rejected err)
       (CategoryManagement.openDeleteDialog c s)
     = (CategoryManagement.setError
          (Some (errorMessage err "Failed to delete category")) s,
        [CategoryService_deleteCategory (Category.id c)]))
  /\ (forall (s : UserManagement.State) (u : User.t) reload,
     UserManagement.showDeleteDialog s = false ->
     UserManagement.userToDelete s = None ->
     UserManagement.handleDeleteUser (Rejected err) reload
       (UserManagement.openDeleteDialog u s)
     = (UserManagement.setError
          (Some (errorMessage err "Failed to delete user")) s,
        [UserService_deleteUser (User.id u)])).
Proof.
  split; [|split].
  - intros [] e reload Hclosed Hnone. simpl in *. subst. reflexivity.
  - intros [] c Hclosed Hnone. simpl in *. subst. reflexivity.
  - intros [] u reload Hclosed Hnone. simpl in *. subst. reflexivity.
Qed.

Lemma rejected_delete_only_sets_error_witness :
  CategoryManagement.handleDeleteCategory (Rejected networkError)
    (CategoryManagement.openDeleteDialog food (categoryViewOf [food; rent]))
  = (CategoryManagement.setError (Some "Network Error") (categoryViewOf [food; rent]),
     [CategoryService_deleteCategory "c1"]).
Proof.
  destruct (rejected_delete_only_sets_error networkError) as (_ & Hcategory & _).
  apply (Hcategory (categoryViewOf [food; rent]) food); reflexivity.
Defined.

(** A confirmed delete of an expense that the backend accepts is followed by
    one reload of the page the view is on: the two calls are issued in that
    order, the page index and the page size are never moved, the dialog is
    closed and the selection cleared whatever the reload brings.  When the
    reload fails the list still shows the expenses of before the delete,
    the deleted one included, and the error is the one of a failed load. *)
Theorem accepted_delete_reloads (s : UserExpenseManagement.State)
    (target : Expense.t) (reload : Reply (PageResponse Expense.t)) :
  UserExpenseManagement.expenseToDelete s = Some target ->
  let r := UserExpenseManagement.handleDeleteExpense (Resolved tt) reload s in
  snd r = [ExpenseService_deleteExpense (Expense.id target);
           ExpenseService_getAllExpenses (UserExpenseManagement.currentPage s)
             (UserExpenseManagement.pageSize s)]
  /\ UserExpenseManagement.currentPage (fst r) = UserExpenseManagement.currentPage s
  /\ UserExpenseManagement.pageSize (fst r) = UserExpenseManagement.pageSize s
  /\ UserExpenseManagement.showDeleteDialog (fst r) = false
  /\ UserExpenseManagement.expenseToDelete (fst r) = None
  /\ UserExpenseManagement.loading (fst r) = false
  /\ match reload with
     | Resolved page =>
         UserExpenseManagement.expenses (fst r) = orElse (content page) []
         /\ UserExpenseManagement.totalPages (fst r) = orElse (totalPagesOf page) 0
         /\ UserExpenseManagement.totalElements (fst r) = orElse (totalElementsOf page) 0
         /\ UserExpenseManagement.error (fst r) = None
     | Rejected err =>
         UserExpenseManagement.expenses (fst r) = UserExpenseManagement.expenses s
         /\ UserExpenseManagement.totalPages (fst r) = UserExpenseManagement.totalPages s
         /\ UserExpenseManagement.totalElements (fst r) = UserExpenseManagement.totalElements s
         /\ UserExpenseManagement.error (fst r)
            = Some (errorMessage err "Failed to load expenses")
     end.
Proof.
  intros Hselected. unfold UserExpenseManagement.handleDeleteExpense.
  rewrite Hselected. destruct reload; simpl; repeat split.
Qed.

(** Deleting the only expense of the last page: the reload reports two
    pages, the view stays on the third. *)
Lemma accepted_delete_reloads_witness :
  let r := UserExpenseManagement.handleDeleteExpense (Resolved tt)
             (Resolved {| content := Some []; totalPagesOf := Some 2;
                          totalElementsOf := Some 20 |}) lastPageView in
  snd r = [ExpenseService_deleteExpense "e21"; ExpenseService_getAllExpenses 2 10]
  /\ UserExpenseManagement.currentPage (fst r) = 2
  /\ UserExpenseManagement.totalPages (fst r) = 2.
Proof.
  destruct (accepted_delete_reloads lastPageView lunch
              (Resolved {| content := Some []; totalPagesOf := Some 2;
                           totalElementsOf := Some 20 |}) eq_refl)
    as (Hcalls & Hpage & _ & _ & _ & _ & _ & Hpages & _).
  split; [exact Hcalls|]. split; [exact Hpage | exact Hpages].
Defined.

(** ** Blank texts *)

Lemma dropWhile_nil {A} (p : A -> bool) (l : list A) :
  dropWhile p l = [] <-> forallb p l = true.
Proof.
  induction l as [|x rest IH]; simpl; [tauto|].
  destruct (p x); simpl; [exact IH|]. split; discriminate.
Qed.

Lemma dropWhile_fixed {A} (p : A -> bool) (l : list A) :
  forallb p (dropWhile p l) = true -> dropWhile p l = [].
Proof.
  induction l as [|x rest IH]; simpl; [reflexivity|].
  destruct (p x) eqn:Hx; [exact IH|]. simpl. rewrite Hx. discriminate.
Qed.

Lemma forallb_rev {A} (p : A -> bool) (l : list A) :
  forallb p (rev l) = forallb p l.
Proof.
  induction l as [|x rest IH]; [reflexivity|].
  simpl. rewrite forallb_app, IH. simpl. rewrite andb_true_r. apply andb_comm.
Qed.

(** A text trims to the empty text exactly when it holds white space
    only. *)
Lemma trim_empty (text : JsText) : trim text = [] <-> allWhiteSpace text.
Proof.
  unfold trim, allWhiteSpace. split.
  - intros Hnil. apply (f_equal (@rev N)) in Hnil.
    rewrite rev_involutive in Hnil. simpl in Hnil.
    apply dropWhile_nil in Hnil. rewrite forallb_rev in Hnil.
    apply dropWhile_fixed in Hnil. apply dropWhile_nil. exact Hnil.
  - intros Hblank. apply dropWhile_nil in Hblank. rewrite Hblank. reflexivity.
Qed.

Lemma isEmpty_nil (text : JsText) : isEmpty text = true <-> text = [].
Proof. destruct text; simpl; split; congruence. Qed.

Lemma isBlank_Some (text : JsText) : isBlank (Some text) = true <-> allWhiteSpace text.
Proof. simpl. rewrite isEmpty_nil. apply trim_empty. Qed.

Lemma nameErrors_blank (name : option JsText) :
  isBlank name = true ->
  CategoryDialogs.nameErrors name = {["name" := "Category name is required"]}
  /\ noErrors (CategoryDialogs.nameErrors name) = false.
Proof.
  intros Hblank. unfold CategoryDialogs.nameErrors. rewrite Hblank.
  split; [reflexivity|]. unfold noErrors. rewrite map_to_list_singleton. reflexivity.
Qed.

Lemma nameErrors_filled (name : option JsText) :
  isBlank name = false ->
  CategoryDialogs.nameErrors name = ∅
  /\ noErrors (CategoryDialogs.nameErrors name) = true.
Proof.
  intros Hfilled. unfold CategoryDialogs.nameErrors. rewrite Hfilled.
  split; [reflexivity|]. unfold noErrors. rewrite map_to_list_empty. reflexivity.
Qed.

(** ** CategoryManagement: adding and editing *)

(** Adding a category.  A name of white space only (no-break spaces and the
    other white space of [trim] included) stops the handler before any
    backend call: the only change is the validation error of the name.
    With another name one create call carries the draft; when the backend
    answers, its category is appended at the end of the list, the counter
    grows by one (so counter and list stay in step), the dialog is closed
    and the draft reset; when the backend rejects, list, counter, dialog and
    draft stay as they are and the error is set. *)
Theorem add_category_outcomes (s : CategoryDialogs.State) :
  let draft := CategoryDialogs.newCategoryForm s in
  (allWhiteSpace (CategoryDialogs.name draft) ->
   forall created,
     CategoryDialogs.handleAddCategory created s
     = (CategoryDialogs.onView
          (CategoryDialogs.setValidationErrors
             {["name" := "Category name is required"]}) s, []))
  /\ (~ allWhiteSpace (CategoryDialogs.name draft) ->
     (forall response,
        let r := CategoryDialogs.handleAddCategory (Resolved response) s in
        snd r = [CategoryDialogs.CategoryService_createCategory draft]
        /\ CategoryManagement.categories (CategoryDialogs.view (fst r))
           = (CategoryManagement.categories (CategoryDialogs.view s) ++ [response])%list
        /\ CategoryManagement.totalElements (CategoryDialogs.view (fst r))
           = CategoryManagement.totalElements (CategoryDialogs.view s) + 1
        /\ surplus (CategoryDialogs.view (fst r)) = surplus (CategoryDialogs.view s)
        /\ CategoryManagement.showAddCategoryDialog (CategoryDialogs.view (fst r)) = false
        /\ CategoryDialogs.newCategoryForm (fst r) = CategoryDialogs.emptyNewForm
        /\ CategoryManagement.validationErrors (CategoryDialogs.view (fst r)) = ∅)
     /\ (forall err,
        CategoryDialogs.handleAddCategory (Rejected err) s
        = (CategoryDialogs.onView
             (fun v => CategoryManagement.setError
                         (Some (errorMessage err "Failed to create category"))
                         (CategoryDialogs.setValidationErrors ∅ v)) s,
           [CategoryDialogs.CategoryService_createCategory draft]))).
Proof.
  intros draft. subst draft. split.
  - intros Hblank created. apply isBlank_Some in Hblank.
    destruct (nameErrors_blank _ Hblank) as [Herrors Hsome].
    unfold CategoryDialogs.handleAddCategory, CategoryDialogs.validateAddCategory.
    rewrite Hsome, Herrors. reflexivity.
  - intros Hfilled.
    assert (isBlank (Some (CategoryDialogs.name (CategoryDialogs.newCategoryForm s))) = false)
      as Hname.
    { destruct (isBlank _) eqn:Hb; [|reflexivity].
      apply isBlank_Some in Hb. contradiction. }
    destruct (nameErrors_filled _ Hname) as [Herrors Hnone].
    unfold CategoryDialogs.handleAddCategory, CategoryDialogs.validateAddCategory.
    rewrite Hnone, Herrors. simpl. split.
    + intros response. repeat split.
      unfold surplus. simpl. rewrite length_app. simpl. lia.
    + intros err. reflexivity.
Qed.

Lemma add_category_outcomes_witness :
  CategoryDialogs.handleAddCategory (Resolved rent) (dialogsOf [food] [32; 160; 9]%N)
    = (CategoryDialogs.onView
         (CategoryDialogs.setValidationErrors
            {["name" := "Category name is required"]})
         (dialogsOf [food] [32; 160; 9]%N), [])
  /\ CategoryManagement.categories
       (CategoryDialogs.view
          (fst (CategoryDialogs.handleAddCategory (Resolved rent)
                  (dialogsOf [food] (asciiText "Rent")))))
     = [food; rent].
Proof.
  split.
  - apply (proj1 (add_category_outcomes (dialogsOf [food] [32; 160; 9]%N))).
    reflexivity.
  - refine (proj1 (proj2 (proj1 (proj2
      (add_category_outcomes (dialogsOf [food] (asciiText "Rent"))) _) rent))).
    vm_compute. discriminate.
Defined.

(** Saving the edit dialog.  Without a name, or with a name of white space
    only, the handler stops before any backend call and the list is not
    touched.  Otherwise one update call carries the id of the selected
    category and the draft; when the backend answers, every listed category
    with the id of the selected one is replaced, at its position, by the
    answer laid over it: each member the answer has takes the value of the
    answer, a [null] included, and each member it lacks keeps its value.
    Every other category is left as it is, the list keeps its length and
    the counter its value, the dialog is closed, the selection cleared and
    the draft emptied. *)
Theorem update_category_patches (s : CategoryDialogs.State) (selected : Category.t) :
  CategoryManagement.selectedCategory (CategoryDialogs.view s) = Some selected ->
  let draft := CategoryDialogs.editCategoryForm s in
  (isBlank (CategoryDialogs.editName draft) = true ->
   forall updated,
     CategoryDialogs.handleUpdateCategory updated s
     = (CategoryDialogs.onView
          (CategoryDialogs.setValidationErrors
             {["name" := "Category name is required"]}) s, []))
  /\ (isBlank (CategoryDialogs.editName draft) = false ->
     forall response,
       let r := CategoryDialogs.handleUpdateCategory (Resolved response) s in
       let before := CategoryManagement.categories (CategoryDialogs.view s) in
       let after := CategoryManagement.categories (CategoryDialogs.view (fst r)) in
       snd r = [CategoryDialogs.CategoryService_updateCategory
                  (Category.id selected) draft]
       /\ length after = length before
       /\ (forall (i : nat) c, before !! i = Some c ->
             after !! i
             = Some (if String.eqb (Category.id c) (Category.id selected)
                     then CategoryDialogs.spread c response else c))
       /\ (forall c,
             Category.description (CategoryDialogs.spread c response)
             = match CategoryDialogs.answerDescription response with
               | CategoryDialogs.Present value => value
               | CategoryDialogs.Missing => Category.description c
               end)
       /\ CategoryManagement.totalElements (CategoryDialogs.view (fst r))
          = CategoryManagement.totalElements (CategoryDialogs.view s)
       /\ CategoryManagement.showEditCategoryDialog (CategoryDialogs.view (fst r)) = false
       /\ CategoryManagement.selectedCategory (CategoryDialogs.view (fst r)) = None
       /\ CategoryDialogs.editCategoryForm (fst r) = CategoryDialogs.emptyEditForm).
Proof.
  intros Hselected draft. subst draft. split.
  - intros Hblank updated.
    destruct (nameErrors_blank _ Hblank) as [Herrors Hsome].
    unfold CategoryDialogs.handleUpdateCategory, CategoryDialogs.validateEditCategory.
    rewrite Hselected, Hsome, Herrors. reflexivity.
  - intros Hfilled response.
    destruct (nameErrors_filled _ Hfilled) as [Herrors Hnone].
    unfold CategoryDialogs.handleUpdateCategory, CategoryDialogs.validateEditCategory.
    rewrite Hselected, Hnone, Herrors. simpl.
    split; [reflexivity|]. split; [apply length_map|].
    split; [|repeat split].
    intros i c Hat. rewrite list_lookup_fmap, Hat. reflexivity.
Qed.

Lemma update_category_patches_witness :
  CategoryManagement.categories
    (CategoryDialogs.view
       (fst (CategoryDialogs.handleUpdateCategory (Resolved (renamed "Groceries"))
               (editing [food; rent] food (asciiText "Groceries")))))
  !! 0%nat
  = Some (Category.mk "c1" "Groceries" None true None).
Proof.
  refine (proj1 (proj2 (proj2
    (proj2 (update_category_patches (editing [food; rent] food (asciiText "Groceries"))
              food eq_refl) _ (renamed "Groceries"))))
    0%nat food eq_refl).
  reflexivity.
Defined.

(** ** Session life cycle *)

Lemma readItem_removed (st : Storage) (key : string) :
  let st' := fst (clearSession st) in
  (key = "authToken" \/ key = "user") -> readItem st' key = None.
Proof.
  intros st' Hkey. subst st'. unfold readItem, js_or, getItem, clearSession, removeItem.
  simpl. destruct Hkey as [-> | ->].
  - rewrite (lookup_delete_ne _ "user" "authToken") by discriminate.
    rewrite lookup_delete_eq. simpl.
    rewrite (lookup_delete_ne _ "user" "authToken") by discriminate.
    apply lookup_delete_eq.
  - rewrite lookup_delete_eq. simpl. apply lookup_delete_eq.
Qed.

(** Logging out, from a dashboard or through the default of the toolbar,
    removes the token and the profile from both stores, leaves every other
    entry of the stores alone and navigates to [/login]; afterwards the
    gate of every view redirects to [/login], whatever the stores held. *)
Theorem logout_closes_every_view (JSON_parse : string -> Completion JsValue)
    (toUpperCase : string -> string) (st : Storage) :
  Toolbar.handleLogout None st = clearSession st
  /\ Toolbar.handleLogout (Some dashboardLogout) st = clearSession st
  /\ snd (clearSession st) = [Navigate "/login"]
  /\ (forall v, gate JSON_parse toUpperCase v (fst (clearSession st)) = Returned [Navigate "/login"])
  /\ (forall key, key <> "authToken" -> key <> "user" ->
        getItem (localStorage (fst (clearSession st))) key
          = getItem (localStorage st) key
        /\ getItem (sessionStorage (fst (clearSession st))) key
          = getItem (sessionStorage st) key).
Proof.
  split; [reflexivity|]. split; [reflexivity|]. split; [reflexivity|]. split.
  - intros v. apply gate_falsy_token.
    rewrite (readItem_removed st "authToken") by (left; reflexivity). reflexivity.
  - intros key Htoken Huser. unfold getItem, clearSession, removeItem. simpl.
    rewrite !lookup_delete_ne by congruence. split; reflexivity.
Qed.

(** The logout of the authentication service removes the token and the
    profile from the tab-scoped store only: its own [getToken] then finds
    no token, but the durable store is as before, so a token kept there is
    still found by the gates. *)
Theorem service_logout_is_tab_scoped (st : Storage) :
  AuthService.getToken (AuthService.logout st) = None
  /\ getItem (sessionStorage (AuthService.logout st)) "user" = None
  /\ localStorage (AuthService.logout st) = localStorage st
  /\ readItem (AuthService.logout st) "authToken"
     = whenTruthy (getItem (localStorage st) "authToken").
Proof.
  assert (getItem (sessionStorage (AuthService.logout st)) "authToken" = None)
    as Htoken.
  { unfold AuthService.logout, getItem, removeItem. simpl.
    rewrite lookup_delete_ne by discriminate. apply lookup_delete_eq. }
  split; [exact Htoken|]. split; [apply lookup_delete_eq|].
  split; [reflexivity|].
  unfold readItem, js_or. rewrite Htoken. unfold whenTruthy. simpl.
  destruct (truthy (getItem (localStorage st) "authToken")); reflexivity.
Qed.

Lemma gate_truthy_token (JSON_parse : string -> Completion JsValue)
    (toUpperCase : string -> string) (v : View) (st : Storage) :
  truthy (readItem st "authToken") = true ->
  ~ In (Navigate "/login") (actions (gate JSON_parse toUpperCase v st)).
Proof.
  intros Htoken.
  destruct v; unfold_gate; unfold UserProfile.editFormOf; rewrite Htoken; simpl;
    repeat match goal with
    | |- context [match ?x with _ => _ end] =>
        lazymatch x with
        | context [match _ with _ => _ end] => fail
        | _ => destruct x; simpl
        end
    end; intuition discriminate.
Qed.

Lemma persist_token (JSON_stringify : JsValue -> string)
    (data : AuthService.AuthResponse) (st : Storage) (t : string) :
  AuthService.token data = Some t -> t <> "" ->
  let st' := AuthService.persist JSON_stringify data st in
  getItem (sessionStorage st') "authToken" = Some t
  /\ localStorage st' = localStorage st
  /\ (forall key, key <> "authToken" -> key <> "user" ->
        getItem (sessionStorage st') key = getItem (sessionStorage st) key)
  /\ getItem (sessionStorage st') "user"
     = match AuthService.user data with
       | Some u => if jsTruthy u then Some (JSON_stringify u)
                   else getItem (sessionStorage st) "user"
       | None => getItem (sessionStorage st) "user"
       end.
Proof.
  intros Htoken Hne st'. subst st'. unfold AuthService.persist.
  rewrite Htoken, whenTruthy_Some by exact Hne. simpl.
  unfold AuthService.storeUser, getItem, setItem.
  destruct (AuthService.user data) as [u|]; [destruct (jsTruthy u)|];
    repeat split; intros;
    rewrite ?lookup_insert_eq, ?lookup_insert_ne by congruence;
    rewrite ?lookup_insert_eq, ?lookup_insert_ne by congruence; reflexivity.
Qed.

Lemma persist_idempotent (JSON_stringify : JsValue -> string)
    (data : AuthService.AuthResponse) (st : Storage) (t : string) :
  AuthService.token data = Some t -> t <> "" ->
  let st1 := AuthService.persist JSON_stringify data st in
  {| localStorage := localStorage st1;
     sessionStorage :=
       AuthService.storeUser JSON_stringify (AuthService.user data)
         (setItem (sessionStorage st1) "authToken" t) |} = st1.
Proof.
  intros Htoken Hne st1. subst st1. unfold AuthService.persist.
  rewrite Htoken, whenTruthy_Some by exact Hne. simpl. f_equal.
  unfold AuthService.storeUser, setItem.
  destruct (AuthService.user data) as [u|]; [destruct (jsTruthy u)|];
    apply map_eq; intros key; rewrite !lookup_insert;
    repeat case_decide; congruence.
Qed.

Section VerifyProperties.
Variable JSON_stringify : JsValue -> string.
Variable messageOf : JsException -> string.
Variable toUpperCase : string -> string.

Lemma handleVerify_storage (data : AuthService.AuthResponse) (st : Storage)
    (s : RegisterVerification.State) (t : string) :
  AuthService.token data = Some t -> t <> "" ->
  snd (fst (RegisterVerification.handleVerify JSON_stringify messageOf toUpperCase
              (Resolved data) st s))
  = AuthService.persist JSON_stringify data st.
Proof.
  intros Htoken Hne. unfold RegisterVerification.handleVerify. simpl.
  rewrite Htoken, whenTruthy_Some by exact Hne.
  rewrite (persist_idempotent JSON_stringify data st t Htoken Hne).
  destruct (userRole toUpperCase (AuthService.user data)); reflexivity.
Qed.

(** Verifying the one-time code.  When the answer carries a non-empty
    token, the token is in the tab-scoped store afterwards (the second write
    of the page repeats the one of the service), the durable store is not
    touched, and no gate redirects to [/login] any more; the page is no
    longer loading.  When the answer carries no token, or the request
    fails, the stores are as before, nothing is navigated to and the error
    is shown. *)
Theorem verify_signs_in (st : Storage) (s : RegisterVerification.State) :
  (forall data t,
     AuthService.token data = Some t -> t <> "" ->
     let r := RegisterVerification.handleVerify JSON_stringify messageOf toUpperCase
                (Resolved data) st s in
     snd (fst r) = AuthService.persist JSON_stringify data st
     /\ AuthService.getToken (snd (fst r)) = Some t
     /\ localStorage (snd (fst r)) = localStorage st
     /\ (forall JSON_parse v,
           ~ In (Navigate "/login") (actions (gate JSON_parse toUpperCase v (snd (fst r)))))
     /\ RegisterVerification.loading (fst (fst r)) = false)
  /\ (forall data,
     whenTruthy (AuthService.token data) = None ->
     RegisterVerification.handleVerify JSON_stringify messageOf toUpperCase (Resolved data) st s
     = (RegisterVerification.setLoading false
          (RegisterVerification.setError "Invalid OTP"
             (RegisterVerification.setLoading true
                (RegisterVerification.setError "" s))), st, []))
  /\ (forall err,
     RegisterVerification.handleVerify JSON_stringify messageOf toUpperCase (Rejected err) st s
     = (RegisterVerification.setLoading false
          (RegisterVerification.setError (RegisterVerification.rejectionText err)
             (RegisterVerification.setLoading true
                (RegisterVerification.setError "" s))), st, [])).
Proof.
  split; [|split].
  - intros data t Htoken Hne r. subst r.
    rewrite (handleVerify_storage data st s t Htoken Hne).
    destruct (persist_token JSON_stringify data st t Htoken Hne)
      as (Hstored & Hlocal & _ & _).
    split; [reflexivity|]. split; [exact Hstored|]. split; [exact Hlocal|]. split.
    + intros JSON_parse v. apply gate_truthy_token.
      apply readItem_present. exists t. split; [exact Hne|]. right. exact Hstored.
    + unfold RegisterVerification.handleVerify. simpl.
      rewrite Htoken, whenTruthy_Some by exact Hne.
      destruct (userRole toUpperCase (AuthService.user data)); reflexivity.
  - intros data Hnone. unfold RegisterVerification.handleVerify. simpl.
    unfold AuthService.persist. rewrite Hnone. reflexivity.
  - intros err. reflexivity.
Qed.

(** The landing route the verification page chooses agrees with the admin
    gate.  For an answer with a non-empty token and a user whose role is a
    string, with the profile surviving serialization and parsing and no
    profile in the durable store: the page navigates to [/admin/dashboard]
    exactly when the role upper-cases to ["ADMIN"], and then no admin-only
    view redirects; for every other role each admin-only view redirects to
    [/user/dashboard]. *)
Theorem landing_agrees_with_gate (JSON_parse : string -> Completion JsValue)
    (st : Storage) (s : RegisterVerification.State)
    (data : AuthService.AuthResponse) (t : string) (u : JsValue) (role : string) :
  AuthService.token data = Some t -> t <> "" ->
  AuthService.user data = Some u ->
  getProp u "role" = Normal (Some (JStr role)) ->
  JSON_stringify u <> "" ->
  JSON_parse (JSON_stringify u) = Normal u ->
  truthy (getItem (localStorage st) "user") = false ->
  let r := RegisterVerification.handleVerify JSON_stringify messageOf toUpperCase
             (Resolved data) st s in
  snd r = [Navigate (landingRoute (Some (toUpperCase role)))]
  /\ (toUpperCase role = "ADMIN" ->
      snd r = [Navigate "/admin/dashboard"]
      /\ forall v, adminOnly v = true -> noRedirect (gate JSON_parse toUpperCase v (snd (fst r))))
  /\ (toUpperCase role <> "ADMIN" ->
      snd r <> [Navigate "/admin/dashboard"]
      /\ forall v, adminOnly v = true ->
           gate JSON_parse toUpperCase v (snd (fst r)) = Returned [Navigate "/user/dashboard"]).
Proof.
  intros Htoken Hne Huser Hrole Htext Hparse Hlocal r. subst r.
  assert (jsTruthy u = true) as Htruthy.
  { destruct u; try discriminate Hrole; reflexivity. }
  assert (userRole toUpperCase (Some u) = Normal (Some (toUpperCase role))) as Huserrole.
  { unfold userRole. rewrite Hrole. destruct u; try discriminate Hrole; reflexivity. }
  assert (snd (RegisterVerification.handleVerify JSON_stringify messageOf toUpperCase
                 (Resolved data) st s)
          = [Navigate (landingRoute (Some (toUpperCase role)))]) as Hnav.
  { unfold RegisterVerification.handleVerify. simpl.
    rewrite Htoken, whenTruthy_Some, Huser, Huserrole by exact Hne. reflexivity. }
  rewrite (handleVerify_storage data st s t Htoken Hne), Hnav.
  destruct (persist_token JSON_stringify data st t Htoken Hne)
    as (Hstored & Hlocalsame & _ & Hprofile).
  rewrite Huser, Htruthy in Hprofile.
  set (st' := AuthService.persist JSON_stringify data st) in *.
  assert (truthy (readItem st' "authToken") = true) as Hpresent.
  { apply readItem_present. exists t. split; [exact Hne|]. right. exact Hstored. }
  assert (readItem st' "user" = Some (JSON_stringify u)) as Hread.
  { unfold readItem, js_or. rewrite Hlocalsame, Hlocal. exact Hprofile. }
  pose proof (fun v Hadmin =>
    admin_gate_parsed JSON_parse toUpperCase v st' (JSON_stringify u) u Hadmin Hpresent
      Hread Htext Hparse _ (roleIsNotAdmin_string toUpperCase u role Hrole)) as Hgate.
  split; [reflexivity|]. split.
  - intros Hup. rewrite Hup. split; [reflexivity|].
    intros v Hadmin. specialize (Hgate v Hadmin). rewrite Hup in Hgate.
    apply Hgate.
  - intros Hup. pose proof Hup as Hneq. apply String.eqb_neq in Hneq. split.
    + unfold landingRoute. rewrite Hneq.
      destruct (String.eqb (toUpperCase role) "USER"); discriminate.
    + intros v Hadmin. specialize (Hgate v Hadmin). rewrite Hneq in Hgate.
      exact Hgate.
Qed.

End VerifyProperties.

Lemma logout_closes_every_view_witness :
  gate sampleParse toUpperCaseAscii UserManagementView (fst (clearSession (sessionOf "admin")))
    = Returned [Navigate "/login"]
  /\ getItem (localStorage
                (fst (clearSession
                        {| localStorage := <["theme" := "dark"]> ∅;
                           sessionStorage := ∅ |}))) "theme"
     = Some "dark".
Proof.
  split.
  - apply (logout_closes_every_view sampleParse toUpperCaseAscii (sessionOf "admin")).
  - refine (proj1 (proj2 (proj2 (proj2 (proj2
      (logout_closes_every_view sampleParse toUpperCaseAscii
         {| localStorage := <["theme" := "dark"]> ∅; sessionStorage := ∅ |}))))
      "theme" _ _)); discriminate.
Defined.

Lemma verify_signs_in_witness :
  AuthService.getToken
    (snd (fst (RegisterVerification.handleVerify sampleStringify (fun _ => "TypeError") toUpperCaseAscii
                 (Resolved (signedIn "USER")) emptyStorage enteringCode)))
  = Some "t0k3n".
Proof.
  refine (proj1 (proj2 (proj1
    (verify_signs_in sampleStringify (fun _ => "TypeError") toUpperCaseAscii emptyStorage enteringCode)
    (signedIn "USER") "t0k3n" eq_refl _))).
  discriminate.
Defined.

Lemma landing_agrees_with_gate_witness :
  let r := RegisterVerification.handleVerify sampleStringify (fun _ => "TypeError") toUpperCaseAscii
             (Resolved (signedIn "admin")) emptyStorage enteringCode in
  snd r = [Navigate "/admin/dashboard"]
  /\ noRedirect (gate sampleParse toUpperCaseAscii CategoryManagementView (snd (fst r))).
Proof.
  intros r. subst r.
  destruct (landing_agrees_with_gate sampleStringify (fun _ => "TypeError") toUpperCaseAscii sampleParse
              emptyStorage enteringCode (signedIn "admin") "t0k3n"
              (JObj [("role", JStr "admin")]) "admin") as (_ & Hadmin & _).
  - reflexivity.
  - discriminate.
  - reflexivity.
  - reflexivity.
  - vm_compute. discriminate.
  - vm_compute. reflexivity.
  - reflexivity.
  - destruct (Hadmin eq_refl) as [Hnav Hgates].
    split; [exact Hnav | apply Hgates; reflexivity].
Defined.

(** ** The bearer token of a request *)

Lemma resolveToken_memory (api : ApiService.t) (st : Storage) (t : string) :
  ApiService.authToken api = Some t -> t <> "" ->
  ApiService.resolveToken api st = Some t.
Proof.
  intros Hmem Hne. unfold ApiService.resolveToken, js_or.
  rewrite Hmem, !truthy_Some by exact Hne. reflexivity.
Qed.

Lemma resolveToken_storage (api : ApiService.t) (st : Storage) :
  truthy (ApiService.authToken api) = false ->
  ApiService.resolveToken api st = readItem st "authToken".
Proof.
  intros Hmem. unfold ApiService.resolveToken, readItem, js_or at 2.
  rewrite Hmem. reflexivity.
Qed.

(** The request interceptor.  A non-empty token set on the instance is the
    one sent; without it the token is the one the gates read, the durable
    store before the tab-scoped one, so a request made by a view that passed
    its gate carries a bearer token; with no token anywhere the headers go
    out as they came.  No other header is ever touched, and the header is
    never the bare prefix. *)
Theorem bearer_token_resolution (api : ApiService.t) (st : Storage)
    (headers : gmap string string) :
  let sent := ApiService.attachToken api st headers in
  (forall t, ApiService.authToken api = Some t -> t <> "" ->
     sent !! "Authorization" = Some ("Bearer " +:+ t))
  /\ (truthy (ApiService.authToken api) = false ->
      (forall t, whenTruthy (readItem st "authToken") = Some t ->
         sent !! "Authorization" = Some ("Bearer " +:+ t))
      /\ (tokenPresent st ->
          exists t, t <> "" /\ sent !! "Authorization" = Some ("Bearer " +:+ t))
      /\ (whenTruthy (readItem st "authToken") = None -> sent = headers))
  /\ (forall key, key <> "Authorization" -> sent !! key = headers !! key)
  /\ (sent !! "Authorization" = Some "Bearer " ->
      headers !! "Authorization" = Some "Bearer ").
Proof.
  intros sent. subst sent. unfold ApiService.attachToken.
  split; [|split; [|split]].
  - intros t Hmem Hne. rewrite (resolveToken_memory api st t Hmem Hne).
    rewrite whenTruthy_Some by exact Hne. apply lookup_insert_eq.
  - intros Hmem. rewrite (resolveToken_storage api st Hmem).
    split; [|split].
    + intros t Hread. rewrite Hread. apply lookup_insert_eq.
    + intros Hpresent. apply readItem_present, truthy_inv in Hpresent
        as (t & Hread & Hne).
      exists t. split; [exact Hne|]. rewrite Hread, whenTruthy_Some by exact Hne.
      apply lookup_insert_eq.
    + intros Hnone. rewrite Hnone. reflexivity.
  - intros key Hkey. destruct (whenTruthy _); [|reflexivity].
    apply lookup_insert_ne. congruence.
  - destruct (whenTruthy (ApiService.resolveToken api st)) as [t|] eqn:Htoken;
      [|auto].
    rewrite lookup_insert_eq. intros Hbare.
    apply whenTruthy_inv in Htoken as [_ Hne]. exfalso. apply Hne.
    injection Hbare as Hbare. destruct t; [reflexivity | discriminate].
Qed.

Lemma bearer_token_resolution_witness :
  ApiService.attachToken {| ApiService.authToken := None |} (sessionOf "USER")
    {["Accept" := "application/json"]} !! "Authorization"
  = Some "Bearer t0k3n".
Proof.
  refine (proj1 (proj1 (proj2 (bearer_token_resolution
            {| ApiService.authToken := None |} (sessionOf "USER")
            {["Accept" := "application/json"]})) eq_refl) "t0k3n" _).
  vm_compute. reflexivity.
Defined.

(** ** The regular expressions: the matcher finds the texts of a pattern *)

Lemma matches_never (text : JsText) : ~ Regex.Matches Regex.Never text.
Proof. intros H. inversion H. Qed.

Lemma matches_epsilon (text : JsText) :
  Regex.Matches Regex.Epsilon text <-> text = [].
Proof.
  split.
  - intros H. inversion H. reflexivity.
  - intros ->. constructor.
Qed.

Lemma matches_class (member : N -> bool) (text : JsText) :
  Regex.Matches (Regex.Class member) text
  <-> exists c, text = [c] /\ member c = true.
Proof.
  split.
  - intros H. inversion H; subst. eauto.
  - intros (c & -> & Hc). constructor. exact Hc.
Qed.

Lemma matches_seq (r1 r2 : Regex.t) (text : JsText) :
  Regex.Matches (Regex.Seq r1 r2) text
  <-> exists a b, text = (a ++ b)%list /\ Regex.Matches r1 a /\ Regex.Matches r2 b.
Proof.
  split.
  - intros H. inversion H; subst. eauto.
  - intros (a & b & -> & Ha & Hb). constructor; assumption.
Qed.

Lemma matches_alt (r1 r2 : Regex.t) (text : JsText) :
  Regex.Matches (Regex.Alt r1 r2) text
  <-> Regex.Matches r1 text \/ Regex.Matches r2 text.
Proof.
  split.
  - intros H. inversion H; subst; auto.
  - intros [H | H]; [apply Regex.MatchAltL | apply Regex.MatchAltR]; exact H.
Qed.

Lemma nullable_matches (r : Regex.t) :
  Regex.nullable r = true <-> Regex.Matches r [].
Proof.
  induction r as [ | | member | r1 IH1 r2 IH2 | r1 IH1 r2 IH2 | r IH]; simpl.
  - split; [discriminate | intros H; destruct (matches_never _ H)].
  - split; [intros _; constructor | reflexivity].
  - split; [discriminate|]. intros H. apply matches_class in H as (c & Hc & _).
    discriminate Hc.
  - rewrite andb_true_iff, IH1, IH2, matches_seq. split.
    + intros [H1 H2]. exists [], []. auto.
    + intros (a & b & Heq & Ha & Hb). symmetry in Heq.
      apply app_eq_nil in Heq as [-> ->]. auto.
  - rewrite orb_true_iff, IH1, IH2, matches_alt. tauto.
  - split; [intros _; constructor | reflexivity].
Qed.

Lemma matches_star_cons (r : Regex.t) (c : N) (rest : JsText) :
  Regex.Matches (Regex.Star r) (c :: rest) ->
  exists a b, rest = (a ++ b)%list
    /\ Regex.Matches r (c :: a) /\ Regex.Matches (Regex.Star r) b.
Proof.
  intros H. remember (Regex.Star r) as star eqn:Hstar.
  remember (c :: rest) as text eqn:Htext.
  revert rest Htext.
  induction H as [ | | | | | | r' a b Ha _ Hb IHb]; intros rest Htext;
    try discriminate Hstar; try discriminate Htext.
  injection Hstar as ->.
  destruct a as [|c' a'].
  - simpl in Htext. apply IHb; [reflexivity | exact Htext].
  - simpl in Htext. injection Htext as Hc Hrest. subst c' rest.
    exists a', b. auto.
Qed.

Lemma derive_seq_matches (c : N) (r1 r2 : Regex.t) (rest : JsText) :
  (forall text, Regex.Matches (Regex.derive c r1) text <-> Regex.Matches r1 (c :: text)) ->
  Regex.Matches (Regex.Seq (Regex.derive c r1) r2) rest
  <-> exists a b, rest = (a ++ b)%list
        /\ Regex.Matches r1 (c :: a) /\ Regex.Matches r2 b.
Proof.
  intros IH1. rewrite matches_seq. split.
  - intros (a & b & -> & Ha & Hb). apply IH1 in Ha. eauto.
  - intros (a & b & -> & Ha & Hb). apply IH1 in Ha. eauto.
Qed.

Lemma derive_matches (c : N) (r : Regex.t) :
  forall rest, Regex.Matches (Regex.derive c r) rest <-> Regex.Matches r (c :: rest).
Proof.
  induction r as [ | | member | r1 IH1 r2 IH2 | r1 IH1 r2 IH2 | r IH];
    intros rest; simpl.
  - split; intros H; destruct (matches_never _ H).
  - split; intros H; [destruct (matches_never _ H)|].
    apply matches_epsilon in H. discriminate H.
  - destruct (member c) eqn:Hmember; split; intros H.
    + apply matches_epsilon in H. subst rest. apply matches_class. eauto.
    + apply matches_class in H as (c' & Heq & _). injection Heq as _ ->.
      apply matches_epsilon. reflexivity.
    + destruct (matches_never _ H).
    + apply matches_class in H as (c' & Heq & Hc). injection Heq as <- _.
      congruence.
  - assert (Regex.Matches (Regex.Seq r1 r2) (c :: rest)
            <-> (exists a b, rest = (a ++ b)%list
                   /\ Regex.Matches r1 (c :: a) /\ Regex.Matches r2 b)
                \/ (Regex.Matches r1 [] /\ Regex.Matches r2 (c :: rest))) as Hcases.
    { rewrite matches_seq. split.
      - intros (a & b & Heq & Ha & Hb). destruct a as [|c' a'].
        + simpl in Heq. subst b. auto.
        + simpl in Heq. injection Heq as Hc Hrest. subst c' rest. left. eauto.
      - intros [(a & b & -> & Ha & Hb) | [Ha Hb]].
        + exists (c :: a), b. auto.
        + exists [], (c :: rest). auto. }
    rewrite Hcases.
    destruct (Regex.nullable r1) eqn:Hnull.
    + rewrite matches_alt, (derive_seq_matches c r1 r2 rest IH1), IH2.
      rewrite <- nullable_matches, Hnull. tauto.
    + rewrite (derive_seq_matches c r1 r2 rest IH1).
      rewrite <- nullable_matches, Hnull. intuition discriminate.
  - rewrite !matches_alt, IH1, IH2. reflexivity.
  - rewrite (derive_seq_matches c r (Regex.Star r) rest IH). split.
    + intros (a & b & -> & Ha & Hb).
      apply (Regex.MatchStarApp r (c :: a) b Ha Hb).
    + apply matches_star_cons.
Qed.

Lemma matchFrom_matches (text : JsText) :
  forall r, Regex.matchFrom r text = true <-> Regex.Matches r text.
Proof.
  induction text as [|c rest IH]; intros r; simpl.
  - apply nullable_matches.
  - rewrite IH. apply derive_matches.
Qed.

Lemma matches_star_class (member : N -> bool) (text : JsText) :
  Regex.Matches (Regex.Star (Regex.Class member)) text
  <-> forallb member text = true.
Proof.
  split.
  - intros H. remember (Regex.Star (Regex.Class member)) as star eqn:Hstar.
    induction H as [ | | | | | | r a b Ha _ Hb IHb]; try discriminate Hstar.
    + reflexivity.
    + injection Hstar as ->. inversion Ha; subst. simpl.
      rewrite IHb by reflexivity. rewrite andb_true_r. assumption.
  - induction text as [|c rest IH]; simpl; intros H.
    + constructor.
    + apply andb_true_iff in H as [Hc Hrest].
      apply (Regex.MatchStarApp _ [c] rest).
      * constructor. exact Hc.
      * apply IH. exact Hrest.
Qed.

Lemma matches_plus_class (member : N -> bool) (text : JsText) :
  Regex.Matches (Regex.Plus (Regex.Class member)) text
  <-> text <> [] /\ forallb member text = true.
Proof.
  unfold Regex.Plus. rewrite matches_seq. split.
  - intros (a & b & -> & Ha & Hb).
    apply matches_class in Ha as (c & -> & Hc).
    apply matches_star_class in Hb. simpl. rewrite Hc, Hb.
    split; [discriminate | reflexivity].
  - intros [Hne Hall]. destruct text as [|c rest]; [congruence|].
    simpl in Hall. apply andb_true_iff in Hall as [Hc Hrest].
    exists [c], rest. split; [reflexivity|]. split.
    + apply matches_class. eauto.
    + apply matches_star_class. exact Hrest.
Qed.

Lemma emailRe_matches (text : JsText) :
  Regex.Matches emailRe text <-> emailShape text.
Proof.
  unfold emailRe, emailShape, plainRun. split.
  - intros H.
    apply matches_seq in H as (localPart & rest1 & -> & Hlocal & H).
    apply matches_seq in H as (at1 & rest2 & -> & Hat & H).
    apply matches_seq in H as (domain & rest3 & -> & Hdomain & H).
    apply matches_seq in H as (dot1 & tld & -> & Hdot & Htld).
    apply matches_class in Hat as (c1 & -> & Hc1).
    apply matches_class in Hdot as (c2 & -> & Hc2).
    apply N.eqb_eq in Hc1, Hc2. subst c1 c2.
    apply matches_plus_class in Hlocal, Hdomain, Htld.
    exists localPart, domain, tld. simpl. auto.
  - intros (localPart & domain & tld & -> & Hlocal & Hdomain & Htld).
    apply matches_plus_class in Hlocal, Hdomain, Htld.
    apply (Regex.MatchSeq _ _ localPart _ Hlocal).
    apply (Regex.MatchSeq _ _ [atSign] _); [constructor; reflexivity|].
    apply (Regex.MatchSeq _ _ domain _ Hdomain).
    apply (Regex.MatchSeq _ _ [fullStop] _); [constructor; reflexivity|].
    exact Htld.
Qed.

Lemma plainRun_no_at (run : JsText) :
  forallb plainChar run = true ->
  count_occ N.eq_dec run atSign = 0%nat
  /\ forallb (fun c => negb (isWhiteSpace c)) run = true.
Proof.
  induction run as [|c rest IH]; simpl; [auto|].
  intros H. apply andb_true_iff in H as [Hc Hrest].
  destruct (IH Hrest) as [Hcount Hspace].
  unfold plainChar in Hc. apply andb_true_iff in Hc as [Hws Hat].
  rewrite Hws, Hspace. split; [|reflexivity].
  destruct (N.eq_dec c atSign) as [-> | _]; [discriminate Hat | exact Hcount].
Qed.

(** The email pattern of the validations accepts exactly the texts of the
    shape [local@domain.tld] whose three parts are non-empty and hold
    neither white space nor [@], white space being every code unit that
    [\s] matches.  An accepted text therefore holds exactly one [@], no
    white space and at least five code units. *)
Theorem email_pattern (email : JsText) :
  (Regex.test emailRe email = true <-> emailShape email)
  /\ (Regex.test emailRe email = true ->
      count_occ N.eq_dec email atSign = 1%nat
      /\ forallb (fun c => negb (isWhiteSpace c)) email = true
      /\ (5 <= length email)%nat).
Proof.
  assert (Regex.test emailRe email = true <-> emailShape email) as Hiff.
  { unfold Regex.test. rewrite matchFrom_matches. apply emailRe_matches. }
  split; [exact Hiff|].
  intros Htest. apply Hiff in Htest
    as (localPart & domain & tld & -> & [Hl1 Hl2] & [Hd1 Hd2] & [Ht1 Ht2]).
  destruct (plainRun_no_at _ Hl2) as [Hlc Hls].
  destruct (plainRun_no_at _ Hd2) as [Hdc Hds].
  destruct (plainRun_no_at _ Ht2) as [Htc Hts].
  split; [|split].
  - rewrite count_occ_app. simpl. rewrite count_occ_app. simpl.
    rewrite Hlc, Hdc, Htc. reflexivity.
  - rewrite forallb_app. simpl. rewrite forallb_app. simpl.
    rewrite Hls, Hds, Hts. reflexivity.
  - rewrite length_app. simpl. rewrite length_app. simpl.
    destruct localPart; [congruence|]. destruct domain; [congruence|].
    destruct tld; [congruence|]. simpl. lia.
Qed.

Lemma email_pattern_witness :
  count_occ N.eq_dec (asciiText "kim@example.org") atSign = 1%nat.
Proof.
  apply (proj2 (email_pattern (asciiText "kim@example.org"))). reflexivity.
Defined.

(** Texts the pattern accepts and rejects; the last two hold a no-break
    space and an ideographic space between [a] and [b]. *)
Example email_pattern_samples :
  Regex.test emailRe (asciiText "a@b.c") = true
  /\ Regex.test emailRe (asciiText "first.last@mail.example.org") = true
  /\ Regex.test emailRe (asciiText "a@b") = false
  /\ Regex.test emailRe (asciiText "a@.c") = false
  /\ Regex.test emailRe (asciiText "a b@c.d") = false
  /\ Regex.test emailRe (asciiText "a@b@c.d") = false
  /\ Regex.test emailRe [] = false
  /\ Regex.test emailRe [97; 160; 98; 64; 99; 46; 100]%N = false
  /\ Regex.test emailRe [97; 12288; 98; 64; 99; 46; 100]%N = false
  /\ Regex.test emailRe [228; 64; 55357; 56832; 46; 100]%N = true.
Proof. repeat split; reflexivity. Qed.

(** ** Login: validation before the request *)

Lemma test_true_not_empty (email : JsText) :
  Regex.test emailRe email = true -> isEmpty email = false.
Proof.
  intros Htest. destruct email; [discriminate Htest | reflexivity].
Qed.

(** The login form is accepted exactly when the email has the shape of the
    pattern and the password has at least six code units; a form that is
    not accepted gets the message of the first rule it breaks, email before
    password, and the page then sends nothing, writes nothing to the stores
    and navigates nowhere.  An accepted form is sent once, as typed,
    whatever the backend answers. *)
Theorem login_validates_first (JSON_stringify : JsValue -> string)
    (messageOf : JsException -> string) (toUpperCase : string -> string)
    (s : Login.State) (st : Storage) :
  let email := Login.email (Login.form s) in
  let password := Login.password (Login.form s) in
  (Login.validate s = None
   <-> Regex.test emailRe email = true /\ (6 <= length password)%nat)
  /\ (Regex.test emailRe email = false ->
      Login.validate s = Some (if isEmpty email then "Email is required."
                               else "Enter a valid email."))
  /\ (Regex.test emailRe email = true -> (length password < 6)%nat ->
      Login.validate s = Some (if isEmpty password then "Password is required."
                               else "Password must be at least 6 characters."))
  /\ (forall message reply, Login.validate s = Some message ->
      Login.handleSubmit JSON_stringify messageOf toUpperCase reply st s
      = (Login.setError (Some message) (Login.setError None s), st, [], []))
  /\ (forall reply, Login.validate s = None ->
      snd (Login.handleSubmit JSON_stringify messageOf toUpperCase reply st s)
      = [{| Login.email := email; Login.password := password |}]).
Proof.
  intros email password. subst email password.
  split; [|split; [|split; [|split]]].
  - unfold Login.validate.
    destruct (Regex.test emailRe (Login.email (Login.form s))) eqn:Htest; simpl.
    + rewrite (test_true_not_empty _ Htest).
      destruct (Login.password (Login.form s)) as [|c rest] eqn:Hpw; simpl.
      * split; [discriminate | intros [_ Hlen]; lia].
      * destruct (Nat.ltb_spec (S (length rest)) 6) as [Hshort | Hlong];
          split; try discriminate; try tauto; intros [_ Hlen]; lia.
    + destruct (isEmpty _); split; try discriminate;
        intros [Hfalse _]; discriminate.
  - intros Htest. unfold Login.validate. rewrite Htest.
    destruct (isEmpty _); reflexivity.
  - intros Htest Hshort. unfold Login.validate.
    rewrite (test_true_not_empty _ Htest), Htest. simpl.
    destruct (Login.password (Login.form s)) as [|c rest]; [reflexivity|].
    cbn [isEmpty]. apply Nat.ltb_lt in Hshort. rewrite Hshort. reflexivity.
  - intros message reply Hinvalid. unfold Login.handleSubmit.
    rewrite Hinvalid. reflexivity.
  - intros reply Hvalid. unfold Login.handleSubmit. rewrite Hvalid.
    destruct reply as [data | err]; simpl; [|reflexivity].
    destruct (whenTruthy (AuthService.token data)); [|reflexivity].
    destruct (userRole toUpperCase (AuthService.user data)); reflexivity.
Qed.

(** The password [p], [a] with diaeresis, [s], [s], [w] has five code units
    and is too short. *)
Lemma login_validates_first_witness :
  Login.handleSubmit sampleStringify (fun _ => "TypeError") toUpperCaseAscii
    (Resolved (signedIn "USER")) emptyStorage
    (loginPage (asciiText "kim@example") (asciiText "secret1"))
  = (Login.setError (Some "Enter a valid email.")
       (Login.setError None (loginPage (asciiText "kim@example") (asciiText "secret1"))),
     emptyStorage, [], [])
  /\ Login.validate (loginPage (asciiText "kim@example.org") [112; 228; 115; 115; 119]%N)
     = Some "Password must be at least 6 characters.".
Proof.
  split.
  - apply (proj1 (proj2 (proj2 (proj2 (login_validates_first sampleStringify
             (fun _ => "TypeError") toUpperCaseAscii
             (loginPage (asciiText "kim@example") (asciiText "secret1"))
             emptyStorage))))).
    reflexivity.
  - apply (proj1 (proj2 (proj2 (login_validates_first sampleStringify
             (fun _ => "TypeError") toUpperCaseAscii
             (loginPage (asciiText "kim@example.org") [112; 228; 115; 115; 119]%N)
             emptyStorage)))).
    + reflexivity.
    + simpl. lia.
Defined.

(** ** UserManagement: the validations of the dialogs *)

Lemma noErrors_empty (errors : gmap string string) :
  noErrors errors = true <-> errors = ∅.
Proof.
  unfold noErrors. rewrite Nat.eqb_eq, length_zero_iff_nil.
  apply map_to_list_empty_iff.
Qed.

Lemma flag_lookup_eq (broken : bool) (key message : string)
    (errors : gmap string string) :
  UserForms.flag broken key message errors !! key
  = if broken then Some message else errors !! key.
Proof. destruct broken; simpl; [apply lookup_insert_eq | reflexivity]. Qed.

Lemma flag_lookup_ne (broken : bool) (key message : string)
    (errors : gmap string string) (k : string) :
  key <> k -> UserForms.flag broken key message errors !! k = errors !! k.
Proof. intros Hne. destruct broken; simpl; [apply lookup_insert_ne; exact Hne | reflexivity]. Qed.

Lemma emailErrors_lookup_eq (email : JsText) (errors : gmap string string) :
  UserForms.emailErrors email errors !! "email"
  = if isBlank (Some email) then Some "Email is required"
    else if Regex.test emailRe email then errors !! "email"
    else Some "Enter a valid email".
Proof.
  unfold UserForms.emailErrors. destruct (isBlank (Some email)).
  - apply lookup_insert_eq.
  - rewrite flag_lookup_eq. destruct (Regex.test emailRe email); reflexivity.
Qed.

Lemma emailErrors_lookup_ne (email : JsText) (errors : gmap string string)
    (k : string) :
  "email" <> k -> UserForms.emailErrors email errors !! k = errors !! k.
Proof.
  intros Hne. unfold UserForms.emailErrors. destruct (isBlank (Some email)).
  - apply lookup_insert_ne. exact Hne.
  - apply flag_lookup_ne. exact Hne.
Qed.

Lemma passwordErrors_lookup_eq (password : JsText) (errors : gmap string string) :
  UserForms.passwordErrors password errors !! "password"
  = if isEmpty password then Some "Password is required"
    else if (length password <? 6)%nat
         then Some "Password must be at least 6 characters"
         else errors !! "password".
Proof.
  unfold UserForms.passwordErrors. destruct (isEmpty password).
  - apply lookup_insert_eq.
  - apply flag_lookup_eq.
Qed.

Lemma passwordErrors_lookup_ne (password : JsText) (errors : gmap string string)
    (k : string) :
  "password" <> k -> UserForms.passwordErrors password errors !! k = errors !! k.
Proof.
  intros Hne. unfold UserForms.passwordErrors. destruct (isEmpty password).
  - apply lookup_insert_ne. exact Hne.
  - apply flag_lookup_ne. exact Hne.
Qed.

Lemma test_emailShape (email : JsText) :
  Regex.test emailRe email = true <-> emailShape email.
Proof. unfold Regex.test. rewrite matchFrom_matches. apply emailRe_matches. Qed.

Lemma test_not_blank (email : JsText) :
  Regex.test emailRe email = true -> isBlank (Some email) = false.
Proof.
  intros Htest. destruct (isBlank (Some email)) eqn:Hblank; [|reflexivity].
  apply isBlank_Some in Hblank. unfold allWhiteSpace in Hblank.
  apply test_emailShape in Htest
    as (localPart & domain & tld & Heq & [Hne Hplain] & _).
  rewrite Heq in Hblank. destruct localPart as [|c rest]; [congruence|].
  simpl in Hblank, Hplain.
  apply andb_true_iff in Hblank as [Hws _].
  apply andb_true_iff in Hplain as [Hc _].
  unfold plainChar in Hc. rewrite Hws in Hc. discriminate Hc.
Qed.

Lemma isBlank_filled (s : JsText) : ~ allWhiteSpace s -> isBlank (Some s) = false.
Proof.
  intros Hfilled. destruct (isBlank (Some s)) eqn:Hblank; [|reflexivity].
  apply isBlank_Some in Hblank. contradiction.
Qed.

(** The validation of the add-user dialog reports every broken field, each
    under its own key: a blank first or last name, an email that is blank or
    does not have the shape of the pattern, a password that is missing or
    shorter than six code units, a missing role.  It passes exactly when
    both names hold more than white space, the email matches the pattern,
    the password has at least six code units and a role is chosen. *)
Theorem add_user_validation (form : UserForms.NewUserForm) :
  let errors := fst (UserForms.validateAddUser form) in
  errors !! "firstName"
    = (if isBlank (Some (UserForms.firstName form))
       then Some "First name is required" else None)
  /\ errors !! "lastName"
    = (if isBlank (Some (UserForms.lastName form))
       then Some "Last name is required" else None)
  /\ errors !! "email"
    = (if isBlank (Some (UserForms.email form)) then Some "Email is required"
       else if Regex.test emailRe (UserForms.email form) then None
       else Some "Enter a valid email")
  /\ errors !! "password"
    = (if isEmpty (UserForms.password form) then Some "Password is required"
       else if (length (UserForms.password form) <? 6)%nat
            then Some "Password must be at least 6 characters" else None)
  /\ errors !! "role"
    = (if String.eqb (UserForms.role form) "" then Some "Role is required" else None)
  /\ (snd (UserForms.validateAddUser form) = true
      <-> ~ allWhiteSpace (UserForms.firstName form)
          /\ ~ allWhiteSpace (UserForms.lastName form)
          /\ Regex.test emailRe (UserForms.email form) = true
          /\ (6 <= length (UserForms.password form))%nat
          /\ UserForms.role form <> "").
Proof.
  intros errors. subst errors. unfold UserForms.validateAddUser. cbn [fst snd].
  set (e1 := UserForms.flag _ "firstName" _ _).
  set (e2 := UserForms.flag _ "lastName" _ e1).
  set (e3 := UserForms.emailErrors _ e2).
  set (e4 := UserForms.passwordErrors _ e3).
  set (e5 := UserForms.flag _ "role" _ e4).
  assert (e5 !! "firstName"
          = if isBlank (Some (UserForms.firstName form))
            then Some "First name is required" else None) as Hfirst.
  { subst e5 e4 e3 e2 e1.
    rewrite flag_lookup_ne, passwordErrors_lookup_ne, emailErrors_lookup_ne,
      flag_lookup_ne, flag_lookup_eq by discriminate.
    rewrite lookup_empty. reflexivity. }
  assert (e5 !! "lastName"
          = if isBlank (Some (UserForms.lastName form))
            then Some "Last name is required" else None) as Hlast.
  { subst e5 e4 e3 e2 e1.
    rewrite flag_lookup_ne, passwordErrors_lookup_ne, emailErrors_lookup_ne,
      flag_lookup_eq, flag_lookup_ne by discriminate.
    rewrite lookup_empty. reflexivity. }
  assert (e5 !! "email"
          = if isBlank (Some (UserForms.email form)) then Some "Email is required"
            else if Regex.test emailRe (UserForms.email form) then None
            else Some "Enter a valid email") as Hemail.
  { subst e5 e4 e3 e2 e1.
    rewrite flag_lookup_ne, passwordErrors_lookup_ne, emailErrors_lookup_eq,
      !flag_lookup_ne by discriminate.
    rewrite lookup_empty. reflexivity. }
  assert (e5 !! "password"
          = if isEmpty (UserForms.password form) then Some "Password is required"
            else if (length (UserForms.password form) <? 6)%nat
                 then Some "Password must be at least 6 characters" else None)
    as Hpassword.
  { subst e5 e4 e3 e2 e1.
    rewrite flag_lookup_ne, passwordErrors_lookup_eq, emailErrors_lookup_ne,
      !flag_lookup_ne by discriminate.
    rewrite lookup_empty. reflexivity. }
  assert (e5 !! "role"
          = if String.eqb (UserForms.role form) "" then Some "Role is required"
            else None) as Hrole.
  { subst e5 e4 e3 e2 e1.
    rewrite flag_lookup_eq, passwordErrors_lookup_ne, emailErrors_lookup_ne,
      !flag_lookup_ne by discriminate.
    rewrite lookup_empty. reflexivity. }
  repeat (split; [assumption|]).
  rewrite noErrors_empty. split.
  - intros Hempty. rewrite Hempty, lookup_empty in Hfirst, Hlast, Hemail, Hpassword, Hrole.
    repeat split.
    + intros Hblank. apply isBlank_Some in Hblank. rewrite Hblank in Hfirst.
      discriminate.
    + intros Hblank. apply isBlank_Some in Hblank. rewrite Hblank in Hlast.
      discriminate.
    + destruct (isBlank (Some (UserForms.email form))); [discriminate|].
      destruct (Regex.test emailRe (UserForms.email form)); [reflexivity | discriminate].
    + destruct (isEmpty (UserForms.password form)); [discriminate|].
      destruct (Nat.ltb_spec (length (UserForms.password form)) 6);
        [discriminate | assumption].
    + intros Hnone. rewrite Hnone in Hrole. discriminate.
  - intros (Hfirstname & Hlastname & Htest & Hlength & Hchosen).
    pose proof (isBlank_filled _ Hfirstname) as B1.
    pose proof (isBlank_filled _ Hlastname) as B2.
    pose proof (test_not_blank _ Htest) as B3.
    assert (isEmpty (UserForms.password form) = false) as B4.
    { destruct (UserForms.password form); [simpl in Hlength; lia | reflexivity]. }
    assert ((length (UserForms.password form) <? 6)%nat = false) as B5.
    { apply Nat.ltb_ge. exact Hlength. }
    apply String.eqb_neq in Hchosen.
    subst e5 e4 e3 e2 e1.
    unfold UserForms.emailErrors, UserForms.passwordErrors.
    rewrite B1, B2, B3, Htest, B4, B5, Hchosen. reflexivity.
Qed.

Lemma add_user_validation_witness :
  snd (UserForms.validateAddUser
         {| UserForms.firstName := asciiText "Grace";
            UserForms.lastName := asciiText "Hopper";
            UserForms.email := asciiText "grace@example.org";
            UserForms.password := asciiText "cobol60";
            UserForms.role := "USER" |}) = true.
Proof.
  apply (proj2 (proj2 (proj2 (proj2 (proj2 (add_user_validation
    {| UserForms.firstName := asciiText "Grace";
       UserForms.lastName := asciiText "Hopper";
       UserForms.email := asciiText "grace@example.org";
       UserForms.password := asciiText "cobol60";
       UserForms.role := "USER" |})))))).
  repeat split; try (vm_compute; discriminate); try reflexivity.
  simpl. lia.
Defined.

(** Resetting a password: a missing or short new password is reported
    under [newPassword], a missing or different confirmation under
    [confirmPassword]; the validation passes exactly when the new password
    has at least six code units and the confirmation repeats it. *)
Theorem reset_password_validation (newPassword confirmPassword : JsText) :
  let errors := fst (UserForms.validateResetPassword newPassword confirmPassword) in
  errors !! "newPassword"
    = (if isEmpty newPassword then Some "New password is required"
       else if (length newPassword <? 6)%nat
            then Some "Password must be at least 6 characters" else None)
  /\ errors !! "confirmPassword"
    = (if isEmpty confirmPassword then Some "Please confirm the password"
       else if bool_decide (newPassword = confirmPassword) then None
       else Some "Passwords do not match")
  /\ (snd (UserForms.validateResetPassword newPassword confirmPassword) = true
      <-> (6 <= length newPassword)%nat /\ confirmPassword = newPassword).
Proof.
  intros errors. subst errors. unfold UserForms.validateResetPassword. cbn [fst snd].
  set (e1 := if isEmpty newPassword then _ else _).
  set (e2 := if isEmpty confirmPassword then _ else _).
  assert (e2 !! "newPassword"
          = if isEmpty newPassword then Some "New password is required"
            else if (length newPassword <? 6)%nat
                 then Some "Password must be at least 6 characters" else None) as Hnew.
  { subst e2 e1. destruct (isEmpty confirmPassword).
    - rewrite lookup_insert_ne by discriminate.
      destruct (isEmpty newPassword);
        [apply lookup_insert_eq | rewrite flag_lookup_eq, lookup_empty; reflexivity].
    - rewrite flag_lookup_ne by discriminate.
      destruct (isEmpty newPassword);
        [apply lookup_insert_eq | rewrite flag_lookup_eq, lookup_empty; reflexivity]. }
  assert (e2 !! "confirmPassword"
          = if isEmpty confirmPassword then Some "Please confirm the password"
            else if bool_decide (newPassword = confirmPassword) then None
            else Some "Passwords do not match") as Hconfirm.
  { subst e2 e1. destruct (isEmpty confirmPassword).
    - apply lookup_insert_eq.
    - rewrite flag_lookup_eq.
      destruct (bool_decide (newPassword = confirmPassword)); simpl; [|reflexivity].
      destruct (isEmpty newPassword);
        [rewrite lookup_insert_ne by discriminate; apply lookup_empty|].
      rewrite flag_lookup_ne by discriminate. apply lookup_empty. }
  split; [exact Hnew|]. split; [exact Hconfirm|].
  rewrite noErrors_empty. split.
  - intros Hempty. rewrite Hempty, lookup_empty in Hnew, Hconfirm.
    destruct (isEmpty newPassword); [discriminate|].
    destruct (Nat.ltb_spec (length newPassword) 6); [discriminate|].
    destruct (isEmpty confirmPassword); [discriminate|].
    destruct (bool_decide_reflect (newPassword = confirmPassword)); [|discriminate].
    split; [assumption | congruence].
  - intros [Hlength ->].
    assert (isEmpty newPassword = false) as B1.
    { destruct newPassword; [simpl in Hlength; lia | reflexivity]. }
    assert ((length newPassword <? 6)%nat = false) as B2.
    { apply Nat.ltb_ge. exact Hlength. }
    subst e2 e1. rewrite B1, B2, bool_decide_eq_true_2 by reflexivity. reflexivity.
Qed.

(** A password of six code units passes; [p], [a] with diaeresis, [s], [s],
    [w] has five and does not, repeated or not. *)
Lemma reset_password_validation_witness :
  snd (UserForms.validateResetPassword (asciiText "cobol6") (asciiText "cobol6")) = true
  /\ fst (UserForms.validateResetPassword [112; 228; 115; 115; 119]%N
            [112; 228; 115; 115; 119]%N) !! "newPassword"
     = Some "Password must be at least 6 characters".
Proof.
  split.
  - apply (proj2 (proj2 (reset_password_validation (asciiText "cobol6")
                           (asciiText "cobol6")))).
    split; [simpl; lia | reflexivity].
  - apply (proj1 (reset_password_validation [112; 228; 115; 115; 119]%N
                    [112; 228; 115; 115; 119]%N)).
Defined.

(** ** UserManagement: the search *)

Lemma includes_empty (text : string) : UserForms.includes text "" = true.
Proof. destruct text; reflexivity. Qed.

Lemma lower_upper (c : ascii) :
  UserForms.lowerAscii (upperAscii c) = UserForms.lowerAscii c.
Proof.
  destruct c as [[] [] [] [] [] [] [] []]; reflexivity.
Qed.

Lemma toLowerCase_toUpperCase (s : string) :
  UserForms.toLowerCase (toUpperCaseAscii s) = UserForms.toLowerCase s.
Proof.
  induction s as [|c rest IH]; [reflexivity|].
  simpl. rewrite lower_upper, IH. reflexivity.
Qed.

Lemma filter_sublist {A} (keep : A -> bool) (l : list A) :
  sublist (List.filter keep l) l.
Proof.
  induction l as [|x rest IH]; simpl; [constructor|].
  destruct (keep x); [apply sublist_skip | apply sublist_cons]; exact IH.
Qed.

(** The list of users the table shows.  With an empty search term and the
    role filter on ["ALL"] it is the loaded list itself.  In every case it
    holds loaded users only, in their order, and under a role filter only
    users with exactly that role.  The case of the ASCII letters of the
    search term does not matter. *)
Theorem user_search (s : UserManagement.State) :
  (UserManagement.searchTerm s = "" -> UserManagement.filterRole s = "ALL" ->
   UserForms.filteredUsers s = UserManagement.users s)
  /\ sublist (UserForms.filteredUsers s) (UserManagement.users s)
  /\ (forall u, In u (UserForms.filteredUsers s) ->
        In u (UserManagement.users s)
        /\ (UserManagement.filterRole s = "ALL"
            \/ User.role u = UserManagement.filterRole s))
  /\ (forall term role u,
        UserForms.matchesFilters (toUpperCaseAscii term) role u
        = UserForms.matchesFilters term role u).
Proof.
  split; [|split; [apply filter_sublist|split]].
  - intros Hterm Hrole. unfold UserForms.filteredUsers. rewrite Hterm, Hrole.
    apply forallb_filter_id. apply forallb_forall. intros u _.
    unfold UserForms.matchesFilters. simpl. rewrite includes_empty. reflexivity.
  - intros u Hin. unfold UserForms.filteredUsers in Hin.
    apply filter_In in Hin as [Hin Hmatch]. split; [exact Hin|].
    unfold UserForms.matchesFilters in Hmatch.
    apply andb_true_iff in Hmatch as [_ Hrole].
    apply orb_true_iff in Hrole as [Hall | Hsame].
    + left. apply String.eqb_eq. exact Hall.
    + right. apply String.eqb_eq. exact Hsame.
  - intros term role u. unfold UserForms.matchesFilters.
    rewrite toLowerCase_toUpperCase. reflexivity.
Qed.

Lemma user_search_witness :
  UserForms.filteredUsers (userViewOf "" "ALL")
  = UserManagement.users (userViewOf "" "ALL").
Proof. apply (proj1 (user_search (userViewOf "" "ALL"))); reflexivity. Defined.

(** A search by a part of a name, and a role filter. *)
Example user_search_samples :
  map User.id (UserForms.filteredUsers (userViewOf "TUR" "ALL")) = ["u2"]
  /\ map User.id (UserForms.filteredUsers (userViewOf "a" "ADMIN")) = ["u1"]
  /\ map User.id (UserForms.filteredUsers (userViewOf "a" "admin")) = [].
Proof. repeat split; reflexivity. Qed.

(** ** Pie chart: the arcs continue one another *)

Lemma mapSlices_length (len : nat) (categories : list CategoryBreakdown.t) :
  forall index currentAngle,
  length (UserExpenseReport.mapSlices len index currentAngle categories)
  = length categories.
Proof.
  induction categories as [|category rest IH]; intros index currentAngle; simpl;
    [reflexivity|].
  destruct (UserExpenseReport.drawnAsCircle len _); simpl; rewrite IH; reflexivity.
Qed.

Lemma mapSlices_chain (len : nat) (categories : list CategoryBreakdown.t) :
  forall index currentAngle,
  let arcs := spans (UserExpenseReport.mapSlices len index currentAngle categories) in
  chained currentAngle arcs
  /\ chainEnd currentAngle arcs
     = fold_left Qplus
         (map UserExpenseReport.angleOf (List.filter (isArc len) categories))
         currentAngle.
Proof.
  induction categories as [|category rest IH]; intros index currentAngle; simpl;
    [auto|].
  unfold isArc at 1.
  destruct (UserExpenseReport.drawnAsCircle len (UserExpenseReport.angle64 category));
    simpl.
  - apply IH.
  - destruct (IH (S index) (currentAngle + UserExpenseReport.angleOf category)%Q)
      as [Hchain Hend].
    auto.
Qed.

Lemma mapSlices_arcsOnly (len : nat) (categories : list CategoryBreakdown.t) :
  forall index currentAngle,
  forallb (fun slice => negb (isCircle slice))
    (UserExpenseReport.mapSlices len index currentAngle categories)
  = forallb (isArc len) categories.
Proof.
  induction categories as [|category rest IH]; intros index currentAngle; simpl;
    [reflexivity|].
  unfold isArc at 1.
  destruct (UserExpenseReport.drawnAsCircle len (UserExpenseReport.angle64 category));
    simpl; [reflexivity | apply IH].
Qed.

Lemma sum_of_angles (categories : list CategoryBreakdown.t) :
  forall from : Q,
  (fold_left Qplus (map UserExpenseReport.angleOf categories) from
   == from + totalPercentage categories / 100 * 360)%Q.
Proof.
  induction categories as [|category rest IH]; intros from; simpl.
  - field.
  - rewrite IH. unfold UserExpenseReport.angleOf. field.
Qed.

(** The pie chart draws one element per category.  Its arcs continue one
    another: the first starts at 0 degrees and each next one starts at the
    very angle the one before ended at, so there is neither a gap nor an
    overlap between two arcs.  When the chart that was drawn holds no full
    circle, the last arc ends at the sum of the percentages taken as a share
    of 360 degrees, hence at 360 degrees for percentages that add up to 100
    (the angles being the exact ones, before rounding). *)
Theorem pie_arcs_tile (categories : list CategoryBreakdown.t)
    (slices : list UserExpenseReport.Slice) :
  UserExpenseReport.generatePieChart categories = Some slices ->
  length slices = length categories
  /\ chained 0%Q (spans slices)
  /\ (arcsOnly slices ->
      (chainEnd 0%Q (spans slices) == totalPercentage categories / 100 * 360)%Q
      /\ ((totalPercentage categories == 100)%Q ->
          (chainEnd 0%Q (spans slices) == 360)%Q)).
Proof.
  unfold UserExpenseReport.generatePieChart.
  destruct (Nat.eqb (length categories) 0); [discriminate|].
  intros [= <-].
  destruct (mapSlices_chain (length categories) categories 0%nat 0%Q)
    as [Hchain Hend].
  split; [apply mapSlices_length|]. split; [exact Hchain|].
  unfold arcsOnly. rewrite mapSlices_arcsOnly. intros Harcs.
  assert (chainEnd 0%Q (spans (UserExpenseReport.mapSlices (length categories) 0 0%Q
                                 categories))
          == totalPercentage categories / 100 * 360)%Q as Htotal.
  { rewrite Hend. rewrite forallb_filter_id by exact Harcs.
    rewrite sum_of_angles. field. }
  split; [exact Htotal|].
  intros Hhundred. rewrite Htotal, Hhundred. reflexivity.
Qed.

Lemma pie_arcs_tile_witness :
  exists slices,
    UserExpenseReport.generatePieChart threeWay = Some slices
    /\ (chainEnd 0%Q (spans slices) == 360)%Q.
Proof.
  eexists. split; [vm_compute; reflexivity|].
  refine (proj2 (proj2 (proj2 (pie_arcs_tile threeWay _ eq_refl)) _) _).
  - vm_compute. reflexivity.
  - reflexivity.
Defined.

(** ** Bar chart: where the bars stand *)

Lemma inject_nat_nonneg (n : nat) : (0 <= inject_Z (Z.of_nat n))%Q.
Proof. replace 0%Q with (inject_Z 0) by reflexivity. rewrite <- Zle_Qle. lia. Qed.

Lemma inject_nat_succ (n : nat) :
  (inject_Z (Z.of_nat (S n)) == inject_Z (Z.of_nat n) + 1)%Q.
Proof.
  rewrite Nat2Z.inj_succ. unfold Z.succ. rewrite inject_Z_plus. reflexivity.
Qed.

Lemma inject_nat_lt (i n : nat) :
  (i < n)%nat -> (inject_Z (Z.of_nat i) + 1 <= inject_Z (Z.of_nat n))%Q.
Proof.
  intros Hlt. rewrite <- inject_nat_succ. rewrite <- Zle_Qle. lia.
Qed.

(** The bars stand side by side inside the axes: the bar of month [i] has
    key [i] and starts 80 + 60 i from the left, so no bar starts left of the
    y-axis, two neighbouring bars are 20 apart, and the last bar ends at the
    right end of the x-axis or before it. *)
Theorem bars_side_by_side (monthlyData : list MonthlyBreakdown.t)
    (bars : list UserExpenseReport.Bar) :
  UserExpenseReport.generateBarChart monthlyData = Some bars ->
  forall (i : nat) bar, bars !! i = Some bar ->
    UserExpenseReport.barKey bar = i
    /\ (UserExpenseReport.barX bar == 80 + 60 * inject_Z (Z.of_nat i))%Q
    /\ (UserExpenseReport.chartLeftPadding < UserExpenseReport.barX bar)%Q
    /\ (UserExpenseReport.barX bar + UserExpenseReport.barWidth
        <= ReportLayout.totalWidth (length monthlyData)
           - ReportLayout.chartRightPadding)%Q
    /\ (forall next, bars !! S i = Some next ->
          (UserExpenseReport.barX next
           == UserExpenseReport.barX bar + UserExpenseReport.barWidth + 20)%Q).
Proof.
  unfold UserExpenseReport.generateBarChart.
  destruct (Nat.eqb (length monthlyData) 0); [discriminate|].
  intros [= <-] i bar Hbar.
  rewrite list_lookup_imap in Hbar.
  destruct (monthlyData !! i) as [month|] eqn:Hmonth; [|discriminate].
  injection Hbar as <-.
  assert (i < length monthlyData)%nat as Hlt.
  { apply lookup_lt_is_Some. eauto. }
  pose proof (inject_nat_nonneg i) as Hnonneg.
  pose proof (inject_nat_lt i _ Hlt) as Hbelow.
  unfold UserExpenseReport.barOf, ReportLayout.totalWidth,
    ReportLayout.chartRightPadding, UserExpenseReport.chartLeftPadding,
    UserExpenseReport.barWidth, UserExpenseReport.barSpacing. simpl.
  split; [reflexivity|]. split; [ring|]. split; [lra|]. split; [lra|].
  intros next Hnext. rewrite list_lookup_imap in Hnext.
  destruct (monthlyData !! S i) as [month'|]; [|discriminate].
  injection Hnext as <-. simpl.
  rewrite inject_nat_succ. ring.
Qed.

Lemma bars_side_by_side_witness :
  exists bar,
    (imap (UserExpenseReport.barOf (Finite 10)) twoMonths) !! 1%nat = Some bar
    /\ UserExpenseReport.barKey bar = 1%nat
    /\ (UserExpenseReport.barX bar == 140)%Q.
Proof.
  eexists. split; [reflexivity|].
  destruct (bars_side_by_side twoMonths _ eq_refl 1%nat _ eq_refl) as (Hkey & Hx & _).
  split; [exact Hkey|]. rewrite Hx. reflexivity.
Defined.

(** For a non-empty series of nonnegative amounts with a positive maximum
    every bar stays between the top of the plot and the x-axis, and a month
    that reaches the maximum gets the full height: its bar is 230 high and
    starts at the top padding. *)
Theorem bars_inside_plot (monthlyData : list MonthlyBreakdown.t)
    (bars : list UserExpenseReport.Bar) (mx : Q) :
  UserExpenseReport.generateBarChart monthlyData = Some bars ->
  UserExpenseReport.seriesMax monthlyData = Finite mx ->
  (0 < mx)%Q ->
  (forall m, In m monthlyData -> (0 <= MonthlyBreakdown.totalAmount m <= mx)%Q) ->
  forall (i : nat) month, monthlyData !! i = Some month ->
    exists bar y h,
      bars !! i = Some bar
      /\ UserExpenseReport.barY bar = Finite y
      /\ UserExpenseReport.barHeight bar = Finite h
      /\ (UserExpenseReport.chartTopPadding <= y)%Q
      /\ (y <= UserExpenseReport.chartHeight)%Q
      /\ (y + h == UserExpenseReport.chartHeight)%Q
      /\ ((MonthlyBreakdown.totalAmount month == mx)%Q ->
          (h == 230)%Q /\ (y == UserExpenseReport.chartTopPadding)%Q).
Proof.
  unfold UserExpenseReport.generateBarChart.
  destruct (Nat.eqb (length monthlyData) 0); [discriminate|].
  intros [= <-] Hmax Hpos Hbounds i month Hmonth.
  assert (In month monthlyData) as Hin.
  { apply list_elem_of_In. eapply list_elem_of_lookup_2. exact Hmonth. }
  destruct (Hbounds month Hin) as [Hlow Hhigh].
  destruct (scaled_height_bounds _ _ Hlow Hhigh Hpos) as [Hh0 Hh1].
  assert (Qeq_bool mx 0 = false) as Hnonzero.
  { destruct (Qeq_bool mx 0) eqn:Hzero; [|reflexivity].
    apply Qeq_bool_iff in Hzero. rewrite Hzero in Hpos.
    exfalso. exact (Qlt_irrefl 0 Hpos). }
  exists (UserExpenseReport.barOf (Finite mx) i month).
  exists (UserExpenseReport.chartHeight
          - MonthlyBreakdown.totalAmount month / mx * UserExpenseReport.barChartHeight)%Q.
  exists (MonthlyBreakdown.totalAmount month / mx * UserExpenseReport.barChartHeight)%Q.
  split; [rewrite list_lookup_imap, Hmonth, Hmax; reflexivity|].
  unfold UserExpenseReport.barOf. simpl. unfold isZero. rewrite Hnonzero. simpl.
  split; [reflexivity|]. split; [reflexivity|].
  rewrite barChartHeight_230.
  unfold UserExpenseReport.chartTopPadding, UserExpenseReport.chartHeight.
  split; [lra|]. split; [lra|]. split; [ring|].
  intros Hfull.
  assert (MonthlyBreakdown.totalAmount month / mx == 1)%Q as Hone.
  { rewrite Hfull. field. intros Hzero. rewrite Hzero in Hpos.
    exact (Qlt_irrefl 0 Hpos). }
  rewrite Hone. split; reflexivity.
Qed.

Lemma bars_inside_plot_witness :
  exists bar y h,
    (imap (UserExpenseReport.barOf (Finite (10 # 1))) twoMonths) !! 0%nat = Some bar
    /\ UserExpenseReport.barY bar = Finite y
    /\ UserExpenseReport.barHeight bar = Finite h
    /\ (h == 230)%Q.
Proof.
  destruct (bars_inside_plot twoMonths _ (10 # 1) eq_refl eq_refl) with
    (i := 0%nat) (month := MonthlyBreakdown.mk "2024-01" (10 # 1) 4)
    as (bar & y & h & Hbar & Hy & Hh & _ & _ & _ & Hfull).
  - reflexivity.
  - intros m [<- | [<- | []]]; split; vm_compute; discriminate.
  - reflexivity.
  - exists bar, y, h. split; [exact Hbar|]. split; [exact Hy|].
    split; [exact Hh|]. apply Hfull. reflexivity.
Defined.

(** ** Report view: what Apply sends and what a failure leaves *)

Lemma whenTruthy_twice (value : option string) :
  whenTruthy (whenTruthy value) = whenTruthy value.
Proof.
  unfold whenTruthy. destruct (truthy value) eqn:Htruthy; [|reflexivity].
  rewrite Htruthy. reflexivity.
Qed.

(** Apply sends one request whose query holds the selected category under
    [categoryId] and the selected month under [month], each only when it is
    not empty, and nothing else.  When that request fails, the summary that
    was on screen stays, the error is set and the view stops loading; when
    it succeeds the summary is replaced.  Neither settlement issues another
    request. *)
Theorem apply_sends_selection (s : UserExpenseReport.State) :
  let r := UserExpenseReport.step s UserExpenseReport.ClickApply in
  (exists sent, snd r = [sent]
     /\ forall key,
          ReportService.params (ReportService.getSummary (Some sent)) !! key
          = if String.eqb key "month" then
              whenTruthy (Some (UserExpenseReport.selectedMonth s))
            else if String.eqb key "categoryId" then
              whenTruthy (Some (UserExpenseReport.selectedCategoryId s))
            else None)
  /\ UserExpenseReport.loading (fst r) = true
  /\ UserExpenseReport.summary (fst r) = UserExpenseReport.summary s
  /\ (forall err,
      let failed := UserExpenseReport.step (fst r)
                      (UserExpenseReport.SummarySettled (Rejected err)) in
      snd failed = []
      /\ UserExpenseReport.summary (fst failed) = UserExpenseReport.summary s
      /\ UserExpenseReport.error (fst failed)
         = Some (errorMessage err "Failed to load summary")
      /\ UserExpenseReport.loading (fst failed) = false)
  /\ (forall data,
      let loaded := UserExpenseReport.step (fst r)
                      (UserExpenseReport.SummarySettled (Resolved data)) in
      snd loaded = []
      /\ UserExpenseReport.summary (fst loaded) = Some data
      /\ UserExpenseReport.error (fst loaded) = None
      /\ UserExpenseReport.loading (fst loaded) = false).
Proof.
  assert (UserExpenseReport.step s UserExpenseReport.ClickApply
          = (UserExpenseReport.setError None (UserExpenseReport.setLoading true s),
             [UserExpenseReport.filtersOf s])) as Hstep.
  { unfold UserExpenseReport.step. simpl.
    unfold UserExpenseReport.depsChanged. simpl. rewrite !String.eqb_refl. reflexivity. }
  rewrite Hstep. cbn [fst snd].
  split; [|split; [reflexivity|split; [reflexivity|split]]].
  - eexists. split; [reflexivity|]. intros key. rewrite getSummary_params.
    simpl ReportService.field. rewrite !whenTruthy_twice. reflexivity.
  - intros err. unfold UserExpenseReport.step. simpl.
    unfold UserExpenseReport.depsChanged. simpl. rewrite !String.eqb_refl.
    simpl. repeat split.
  - intros data. unfold UserExpenseReport.step. simpl.
    unfold UserExpenseReport.depsChanged. simpl. rewrite !String.eqb_refl.
    simpl. repeat split.
Qed.

(** ** Report view: one request at a time *)

Lemma step_user_event (s : UserExpenseReport.State) (ev : UserExpenseReport.Event) :
  ReportScreen.settled ev = 0%nat ->
  (snd (UserExpenseReport.step s ev) = []
   /\ UserExpenseReport.loading (fst (UserExpenseReport.step s ev))
      = UserExpenseReport.loading s)
  \/ (length (snd (UserExpenseReport.step s ev)) = 1%nat
      /\ UserExpenseReport.loading (fst (UserExpenseReport.step s ev)) = true).
Proof.
  intros Huser. unfold UserExpenseReport.step.
  destruct ev as [value | value | | | reply]; try discriminate Huser; simpl.
  - destruct (UserExpenseReport.depsChanged _ _); [|left; auto].
    unfold UserExpenseReport.filterEffect.
    destruct (_ && _ && _)%bool; simpl; [right | left]; auto.
  - destruct (UserExpenseReport.depsChanged _ _); [|left; auto].
    unfold UserExpenseReport.filterEffect.
    destruct (_ && _ && _)%bool; simpl; [right | left]; auto.
  - unfold UserExpenseReport.depsChanged. simpl. rewrite !String.eqb_refl.
    simpl. right. auto.
  - destruct (UserExpenseReport.depsChanged _ _); [|left; auto].
    unfold UserExpenseReport.filterEffect.
    destruct (_ && _ && _)%bool; simpl; [right | left]; auto.
Qed.

Lemma step_settlement (s : UserExpenseReport.State) (reply : Reply UserExpenseReport.SummaryData) :
  snd (UserExpenseReport.step s (UserExpenseReport.SummarySettled reply)) = []
  /\ UserExpenseReport.loading
       (fst (UserExpenseReport.step s (UserExpenseReport.SummarySettled reply))) = false.
Proof.
  unfold UserExpenseReport.step. simpl.
  assert (UserExpenseReport.depsChanged s
            (UserExpenseReport.fetchSummarySettled reply s) = false) as ->.
  { unfold UserExpenseReport.depsChanged. destruct reply; simpl;
      rewrite !String.eqb_refl; reflexivity. }
  destruct reply; auto.
Qed.

Lemma step_invariant s pending s' pending' :
  ReportScreen.Step s pending s' pending' ->
  inStep s pending -> inStep s' pending'.
Proof.
  unfold inStep. intros Hstep IH.
  destruct Hstep as [s pending ev Hoffered | s pending Hshown Herror | s pending content];
    [|exact IH|exact IH].
  destruct ev as [value | value | | | reply].
  1-4: (simpl in Hoffered; unfold ReportScreen.showsReport, ReportScreen.render in Hoffered;
        destruct (UserExpenseReport.loading s) eqn:Hloading; [discriminate|];
        destruct IH as [[Hl _] | [_ ->]]; [discriminate|]).
  - destruct (step_user_event s (UserExpenseReport.ChangeCategory value) eq_refl)
      as [[-> Hl] | [-> Hl]]; rewrite Hl; simpl; auto.
  - destruct (step_user_event s (UserExpenseReport.ChangeMonth value) eq_refl)
      as [[-> Hl] | [-> Hl]]; rewrite Hl; simpl; auto.
  - destruct (step_user_event s UserExpenseReport.ClickApply eq_refl)
      as [[-> Hl] | [-> Hl]]; rewrite Hl; simpl; auto.
  - destruct (step_user_event s UserExpenseReport.ClickClear eq_refl)
      as [[-> Hl] | [-> Hl]]; rewrite Hl; simpl; auto.
  - simpl in Hoffered. apply Nat.ltb_lt in Hoffered.
    destruct IH as [[_ ->] | [_ ->]]; [|lia].
    destruct (step_settlement s reply) as [-> ->]. right. auto.
Qed.

Lemma trace_invariant s pending s' pending' :
  ReportScreen.Trace s pending s' pending' ->
  inStep s pending -> inStep s' pending'.
Proof.
  intros Htrace Hstart. induction Htrace as [|s pending s1 p1 s2 p2 _ IH Hstep].
  - exact Hstart.
  - apply (step_invariant s1 p1 s2 p2 Hstep). apply IH. exact Hstart.
Qed.

Lemma no_data_offers_nothing (s : UserExpenseReport.State) :
  UserExpenseReport.loading s = false ->
  UserExpenseReport.summary s = None ->
  ReportScreen.render s = ReportScreen.NoDataScreen
  /\ ReportScreen.showsReport s = false
  /\ forall ev, ReportScreen.offered s 0 ev = false.
Proof.
  intros Hidle Hnone.
  assert (ReportScreen.render s = ReportScreen.NoDataScreen) as Hscreen.
  { unfold ReportScreen.render. rewrite Hidle, Hnone. reflexivity. }
  assert (ReportScreen.showsReport s = false) as Hhidden.
  { unfold ReportScreen.showsReport. rewrite Hscreen. reflexivity. }
  repeat split; auto. intros ev. destruct ev; simpl; auto.
Qed.

Lemma no_data_is_final s pending s' pending' :
  ReportScreen.Trace s pending s' pending' ->
  pending = 0%nat ->
  UserExpenseReport.loading s = false ->
  UserExpenseReport.summary s = None ->
  pending' = 0%nat
  /\ UserExpenseReport.loading s' = false
  /\ UserExpenseReport.summary s' = None
  /\ UserExpenseReport.error s' = UserExpenseReport.error s.
Proof.
  intros Htrace Hzero Hidle Hnone.
  induction Htrace as [|s pending s1 p1 s2 p2 _ IH Hstep]; [auto|].
  destruct (IH Hzero Hidle Hnone) as (-> & Hidle1 & Hnone1 & Herror1).
  destruct (no_data_offers_nothing s1 Hidle1 Hnone1) as (_ & Hhidden & Hnothing).
  inversion Hstep as [s0 p0 ev Hoffered | s0 p0 Hshown Herror | s0 p0 content]; subst.
  - rewrite Hnothing in Hoffered. discriminate Hoffered.
  - rewrite Hhidden in Hshown. discriminate Hshown.
  - simpl. auto.
Qed.

(** From the activation on, whatever the user does and whatever the backend
    answers, at most one summary request is in flight, and the view shows
    the loading screen exactly while one is: the controls that could issue a
    second request are not on screen until the first has settled. *)
Theorem one_request_in_flight (s : UserExpenseReport.State) (pending : nat) :
  ReportScreen.Reachable s pending ->
  (pending <= 1)%nat
  /\ (ReportScreen.render s = ReportScreen.LoadingScreen <-> pending = 1%nat)
  /\ (forall ev, ReportScreen.settled ev = 0%nat ->
        ReportScreen.offered s pending ev = true -> pending = 0%nat).
Proof.
  intros Hreach. unfold ReportScreen.render.
  destruct (trace_invariant _ _ s pending Hreach) as [[Hl ->] | [Hl ->]].
  { left. split; reflexivity. }
  - rewrite Hl. split; [lia|]. split; [tauto|].
    intros ev Huser Hoffered. destruct ev; try discriminate Huser;
      simpl in Hoffered; unfold ReportScreen.showsReport, ReportScreen.render in Hoffered;
      rewrite Hl in Hoffered; discriminate.
  - rewrite Hl. split; [lia|]. split; [|reflexivity].
    destruct (UserExpenseReport.summary s); split; intros; discriminate.
Qed.

Lemma one_request_in_flight_witness :
  let s := fst (UserExpenseReport.step ReportScreen.mounted
                  (UserExpenseReport.SummarySettled (Resolved sampleSummary))) in
  (0 <= 1)%nat
  /\ (ReportScreen.render s = ReportScreen.LoadingScreen <-> 0%nat = 1%nat).
Proof.
  destruct (one_request_in_flight _ _
              (ReportScreen.TraceStep _ _ _ _ _ _
                 (ReportScreen.TraceEnd ReportScreen.mounted 1)
                 (ReportScreen.OnEvent ReportScreen.mounted 1
                    (UserExpenseReport.SummarySettled (Resolved sampleSummary))
                    eq_refl))) as (Hmost & Hscreen & _).
  split; [exact Hmost | exact Hscreen].
Defined.

(** When the first load of the summary fails, the view shows "No data
    available" and stays there: the error banner, the filters and the
    buttons belong to the report body, so the message of the failure is
    never shown, no event of the view can follow, and whatever happens
    afterwards no second request is issued. *)
Theorem failed_first_load_is_final (err : JsError) :
  let s := fst (UserExpenseReport.step ReportScreen.mounted
                  (UserExpenseReport.SummarySettled (Rejected err))) in
  ReportScreen.Reachable s 0
  /\ UserExpenseReport.error s = Some (errorMessage err "Failed to load summary")
  /\ (forall s' pending, ReportScreen.Trace s 0 s' pending ->
        pending = 0%nat
        /\ ReportScreen.render s' = ReportScreen.NoDataScreen
        /\ (forall ev, ReportScreen.offered s' pending ev = false)).
Proof.
  intros s. subst s. split; [|split].
  - apply (ReportScreen.TraceStep _ _ _ _ _ _
             (ReportScreen.TraceEnd ReportScreen.mounted 1)
             (ReportScreen.OnEvent ReportScreen.mounted 1
                (UserExpenseReport.SummarySettled (Rejected err)) eq_refl)).
  - reflexivity.
  - intros s' pending Htrace.
    destruct (no_data_is_final _ _ _ _ Htrace eq_refl eq_refl eq_refl)
      as (-> & Hidle & Hnone & _).
    destruct (no_data_offers_nothing s' Hidle Hnone) as (Hscreen & _ & Hnothing).
    auto.
Qed.

Lemma failed_first_load_is_final_witness :
  ReportScreen.render
    (ReportScreen.setCategories [food]
       (fst (UserExpenseReport.step ReportScreen.mounted
               (UserExpenseReport.SummarySettled (Rejected networkError)))))
  = ReportScreen.NoDataScreen.
Proof.
  destruct (failed_first_load_is_final networkError) as (_ & _ & Hfinal).
  apply (Hfinal _ 0%nat).
  apply (ReportScreen.TraceStep _ _ _ _ _ _ (ReportScreen.TraceEnd _ 0)).
  apply ReportScreen.OnCategories.
Defined.

(** ** Dashboards: when the body is on screen *)

Section DashboardProperties.
Variable JSON_parse : string -> Completion JsValue.
Variable toUpperCase : string -> string.

(** A dashboard shows its body for a user exactly when a token is stored
    and the stored profile parses to that user, for the admin dashboard
    with a role that the engine upper-cases to ADMIN.  With a token and no stored
    profile the gate does nothing at all: no navigation, no user, and the
    dashboard stays on its loading placeholder. *)
Theorem dashboard_body_needs_profile (admin : bool) (st : Storage) :
  (forall u,
     DashboardScreen.afterGate (gate JSON_parse toUpperCase (DashboardScreen.dashboardView admin) st)
     = DashboardScreen.Dashboard u
     <-> truthy (readItem st "authToken") = true
         /\ jsTruthy u = true
         /\ (admin = true -> roleIsNotAdmin toUpperCase u = Normal false)
         /\ exists text, whenTruthy (readItem st "user") = Some text
                         /\ JSON_parse text = Normal u)
  /\ (truthy (readItem st "authToken") = true ->
      whenTruthy (readItem st "user") = None ->
      gate JSON_parse toUpperCase (DashboardScreen.dashboardView admin) st = Returned []
      /\ DashboardScreen.afterGate
           (gate JSON_parse toUpperCase (DashboardScreen.dashboardView admin) st)
         = DashboardScreen.LoadingPlaceholder).
Proof.
  split.
  - intros u. destruct admin; simpl;
      unfold AdminDashboard.authEffect, UserDashboard.authEffect;
      destruct (truthy (readItem st "authToken")); simpl;
      try (split; [discriminate | intros [Hfalse _]; discriminate Hfalse]);
      destruct (whenTruthy (readItem st "user")) as [text|]; simpl;
      try (split; [discriminate | intros (_ & _ & _ & text' & Hnone & _); discriminate Hnone]);
      destruct (JSON_parse text) as [userData | e] eqn:Hparse; simpl;
      try (split; [discriminate
                  | intros (_ & _ & _ & text' & Htext & Hp); congruence]).
    + destruct (roleIsNotAdmin toUpperCase userData) as [[|] | e] eqn:Hrole; simpl.
      * split; [discriminate|].
        intros (_ & _ & Hadmin & text' & Htext & Hp).
        assert (userData = u) as -> by congruence.
        specialize (Hadmin eq_refl). congruence.
      * destruct (jsTruthy userData) eqn:Htruthy.
        -- split.
           ++ intros Hshown. injection Hshown as <-.
              repeat split; auto. exists text. auto.
           ++ intros (_ & _ & _ & text' & Htext & Hp).
              assert (userData = u) as -> by congruence. reflexivity.
        -- split; [discriminate|].
           intros (_ & Hu & _ & text' & Htext & Hp).
           assert (userData = u) as -> by congruence. congruence.
      * split; [discriminate|].
        intros (_ & _ & Hadmin & text' & Htext & Hp).
        assert (userData = u) as -> by congruence.
        specialize (Hadmin eq_refl). congruence.
    + destruct (jsTruthy userData) eqn:Htruthy.
      * split.
        -- intros Hshown. injection Hshown as <-.
           repeat split; auto; try discriminate. exists text. auto.
        -- intros (_ & _ & _ & text' & Htext & Hp).
           assert (userData = u) as -> by congruence. reflexivity.
      * split; [discriminate|].
        intros (_ & Hu & _ & text' & Htext & Hp).
        assert (userData = u) as -> by congruence. congruence.
  - intros Htoken Hnone. destruct admin; simpl;
      unfold AdminDashboard.authEffect, UserDashboard.authEffect;
      rewrite Htoken, Hnone; simpl; auto.
Qed.

End DashboardProperties.

Lemma dashboard_body_needs_profile_witness :
  DashboardScreen.afterGate
    (gate sampleParse toUpperCaseAscii (DashboardScreen.dashboardView true)
       (sessionOf "admin"))
  = DashboardScreen.Dashboard (JObj [("role", JStr "admin")])
  /\ DashboardScreen.afterGate
       (gate sampleParse toUpperCaseAscii (DashboardScreen.dashboardView true) tokenOnly)
     = DashboardScreen.LoadingPlaceholder.
Proof.
  split.
  - apply (proj1 (dashboard_body_needs_profile sampleParse toUpperCaseAscii true
                    (sessionOf "admin"))).
    split; [reflexivity|]. split; [reflexivity|]. split; [reflexivity|].
    exists (profileText "admin"). split; reflexivity.
  - apply (dashboard_body_needs_profile sampleParse toUpperCaseAscii true tokenOnly);
      reflexivity.
Defined.

(** ** Turning the page *)

Lemma handlePageChange_same (s : UserExpenseManagement.State) :
  UserExpenseManagement.handlePageChange (UserExpenseManagement.currentPage s) s = s.
Proof. destruct s; reflexivity. Qed.

(** A click on the pagination bar.  A control that asks for the page the
    view is on (or for none: a disabled button, an ellipsis) changes nothing
    and calls nothing.  A control that asks for another page runs the gate
    again: with a token the expenses of exactly that page are requested,
    with the page size of the view, then the categories, and the view ends
    on that page showing the answer; with no token left in either store the
    view navigates to [/login] and requests nothing. *)
Theorem page_turn (c : PaginationBar.Control) (st : Storage)
    (expensesReply : Reply (PageResponse Expense.t))
    (categoriesReply : Reply (PageResponse Category.t))
    (s : UserExpenseManagement.State) :
  let r := PageTurn.turnPage c st expensesReply categoriesReply s in
  ((PaginationBar.clicked c = None
    \/ PaginationBar.clicked c = Some (UserExpenseManagement.currentPage s)) ->
   r = (s, [], []))
  /\ (forall page, PaginationBar.clicked c = Some page ->
        page <> UserExpenseManagement.currentPage s ->
        (truthy (readItem st "authToken") = false ->
         r = (UserExpenseManagement.handlePageChange page s, [Navigate "/login"], []))
        /\ (truthy (readItem st "authToken") = true ->
            snd r = [ExpenseService_getAllExpenses page (UserExpenseManagement.pageSize s);
                     CategoryService_getAllCategories]
            /\ ~ In (Navigate "/login") (snd (fst r))
            /\ UserExpenseManagement.currentPage (fst (fst r)) = page
            /\ UserExpenseManagement.pageSize (fst (fst r)) = UserExpenseManagement.pageSize s
            /\ UserExpenseManagement.loading (fst (fst r)) = false
            /\ match expensesReply with
               | Resolved response =>
                   UserExpenseManagement.expenses (fst (fst r))
                   = orElse (content response) []
                   /\ UserExpenseManagement.totalPages (fst (fst r))
                      = orElse (totalPagesOf response) 0
                   /\ UserExpenseManagement.error (fst (fst r)) = None
               | Rejected err =>
                   UserExpenseManagement.expenses (fst (fst r))
                   = UserExpenseManagement.expenses s
                   /\ UserExpenseManagement.totalPages (fst (fst r))
                      = UserExpenseManagement.totalPages s
                   /\ UserExpenseManagement.error (fst (fst r))
                      = Some (errorMessage err "Failed to load expenses")
               end)).
Proof.
  intros r. subst r. unfold PageTurn.turnPage, PaginationBar.click. split.
  - intros [-> | ->].
    + unfold PageTurn.depsChanged. rewrite !Z.eqb_refl. reflexivity.
    + rewrite handlePageChange_same. unfold PageTurn.depsChanged.
      rewrite !Z.eqb_refl. reflexivity.
  - intros page -> Hother.
    assert (PageTurn.depsChanged s (UserExpenseManagement.handlePageChange page s) = true)
      as ->.
    { unfold PageTurn.depsChanged. simpl.
      destruct (Z.eqb_spec (UserExpenseManagement.currentPage s) page) as [Heq | _];
        [congruence | reflexivity]. }
    unfold PageTurn.runEffect, UserExpenseManagement.authEffect. split.
    + intros ->. reflexivity.
    + intros ->. simpl.
      destruct expensesReply as [response | err], categoriesReply as [cats | cerr];
        simpl; repeat split; auto; intros [Hin | [Hin | []]]; discriminate Hin.
Qed.

Lemma page_turn_witness :
  snd (PageTurn.turnPage
         (PaginationBar.NavButton "Next" 2 false) (sessionOf "USER")
         (Rejected networkError) (Rejected networkError) (expenseViewAt 1 3))
  = [ExpenseService_getAllExpenses 2
       (UserExpenseManagement.pageSize (expenseViewAt 1 3));
     CategoryService_getAllCategories].
Proof.
  apply (page_turn (PaginationBar.NavButton "Next" 2 false) (sessionOf "USER")
           (Rejected networkError) (Rejected networkError) (expenseViewAt 1 3)).
  - reflexivity.
  - discriminate.
  - reflexivity.
Defined.
